(** * Conversion of Mastra spans to OpenTelemetry spans

    A shallow embedding of [observability/otel-exporter/src/otel-span.ts]
    and [observability/otel-exporter/src/span-converter.ts], and the
    properties of the converter that the specification states. *)

From Stdlib Require Import ZArith NArith List String Ascii Bool Lia SpecFloat.
From stdpp Require Import base option list gmap.

Local Open Scope N_scope.
Set Warnings "-register-all".

(** ** JavaScript values *)

(** A JavaScript string is the sequence of its code points: a surrogate pair
    counts as one element, a lone surrogate as itself.  This is the view the
    [u]-flagged regular expression of [sanitizeSpanName] and
    [String.prototype.toLowerCase] have of a string; strict equality of
    strings is equality of these sequences. *)
Abbreviation jsstring := (list N).

(** A string literal of the source, which is ASCII throughout. *)
Definition str (s : string) : jsstring :=
  List.map N_of_ascii (list_ascii_of_string s).
Arguments str s%_string.

(** A JavaScript number is an IEEE 754 binary64 value. *)
Abbreviation number := spec_float.

(** The values that the [any]-typed fields of a span carry ([input],
    [output], metadata values, [errorInfo.details.stack]): JSON-like data,
    which is primitives, arrays and plain objects, finite and without
    functions, symbols or BigInts; [JSON.stringify] turns each of them into
    a string.  A missing property reads as [JUndefined]. *)
Inductive JsValue : Type :=
| JUndefined
| JNull
| JBool (b : bool)
| JNum (n : number)
| JStr (s : jsstring)
| JArr (items : list JsValue)
| JObj (fields : list (jsstring * JsValue)).

(** [ToBoolean] on numbers: zeros and NaN are falsy. *)
Definition numberTruthy (n : number) : bool :=
  match n with
  | S754_zero _ | S754_nan => false
  | _ => true
  end.

(** [ToBoolean] on strings: only the empty string is falsy. *)
Definition stringTruthy (s : jsstring) : bool :=
  match s with
  | [] => false
  | _ :: _ => true
  end.

(** [ToBoolean]. *)
Definition truthy (v : JsValue) : bool :=
  match v with
  | JUndefined | JNull => false
  | JBool b => b
  | JNum n => numberTruthy n
  | JStr s => stringTruthy s
  | JArr _ | JObj _ => true
  end.

(** Truthiness of an optional string property ([undefined] when absent). *)
Definition optTruthy (o : option jsstring) : bool :=
  match o with
  | Some s => stringTruthy s
  | None => false
  end.

(** [typeof v === 'object'] *)
Definition typeofObject (v : JsValue) : bool :=
  match v with
  | JNull | JArr _ | JObj _ => true
  | _ => false
  end.

(** [v === null || v === undefined] *)
Definition nullishValue (v : JsValue) : bool :=
  match v with JNull | JUndefined => true | _ => false end.

(** [Array.prototype.join] with the separator [","], on the strings of the
    elements. *)
Fixpoint joinWithComma (items : list jsstring) : jsstring :=
  match items with
  | [] => []
  | [item] => item
  | item :: rest => item ++ 44 :: joinWithComma rest
  end.

(** ** The kinds of span *)

(** [SpanType] of [@mastra/core/observability]: the members the exporter
    names, and every other member with its string value. *)
Inductive SpanType : Type :=
| MODEL_GENERATION
| TOOL_CALL
| MCP_TOOL_CALL
| AGENT_RUN
| WORKFLOW_RUN
| OTHER (value : jsstring).

(** ** What the exporter takes from its host

    The Unicode data of the JavaScript engine, two of its built-in
    conversions, the message converter of [./gen-ai-messages] and the string
    values of the [SpanType] enumeration are not part of the files embedded
    here.  Every definition and theorem below holds for each choice of
    them. *)
Class Host : Type := {
  (** [\p{L}] on a code point above the ASCII range *)
  unicodeLetter : N -> bool;
  (** [\p{N}] on a code point above the ASCII range *)
  unicodeNumber : N -> bool;
  (** the lower-case mapping of a code point above the ASCII range, given
      the code points before and after it *)
  unicodeLower : jsstring -> N -> jsstring -> jsstring;
  (** [Number.prototype.toString] *)
  numberToString : number -> jsstring;
  (** [JSON.stringify] *)
  JSON_stringify : JsValue -> jsstring;
  (** [convertMastraMessagesToGenAIMessages] of [./gen-ai-messages] *)
  convertMastraMessagesToGenAIMessages : jsstring -> JsValue;
  (** the string value of a named member of [SpanType] *)
  namedSpanTypeValue : SpanType -> jsstring
}.

(** ** Character classes and case *)

Definition inRange (lo hi c : N) : bool := (lo <=? c) && (c <=? hi).

Definition isAsciiUpper (c : N) : bool := inRange 65 90 c.
Definition isAsciiLower (c : N) : bool := inRange 97 122 c.
Definition isAsciiDigit (c : N) : bool := inRange 48 57 c.

(** The class [[a-z0-9]]. *)
Definition isLowerAlnum (c : N) : bool := isAsciiLower c || isAsciiDigit c.

Definition asciiToLower (c : N) : N :=
  if isAsciiUpper c then c + 32 else c.

(** ** The exported span (input) *)

(** [usage] of [ModelGenerationAttributes] *)
Record Usage : Type := {
  inputTokens : option number;
  promptTokens : option number;
  outputTokens : option number;
  completionTokens : option number;
  reasoningTokens : option number;
  cachedInputTokens : option number
}.

(** [parameters] of [ModelGenerationAttributes] *)
Record Parameters : Type := {
  temperature : option number;
  maxOutputTokens : option number;
  topP : option number;
  topK : option number;
  presencePenalty : option number;
  frequencyPenalty : option number;
  stopSequences : option (list jsstring);
  seed : option number
}.

(** [span.attributes], through the properties that the exporter reads after
    its casts to [ModelGenerationAttributes], [ToolCallAttributes],
    [MCPToolCallAttributes], [AgentRunAttributes] and
    [WorkflowRunAttributes].  [None] is a property that is missing. *)
Record SpanAttributes : Type := {
  model : option jsstring;
  provider : option jsstring;
  usage : option Usage;
  parameters : option Parameters;
  finishReason : option jsstring;
  responseModel : option jsstring;
  responseId : option jsstring;
  serverAddress : option jsstring;
  serverPort : option number;
  toolId : option jsstring;
  toolDescription : option jsstring;
  mcpServer : option jsstring;
  agentId : option jsstring;
  agentName : option jsstring;
  conversationId : option jsstring;
  maxSteps : option number;
  availableTools : option (list jsstring);
  instructions : option jsstring;
  workflowId : option jsstring
}.

Definition noAttributes : SpanAttributes := {|
  model := None; provider := None; usage := None; parameters := None;
  finishReason := None; responseModel := None; responseId := None;
  serverAddress := None; serverPort := None; toolId := None;
  toolDescription := None; mcpServer := None; agentId := None;
  agentName := None; conversationId := None; maxSteps := None;
  availableTools := None; instructions := None; workflowId := None
|}.

(** [span.errorInfo] *)
Module ErrorInfo.
Record t : Type := {
  message : jsstring;
  id : option jsstring;
  domain : option jsstring;
  category : option jsstring;
  (** a [Record<string, any>] *)
  details : option (gmap jsstring JsValue)
}.
End ErrorInfo.

(** The largest time value of a [Date], in either direction: 100,000,000
    days from the epoch. *)
Definition maxTimeValue : Z := 8640000000000000.

(** A [Date], through the time value that [getTime()] returns: a whole
    number of milliseconds since the epoch, within [maxTimeValue] of it.
    Such a number is a binary64 number as it is.  An Invalid Date, whose
    time value is NaN, is no value of this type. *)
Record Date : Type := {
  getTime :> Z;
  Date_valid : (Z.abs getTime <=? maxTimeValue)%Z = true
}.

(** The date with the time value [ms], for an [ms] written out. *)
Abbreviation date ms := (Build_Date ms eq_refl).

(** The binary64 number that a whole number is rounded to: the number
    itself when 53 significant bits hold it, and else the nearer of its two
    neighbours with 53 significant bits, half way between them the one with
    the even significand.  The result is a whole number again.  (Overflow,
    from 2^1024 on, is far from the numbers met here and is left out.) *)
Definition roundToBinary64 (z : Z) : Z :=
  let m := Z.abs z in
  let shift := (Z.log2 m - 52)%Z in
  if (shift <=? 0)%Z then z
  else
    let ulp := (2 ^ shift)%Z in
    let q := (m / ulp)%Z in
    let r := (m mod ulp)%Z in
    let q' :=
      if (2 * r <? ulp)%Z then q
      else if (ulp <? 2 * r)%Z then (q + 1)%Z
      else if Z.even q then q else (q + 1)%Z in
    (Z.sgn z * (q' * ulp))%Z.

(** [a - b] on two whole numbers that are binary64 numbers, as time values
    are: the exact difference, rounded. *)
Definition Number_subtract (a b : Z) : Z := roundToBinary64 (a - b).

(** A whole number as the binary64 number nearest to it, and a binary64
    number that is whole as that whole number. *)
Definition numberOfInteger (z : Z) : number := binary_normalize 53 1024 z 0 false.

Definition integerOfNumber (n : number) : Z :=
  match n with
  | S754_finite s m e =>
      let magnitude :=
        if (0 <=? e)%Z then (Z.pos m * 2 ^ e)%Z else (Z.pos m / 2 ^ (- e))%Z in
      if s then (- magnitude)%Z else magnitude
  | _ => 0%Z
  end.

(** [AnyExportedSpan]; [metadata] lists its entries in the order of
    [Object.entries]. *)
Module ExportedSpan.
Record t : Type := {
  id : jsstring;
  traceId : jsstring;
  parentSpanId : option jsstring;
  type : SpanType;
  name : jsstring;
  startTime : Date;
  endTime : option Date;
  input : JsValue;
  output : JsValue;
  attributes : option SpanAttributes;
  errorInfo : option ErrorInfo.t;
  metadata : option (list (jsstring * JsValue))
}.
End ExportedSpan.

(** ** The OpenTelemetry span (output) *)

Inductive SpanKind : Type := INTERNAL | SERVER | CLIENT | PRODUCER | CONSUMER.

Inductive SpanStatusCode : Type := UNSET | OK | ERROR.

(** [TraceFlags]: [NONE = 0x0], [SAMPLED = 0x1] *)
Definition TraceFlags_NONE : N := 0.
Definition TraceFlags_SAMPLED : N := 1.

(** [[seconds, nanoseconds]] *)
Abbreviation HrTime := (Z * Z)%type.

(** An object made by an object literal and used as a map from keys to
    values: its own properties.  What it inherits is [Object_prototype]
    below. *)
Abbreviation Attributes := (gmap jsstring JsValue).

Record SpanContext : Type := {
  traceId : jsstring;
  spanId : jsstring;
  traceFlags : N;
  isRemote : bool
}.

Record SpanStatus : Type := {
  code : SpanStatusCode;
  message : option jsstring
}.

Record TimedEvent : Type := {
  event_name : jsstring;
  event_attributes : Attributes;
  event_time : HrTime;
  event_droppedAttributesCount : Z
}.

(** No link is ever built; a link would carry a span context. *)
Record Link : Type := { link_context : SpanContext }.

(** A [Resource], through its attributes. *)
Abbreviation Resource := (gmap jsstring JsValue).

Record InstrumentationScope : Type := {
  scope_name : jsstring;
  scope_version : jsstring
}.

(** The fields of the class [OtelSpan]; [spanContext] is the value its
    closure returns. *)
Record OtelSpan : Type := {
  name : jsstring;
  kind : SpanKind;
  spanContext : SpanContext;
  parentSpanContext : option SpanContext;
  startTime : HrTime;
  endTime : HrTime;
  status : SpanStatus;
  attributes : Attributes;
  links : list Link;
  events : list TimedEvent;
  duration : HrTime;
  ended : bool;
  resource : Resource;
  instrumentationScope : InstrumentationScope;
  droppedAttributesCount : Z;
  droppedEventsCount : Z;
  droppedLinksCount : Z
}.

(** The names of the properties of [Object.prototype], which every object
    made by an object literal inherits: those of ECMAScript and its
    Annex B. *)
Definition Object_prototype : list jsstring :=
  [ str "constructor"; str "__defineGetter__"; str "__defineSetter__";
    str "hasOwnProperty"; str "__lookupGetter__"; str "__lookupSetter__";
    str "isPrototypeOf"; str "propertyIsEnumerable"; str "toString";
    str "valueOf"; str "__proto__"; str "toLocaleString" ].

(** [k] names a property of [Object.prototype]. *)
Definition inherited (k : jsstring) : bool :=
  bool_decide (k ∈ Object_prototype).

(** [o[k]] for a key [k] that [Object.prototype] does not have: the own
    property, and [undefined] when the object has no such property. *)
Definition getAttr (attributes : Attributes) (k : jsstring) : JsValue :=
  default JUndefined (attributes !! k).

(** [ToBoolean(attributes[k])] for any key [k].  An own property decides.
    Without one the property of [Object.prototype] is read, if it has one
    of that name: a function, or under [__proto__] the prototype itself,
    which are truthy. *)
Definition propertyTruthy (attributes : Attributes) (k : jsstring) : bool :=
  match attributes !! k with
  | Some v => truthy v
  | None => inherited k
  end.

(** [attributes[p] = s] for a string [s] and any key [p].  Under
    [__proto__] the assignment runs the setter of [Object.prototype], which
    does nothing with a string; under every other key it sets the own
    property. *)
Definition setProperty (p : jsstring) (s : jsstring) (attributes : Attributes)
    : Attributes :=
  if decide (p = str "__proto__") then attributes
  else <[p := JStr s]> attributes.

(** [if (o) attributes[key] = o] for an optional string [o] *)
Definition setIfTruthy (o : option jsstring) (key : jsstring)
    (attributes : Attributes) : Attributes :=
  match o with
  | Some s => if stringTruthy s then <[key := JStr s]> attributes else attributes
  | None => attributes
  end.

(** [if (o !== undefined) attributes[key] = o] for an optional number [o] *)
Definition setIfDefined (o : option number) (key : jsstring)
    (attributes : Attributes) : Attributes :=
  match o with
  | Some n => <[key := JNum n]> attributes
  | None => attributes
  end.

(** [if (o) attributes[key] = o] for an optional number [o] *)
Definition setIfTruthyNumber (o : option number) (key : jsstring)
    (attributes : Attributes) : Attributes :=
  match o with
  | Some n => if numberTruthy n then <[key := JNum n]> attributes else attributes
  | None => attributes
  end.

(** [a ?? b] *)
Definition nullish {A : Type} (a b : option A) : option A :=
  match a with
  | Some x => Some x
  | None => b
  end.

Definition isModel (t : SpanType) : bool :=
  match t with MODEL_GENERATION => true | _ => false end.

Definition isTool (t : SpanType) : bool :=
  match t with TOOL_CALL | MCP_TOOL_CALL => true | _ => false end.

(** ** The converter (state) *)

(** [OtelExporterConfig], through the one property the converter reads. *)
Record OtelExporterConfig : Type := {
  resourceAttributes : option Attributes
}.

(** The constructor parameters of [SpanConverter]. *)
Record Params : Type := {
  packageName : jsstring;
  serviceName : option jsstring;
  config : option OtelExporterConfig
}.

(** Where the closure behind [initPromise] is suspended: at its first
    [await getPackageVersion(...)], or at its second, the package version
    in hand. *)
Inductive InitStage : Type :=
| AwaitPackageVersion
| AwaitServiceVersion (packageVersion : jsstring).

Inductive PromiseState : Type :=
| Pending (stage : InitStage)
| Fulfilled
| Rejected (reason : JsValue).

(** A promise has an identity: the number of promises made before it. *)
Record Promise : Type := {
  promise_id : nat;
  promise_state : PromiseState
}.

(** The private fields of [SpanConverter]. *)
Module SpanConverter.
Record t : Type := {
  params : Params;
  resource : option Resource;
  scope : option InstrumentationScope;
  initPromise : option Promise
}.
End SpanConverter.

(** A call of [convertSpan], and the promise it awaits. *)
Record Call : Type := {
  call_span : ExportedSpan.t;
  call_awaits : nat
}.

(** How a call of [convertSpan] ends. *)
Inductive Outcome : Type :=
| Returned (span : OtelSpan)
| Thrown (reason : JsValue).

(** What a version lookup finds: no [package.json] that resolves or can be
    read, one that does not parse, or a parsed one with its [version]
    property, if it has one. *)
Inductive Manifest : Type :=
| Unresolved
| Unparsable
| Parsed (version : option jsstring).

(** [getPackageVersion], on what the lookup finds: the [catch] turns every
    failure into [undefined]. *)
Definition getPackageVersion (found : Manifest) : option jsstring :=
  match found with
  | Parsed version => version
  | Unresolved | Unparsable => None
  end.

(** What happens to a converter, one job of the event loop at a time. *)
Inductive Event : Type :=
| ConvertSpan (span : ExportedSpan.t)
    (** a caller invokes [convertSpan(span)], which runs up to its [await] *)
| VersionResolved (found : Manifest)
    (** the pending [getPackageVersion] call settles, never by rejection *)
| InitThrows (reason : JsValue)
    (** the second lookup settles and the closure then throws while it
        builds the resource, before it reaches its assignments; between
        the two lookups the closure has nothing that throws *).

(** A converter and its surroundings: the calls of the version lookup so
    far, how often the initialisation closure has been entered, the calls of
    [convertSpan] suspended at their [await], and the calls that have
    ended. *)
Record Run : Type := {
  converter : SpanConverter.t;
  lookups : list jsstring;
  started : nat;
  suspended : list Call;
  finished : list (Call * Outcome)
}.

(** [resourceFromAttributes] and [Resource.merge] of
    [@opentelemetry/resources], through the attributes that the resource
    they make shows.  The library collects them into an object literal with
    [if (v != null) attrs[k] ??= v], the entries of the argument of [merge]
    first: an entry whose value is [null] or [undefined] is left out, so is
    one whose key [Object.prototype] has, and on a key of both resources
    [merge] keeps the value of its argument. *)
Definition resourceFromAttributes (attributes : Attributes) : Resource :=
  filter (fun entry => nullishValue (snd entry) = false
                       /\ inherited (fst entry) = false) attributes.

Definition Resource_merge (resource other : Resource) : Resource :=
  other ∪ resource.

(** [new Error(message)] *)
Definition Error (message : jsstring) : JsValue :=
  JObj [(str "message", JStr message)].

Definition new_SpanConverter (params : Params) : SpanConverter.t :=
  {| SpanConverter.params := params;
     SpanConverter.resource := None;
     SpanConverter.scope := None;
     SpanConverter.initPromise := None |}.

Definition withInitPromise (c : SpanConverter.t) (p : Promise) : SpanConverter.t :=
  {| SpanConverter.params := SpanConverter.params c;
     SpanConverter.resource := SpanConverter.resource c;
     SpanConverter.scope := SpanConverter.scope c;
     SpanConverter.initPromise := Some p |}.

Section WithHost.
Context {host : Host}.

(** The string that a member of [SpanType] is at run time. *)
Definition typeValue (t : SpanType) : jsstring :=
  match t with
  | OTHER value => value
  | _ => namedSpanTypeValue t
  end.

(** [\p{L}] *)
Definition isLetter (c : N) : bool :=
  if c <? 128 then isAsciiUpper c || isAsciiLower c else unicodeLetter c.

(** [\p{N}] *)
Definition isNumber (c : N) : bool :=
  if c <? 128 then isAsciiDigit c else unicodeNumber c.

(** [String.prototype.toLowerCase], the code points [before] already
    passed. *)
Fixpoint toLowerCaseFrom (before s : jsstring) : jsstring :=
  match s with
  | [] => []
  | c :: rest =>
      (if c <? 128 then [asciiToLower c] else unicodeLower before c rest)
        ++ toLowerCaseFrom (before ++ [c]) rest
  end.

Definition toLowerCase (s : jsstring) : jsstring := toLowerCaseFrom [] s.

(** ** Provider names *)

(** [PROVIDER_ALIASES], in the order [Object.entries] lists it. *)
Definition PROVIDER_ALIASES : list (jsstring * list jsstring) :=
  [ (str "anthropic", [str "anthropic"; str "claude"]);
    (str "aws.bedrock", [str "awsbedrock"; str "bedrock"; str "amazonbedrock"]);
    (str "azure.ai.inference", [str "azureaiinference"; str "azureinference"]);
    (str "azure.ai.openai",
      [str "azureaiopenai"; str "azureopenai"; str "msopenai"; str "microsoftopenai"]);
    (str "cohere", [str "cohere"]);
    (str "deepseek", [str "deepseek"]);
    (str "gcp.gemini", [str "gcpgemini"; str "gemini"]);
    (str "gcp.gen_ai",
      [str "gcpgenai"; str "googlegenai"; str "googlegenai"; str "googleai"]);
    (str "gcp.vertex_ai", [str "gcpvertexai"; str "vertexai"]);
    (str "groq", [str "groq"]);
    (str "ibm.watsonx.ai", [str "ibmwatsonxai"; str "watsonx"; str "watsonxai"]);
    (str "mistral_ai", [str "mistral"; str "mistralai"]);
    (str "openai", [str "openai"; str "oai"]);
    (str "perplexity", [str "perplexity"; str "pplx"]);
    (str "x_ai", [str "xai"; str "x-ai"; str "x_ai"; str "x.com ai"]) ].

(** [input.toLowerCase().replace(/[^a-z0-9]/g, "")] *)
Definition normalizeProviderString (input : jsstring) : jsstring :=
  List.filter isLowerAlnum (toLowerCase input).

(** The inner loop of [normalizeProvider]: does it return at one of
    [aliases]? *)
Fixpoint matchesAlias (normalized : jsstring) (aliases : list jsstring) : bool :=
  match aliases with
  | [] => false
  | alias :: rest =>
      if decide (normalized = alias) then true else matchesAlias normalized rest
  end.

(** The outer loop of [normalizeProvider]: the canonical name it returns
    from inside the loops, if it does. *)
Fixpoint findCanonical (normalized : jsstring)
    (entries : list (jsstring * list jsstring)) : option jsstring :=
  match entries with
  | [] => None
  | (canonical, aliases) :: rest =>
      if matchesAlias normalized aliases then Some canonical
      else findCanonical normalized rest
  end.

Definition normalizeProvider (providerName : jsstring) : jsstring :=
  let normalized := normalizeProviderString providerName in
  match findCanonical normalized PROVIDER_ALIASES with
  | Some canonical => canonical
  | None => toLowerCase providerName
  end.



(** ** Span kind, time, name *)

Definition getSpanKind (type : SpanType) : SpanKind :=
  match type with
  | MODEL_GENERATION | MCP_TOOL_CALL => CLIENT
  | _ => INTERNAL
  end.

(** [dateToHrTime], on the time value of the date.  [Math.floor(ms / 1000)]
    is the floored quotient and [ms % 1000] the remainder with the sign of
    [ms]: on a whole number of at most twice [maxTimeValue] in absolute
    value, as time values and their binary64 differences are, the binary64
    quotient by 1000 lies on the same side of every whole number as the
    exact one, and the remainder is exact. *)
Definition dateToHrTime (date : Z) : HrTime :=
  let ms := date in
  let seconds := (ms / 1000)%Z in
  let nanoseconds := (Z.rem ms 1000 * 1000000)%Z in
  (seconds, nanoseconds).

Definition getOperationName (span : ExportedSpan.t) : jsstring :=
  match ExportedSpan.type span with
  | MODEL_GENERATION => str "chat"
  | TOOL_CALL | MCP_TOOL_CALL => str "execute_tool"
  | AGENT_RUN => str "invoke_agent"
  | WORKFLOW_RUN => str "invoke_workflow"
  | OTHER _ => toLowerCase (typeValue (ExportedSpan.type span))
  end.

(** The characters that [/[^\p{L}\p{N}._ -]/gu] leaves in place. *)
Definition isSpanNameChar (c : N) : bool :=
  isLetter c || isNumber c
  || (c =? 46) || (c =? 95) || (c =? 32) || (c =? 45).

Definition sanitizeSpanName (name : jsstring) : jsstring :=
  List.filter isSpanNameChar name.

(** [None] is [null]. *)
Definition getSpanIdentifier (span : ExportedSpan.t) : option jsstring :=
  let attrs := ExportedSpan.attributes span in
  match ExportedSpan.type span with
  | MODEL_GENERATION =>
      Some (default (str "unknown") (attrs ≫= model))
  | TOOL_CALL | MCP_TOOL_CALL =>
      Some (default (str "unknown") (attrs ≫= toolId))
  | AGENT_RUN =>
      Some (default (str "unknown")
              (nullish (attrs ≫= agentName) (attrs ≫= agentId)))
  | WORKFLOW_RUN =>
      Some (default (str "unknown") (attrs ≫= workflowId))
  | OTHER _ => None
  end.

Definition getSpanName (span : ExportedSpan.t) : jsstring :=
  let identifier := getSpanIdentifier span in
  match identifier with
  | Some identifier =>
      if stringTruthy identifier then
        let operation := getOperationName span in
        operation ++ str " " ++ identifier
      else sanitizeSpanName (ExportedSpan.name span)
  | None => sanitizeSpanName (ExportedSpan.name span)
  end.

(** ** Attributes *)

(** [typeof v === 'string' ? v : JSON.stringify(v)] *)
Definition stringOrJson (v : JsValue) : jsstring :=
  match v with
  | JStr s => s
  | _ => JSON_stringify v
  end.

(** The baseline: operation name and span type. *)
Definition baseAttributes (span : ExportedSpan.t) : Attributes :=
  <[str "mastra.span.type" := JStr (typeValue (ExportedSpan.type span))]>
    (<[str "gen_ai.operation.name" := JStr (getOperationName span)]> ∅).

Definition inputAttributes (span : ExportedSpan.t) (spanType : jsstring)
    (attributes : Attributes) : Attributes :=
  match ExportedSpan.input span with
  | JUndefined => attributes
  | input =>
      let inputStr := stringOrJson input in
      if isModel (ExportedSpan.type span) then
        <[str "gen_ai.input.messages" :=
            convertMastraMessagesToGenAIMessages inputStr]> attributes
      else if isTool (ExportedSpan.type span) then
        <[str "gen_ai.tool.call.arguments" := JStr inputStr]> attributes
      else
        <[str "mastra." ++ spanType ++ str ".input" := JStr inputStr]> attributes
  end.

Definition outputAttributes (span : ExportedSpan.t) (spanType : jsstring)
    (attributes : Attributes) : Attributes :=
  match ExportedSpan.output span with
  | JUndefined => attributes
  | output =>
      let outputStr := stringOrJson output in
      if isModel (ExportedSpan.type span) then
        <[str "gen_ai.output.messages" :=
            convertMastraMessagesToGenAIMessages outputStr]> attributes
      else if isTool (ExportedSpan.type span) then
        <[str "gen_ai.tool.call.result" := JStr outputStr]> attributes
      else
        <[str "mastra." ++ spanType ++ str ".output" := JStr outputStr]> attributes
  end.

Definition usageAttributes (u : Usage) (attributes : Attributes) : Attributes :=
  let inputTokens := nullish (inputTokens u) (promptTokens u) in
  let outputTokens := nullish (outputTokens u) (completionTokens u) in
  let attributes := setIfDefined inputTokens (str "gen_ai.usage.input_tokens") attributes in
  let attributes := setIfDefined outputTokens (str "gen_ai.usage.output_tokens") attributes in
  let attributes :=
    setIfDefined (reasoningTokens u) (str "gen_ai.usage.reasoning_tokens") attributes in
  setIfDefined (cachedInputTokens u) (str "gen_ai.usage.cached_input_tokens") attributes.

Definition parameterAttributes (p : Parameters) (attributes : Attributes)
    : Attributes :=
  let attributes := setIfDefined (temperature p) (str "gen_ai.request.temperature") attributes in
  let attributes := setIfDefined (maxOutputTokens p) (str "gen_ai.request.max_tokens") attributes in
  let attributes := setIfDefined (topP p) (str "gen_ai.request.top_p") attributes in
  let attributes := setIfDefined (topK p) (str "gen_ai.request.top_k") attributes in
  let attributes :=
    setIfDefined (presencePenalty p) (str "gen_ai.request.presence_penalty") attributes in
  let attributes :=
    setIfDefined (frequencyPenalty p) (str "gen_ai.request.frequency_penalty") attributes in
  let attributes :=
    match stopSequences p with
    | Some l =>
        <[str "gen_ai.request.stop_sequences" :=
            JStr (JSON_stringify (JArr (List.map JStr l)))]> attributes
    | None => attributes
    end in
  setIfTruthyNumber (seed p) (str "gen_ai.request.seed") attributes.

Definition modelAttributes (span : ExportedSpan.t) (attributes : Attributes)
    : Attributes :=
  match ExportedSpan.type span, ExportedSpan.attributes span with
  | MODEL_GENERATION, Some modelAttrs =>
      let attributes := setIfTruthy (model modelAttrs) (str "gen_ai.request.model") attributes in
      let attributes :=
        match provider modelAttrs with
        | Some p =>
            if stringTruthy p then
              <[str "gen_ai.provider.name" := JStr (normalizeProvider p)]> attributes
            else attributes
        | None => attributes
        end in
      let attributes :=
        match usage modelAttrs with
        | Some u => usageAttributes u attributes
        | None => attributes
        end in
      let attributes :=
        match parameters modelAttrs with
        | Some p => parameterAttributes p attributes
        | None => attributes
        end in
      let attributes :=
        match finishReason modelAttrs with
        | Some r =>
            if stringTruthy r then
              <[str "gen_ai.response.finish_reasons" :=
                  JStr (JSON_stringify (JArr [JStr r]))]> attributes
            else attributes
        | None => attributes
        end in
      let attributes :=
        setIfTruthy (responseModel modelAttrs) (str "gen_ai.response.model") attributes in
      let attributes :=
        setIfTruthy (responseId modelAttrs) (str "gen_ai.response.id") attributes in
      let attributes :=
        setIfTruthy (serverAddress modelAttrs) (str "server.address") attributes in
      setIfDefined (serverPort modelAttrs) (str "server.port") attributes
  | _, _ => attributes
  end.

Definition toolAttributes (span : ExportedSpan.t) (attributes : Attributes)
    : Attributes :=
  match ExportedSpan.attributes span with
  | Some toolAttrs =>
      if isTool (ExportedSpan.type span) then
        let attributes := setIfTruthy (toolId toolAttrs) (str "gen_ai.tool.name") attributes in
        match ExportedSpan.type span with
        | MCP_TOOL_CALL =>
            setIfTruthy (mcpServer toolAttrs) (str "server.address") attributes
        | _ =>
            setIfTruthy (toolDescription toolAttrs) (str "gen_ai.tool.description")
              attributes
        end
      else attributes
  | None => attributes
  end.

Definition agentAttributes (span : ExportedSpan.t) (spanType : jsstring)
    (attributes : Attributes) : Attributes :=
  match ExportedSpan.type span, ExportedSpan.attributes span with
  | AGENT_RUN, Some agentAttrs =>
      let attributes := setIfTruthy (agentId agentAttrs) (str "gen_ai.agent.id") attributes in
      let attributes := setIfTruthy (agentName agentAttrs) (str "gen_ai.agent.name") attributes in
      let attributes :=
        setIfTruthy (conversationId agentAttrs) (str "gen_ai.conversation.id") attributes in
      let attributes :=
        setIfTruthyNumber (maxSteps agentAttrs)
          (str "mastra." ++ spanType ++ str ".max_steps") attributes in
      let attributes :=
        match availableTools agentAttrs with
        | Some tools =>
            <[str "gen_ai.tool.definitions" :=
                JStr (JSON_stringify (JArr (List.map JStr tools)))]> attributes
        | None => attributes
        end in
      <[str "gen_ai.system_instructions" :=
          match instructions agentAttrs with
          | Some s => JStr s
          | None => JUndefined
          end]> attributes
  | _, _ => attributes
  end.

Definition errorAttributes (span : ExportedSpan.t) (attributes : Attributes)
    : Attributes :=
  match ExportedSpan.errorInfo span with
  | Some errorInfo =>
      let attributes :=
        <[str "error.type" :=
            JStr (if optTruthy (ErrorInfo.id errorInfo)
                  then default [] (ErrorInfo.id errorInfo)
                  else str "unknown")]> attributes in
      let attributes :=
        <[str "error.message" := JStr (ErrorInfo.message errorInfo)]> attributes in
      let attributes := setIfTruthy (ErrorInfo.domain errorInfo) (str "error.domain") attributes in
      setIfTruthy (ErrorInfo.category errorInfo) (str "error.category") attributes
  | None => attributes
  end.

(** The property key that [attributes[value]] addresses: the string that
    JavaScript converts [value] to.  An array is the join of its elements,
    [null] and [undefined] among them as the empty string, and a plain
    object is "[object Object]".  The source reaches it with strings,
    numbers and booleans only: an object has been serialized before, and
    [null] and [undefined] have been skipped. *)
Fixpoint toPropertyKey (value : JsValue) : jsstring :=
  match value with
  | JStr s => s
  | JNum n => numberToString n
  | JBool true => str "true"
  | JBool false => str "false"
  | JUndefined => str "undefined"
  | JNull => str "null"
  | JArr items =>
      joinWithComma
        (List.map (fun item => match item with
                               | JUndefined | JNull => []
                               | _ => toPropertyKey item
                               end) items)
  | JObj _ => str "[object Object]"
  end.

(** The body of the [forEach] over the metadata entries. *)
Definition metadataEntry (attributes : Attributes) (entry : jsstring * JsValue)
    : Attributes :=
  let '(k, v) := entry in
  if negb (propertyTruthy attributes k) then
    match v with
    | JNull | JUndefined => attributes
    | _ =>
        let value := if typeofObject v then JStr (JSON_stringify v) else v in
        let key := str "mastra.metadata." ++ k in
        setProperty (toPropertyKey value) key attributes
    end
  else attributes.

Definition metadataAttributes (span : ExportedSpan.t) (attributes : Attributes)
    : Attributes :=
  match ExportedSpan.metadata span with
  | Some metadata => List.fold_left metadataEntry metadata attributes
  | None => attributes
  end.

(** The attributes that the kind-specific mapping sets, before the
    metadata pass. *)
Definition kindAttributes (span : ExportedSpan.t) : Attributes :=
  let spanType := toLowerCase (typeValue (ExportedSpan.type span)) in
  let attributes := baseAttributes span in
  let attributes := inputAttributes span spanType attributes in
  let attributes := outputAttributes span spanType attributes in
  let attributes := modelAttributes span attributes in
  let attributes := toolAttributes span attributes in
  let attributes := agentAttributes span spanType attributes in
  errorAttributes span attributes.

Definition getAttributes (span : ExportedSpan.t) : Attributes :=
  metadataAttributes span (kindAttributes span).

(** ** The constructor of [OtelSpan] *)

(** [errorInfo.details?.stack] *)
Definition errorStack (errorInfo : ErrorInfo.t) : JsValue :=
  match ErrorInfo.details errorInfo with
  | Some details => getAttr details (str "stack")
  | None => JUndefined
  end.

Definition exceptionEvent (errorInfo : ErrorInfo.t) (time : HrTime) : TimedEvent :=
  let attributes : Attributes :=
    <[str "exception.type" := JStr (str "Error")]>
      (<[str "exception.message" := JStr (ErrorInfo.message errorInfo)]> ∅) in
  {| event_name := str "exception";
     event_attributes :=
       if truthy (errorStack errorInfo)
       then <[str "exception.stacktrace" := errorStack errorInfo]> attributes
       else attributes;
     event_time := time;
     event_droppedAttributesCount := 0 |}.

(** [new OtelSpan({ span, scope, resource })]; the constructor does not read
    [params.parentSpanId]. *)
Definition new_OtelSpan (span : ExportedSpan.t) (scope : InstrumentationScope)
    (resource : option Resource) : OtelSpan :=
  let startTime := dateToHrTime (ExportedSpan.startTime span) in
  {| name := getSpanName span;
     kind := getSpanKind (ExportedSpan.type span);
     attributes := getAttributes span;
     startTime := startTime;
     endTime :=
       match ExportedSpan.endTime span with
       | Some endTime => dateToHrTime endTime
       | None => startTime
       end;
     ended :=
       match ExportedSpan.endTime span with
       | Some _ => true
       | None => false
       end;
     duration :=
       match ExportedSpan.endTime span with
       | Some endTime =>
           let durationMs := Number_subtract endTime (ExportedSpan.startTime span) in
           ((durationMs / 1000)%Z, (Z.rem durationMs 1000 * 1000000)%Z)
       | None => (0%Z, 0%Z)
       end;
     status :=
       match ExportedSpan.errorInfo span with
       | Some errorInfo =>
           {| code := ERROR; message := Some (ErrorInfo.message errorInfo) |}
       | None =>
           match ExportedSpan.endTime span with
           | Some _ => {| code := OK; message := None |}
           | None => {| code := UNSET; message := None |}
           end
       end;
     events :=
       match ExportedSpan.errorInfo span with
       | Some errorInfo => [exceptionEvent errorInfo startTime]
       | None => []
       end;
     links := [];
     spanContext :=
       {| traceId := ExportedSpan.traceId span;
          spanId := ExportedSpan.id span;
          traceFlags := TraceFlags_SAMPLED;
          isRemote := false |};
     parentSpanContext :=
       match ExportedSpan.parentSpanId span with
       | Some parentSpanId =>
           if stringTruthy parentSpanId then
             Some {| traceId := ExportedSpan.traceId span;
                     spanId := parentSpanId;
                     traceFlags := TraceFlags_SAMPLED;
                     isRemote := false |}
           else None
       | None => None
       end;
     resource := default ∅ resource;
     instrumentationScope := scope;
     droppedAttributesCount := 0;
     droppedEventsCount := 0;
     droppedLinksCount := 0 |}.

(** ** The converter (behaviour) *)

(** The resource that the initialisation closure builds. *)
Definition initResource (params : Params) (packageVersion serviceVersion : jsstring)
    : Resource :=
  let resource :=
    resourceFromAttributes
      (<[str "telemetry.sdk.language" := JStr (str "nodejs")]>
        (<[str "telemetry.sdk.version" := JStr packageVersion]>
          (<[str "telemetry.sdk.name" := JStr (packageName params)]>
            (<[str "service.version" := JStr serviceVersion]>
              (<[str "service.name" :=
                   JStr (if optTruthy (serviceName params)
                         then default [] (serviceName params)
                         else str "mastra-service")]> ∅))))) in
  match config params ≫= resourceAttributes with
  | Some attributes => Resource_merge resource (resourceFromAttributes attributes)
  | None => resource
  end.

(** [initIfNeeded], up to the promise it returns: with no promise yet, the
    closure is entered, runs into its first lookup, and its promise is
    stored. *)
Definition initIfNeeded (r : Run) : Run * nat :=
  match SpanConverter.initPromise (converter r) with
  | Some p => (r, promise_id p)
  | None =>
      let p := {| promise_id := started r;
                  promise_state := Pending AwaitPackageVersion |} in
      ({| converter := withInitPromise (converter r) p;
          lookups := lookups r ++ [packageName (SpanConverter.params (converter r))];
          started := S (started r);
          suspended := suspended r;
          finished := finished r |},
       promise_id p)
  end.

(** [convertSpan] after its [await] has returned.  On the spans of
    [ExportedSpan.t], whose [any]-typed values are JSON-like data, the
    constructor of [OtelSpan] returns. *)
Definition afterInit (c : SpanConverter.t) (span : ExportedSpan.t) : Outcome :=
  match SpanConverter.resource c, SpanConverter.scope c with
  | Some resource, Some scope =>
      Returned (new_OtelSpan span scope (Some resource))
  | _, _ => Thrown (Error (str "SpanConverter not initialized correctly"))
  end.

(** [convertSpan(span)]: the call suspends on a pending promise, and ends
    at once on a settled one. *)
Definition convertSpan (r : Run) (span : ExportedSpan.t) : Run :=
  let '(r, awaited) := initIfNeeded r in
  let call := {| call_span := span; call_awaits := awaited |} in
  match promise_state <$> SpanConverter.initPromise (converter r) with
  | Some Fulfilled =>
      {| converter := converter r; lookups := lookups r; started := started r;
         suspended := suspended r;
         finished := finished r ++ [(call, afterInit (converter r) span)] |}
  | Some (Rejected reason) =>
      {| converter := converter r; lookups := lookups r; started := started r;
         suspended := suspended r;
         finished := finished r ++ [(call, Thrown reason)] |}
  | _ =>
      {| converter := converter r; lookups := lookups r; started := started r;
         suspended := suspended r ++ [call];
         finished := finished r |}
  end.

(** The closure behind [initPromise] goes on with the result of the lookup
    it was waiting for.  At the end it assigns [resource] and [scope], its
    promise is fulfilled and the suspended calls go on.  With no lookup
    pending nothing changes. *)
Definition versionResolved (r : Run) (found : Manifest) : Run :=
  let c := converter r in
  let version := getPackageVersion found in
  match SpanConverter.initPromise c with
  | Some {| promise_id := i; promise_state := Pending AwaitPackageVersion |} =>
      let packageVersion := default (str "unknown") version in
      {| converter :=
           withInitPromise c
             {| promise_id := i;
                promise_state := Pending (AwaitServiceVersion packageVersion) |};
         lookups := lookups r ++ [str "@mastra/core"];
         started := started r;
         suspended := suspended r;
         finished := finished r |}
  | Some {| promise_id := i;
            promise_state := Pending (AwaitServiceVersion packageVersion) |} =>
      let serviceVersion := default (str "unknown") version in
      let params := SpanConverter.params c in
      let c' :=
        {| SpanConverter.params := params;
           SpanConverter.resource :=
             Some (initResource params packageVersion serviceVersion);
           SpanConverter.scope :=
             Some {| scope_name := packageName params;
                     scope_version := packageVersion |};
           SpanConverter.initPromise :=
             Some {| promise_id := i; promise_state := Fulfilled |} |} in
      {| converter := c';
         lookups := lookups r;
         started := started r;
         suspended := [];
         finished :=
           finished r
             ++ List.map (fun call => (call, afterInit c' (call_span call)))
                  (suspended r) |}
  | _ => r
  end.

(** The closure, past its second lookup, throws: its promise is rejected,
    and every suspended call throws the same reason.  In every other state
    the closure cannot throw, and nothing changes. *)
Definition initThrows (r : Run) (reason : JsValue) : Run :=
  let c := converter r in
  match SpanConverter.initPromise c with
  | Some {| promise_id := i; promise_state := Pending (AwaitServiceVersion _) |} =>
      {| converter :=
           withInitPromise c {| promise_id := i; promise_state := Rejected reason |};
         lookups := lookups r;
         started := started r;
         suspended := [];
         finished :=
           finished r ++ List.map (fun call => (call, Thrown reason)) (suspended r) |}
  | _ => r
  end.

Definition step (r : Run) (e : Event) : Run :=
  match e with
  | ConvertSpan span => convertSpan r span
  | VersionResolved found => versionResolved r found
  | InitThrows reason => initThrows r reason
  end.

(** A fresh converter, nothing having happened yet. *)
Definition start (params : Params) : Run :=
  {| converter := new_SpanConverter params;
     lookups := [];
     started := 0%nat;
     suspended := [];
     finished := [] |}.

Definition run (params : Params) (events : list Event) : Run :=
  List.fold_left step events (start params).

End WithHost.

(** ** Sample values, to run the definitions on *)

(** A host that knows ASCII only. *)
Definition asciiHost : Host := {|
  unicodeLetter := fun _ => false;
  unicodeNumber := fun _ => false;
  unicodeLower := fun _ c _ => [c];
  numberToString := fun _ => str "0";
  JSON_stringify := fun _ => str "{}";
  convertMastraMessagesToGenAIMessages := fun s => JStr s;
  namedSpanTypeValue := fun t =>
    match t with
    | MODEL_GENERATION => str "model_generation"
    | TOOL_CALL => str "tool_call"
    | MCP_TOOL_CALL => str "mcp_tool_call"
    | AGENT_RUN => str "agent_run"
    | WORKFLOW_RUN => str "workflow_run"
    | OTHER value => value
    end
|}.

(** An open span of the given kind, with no optional property. *)
Definition plainSpan (type : SpanType) : ExportedSpan.t := {|
  ExportedSpan.id := str "span-1";
  ExportedSpan.traceId := str "trace-1";
  ExportedSpan.parentSpanId := None;
  ExportedSpan.type := type;
  ExportedSpan.name := str "step #1";
  ExportedSpan.startTime := date 1500;
  ExportedSpan.endTime := None;
  ExportedSpan.input := JUndefined;
  ExportedSpan.output := JUndefined;
  ExportedSpan.attributes := None;
  ExportedSpan.errorInfo := None;
  ExportedSpan.metadata := None
|}.

Definition withParent (parent : jsstring) (span : ExportedSpan.t) : ExportedSpan.t := {|
  ExportedSpan.id := ExportedSpan.id span;
  ExportedSpan.traceId := ExportedSpan.traceId span;
  ExportedSpan.parentSpanId := Some parent;
  ExportedSpan.type := ExportedSpan.type span;
  ExportedSpan.name := ExportedSpan.name span;
  ExportedSpan.startTime := ExportedSpan.startTime span;
  ExportedSpan.endTime := ExportedSpan.endTime span;
  ExportedSpan.input := ExportedSpan.input span;
  ExportedSpan.output := ExportedSpan.output span;
  ExportedSpan.attributes := ExportedSpan.attributes span;
  ExportedSpan.errorInfo := ExportedSpan.errorInfo span;
  ExportedSpan.metadata := ExportedSpan.metadata span
|}.

Definition withStart (startTime : Date) (span : ExportedSpan.t) : ExportedSpan.t := {|
  ExportedSpan.id := ExportedSpan.id span;
  ExportedSpan.traceId := ExportedSpan.traceId span;
  ExportedSpan.parentSpanId := ExportedSpan.parentSpanId span;
  ExportedSpan.type := ExportedSpan.type span;
  ExportedSpan.name := ExportedSpan.name span;
  ExportedSpan.startTime := startTime;
  ExportedSpan.endTime := ExportedSpan.endTime span;
  ExportedSpan.input := ExportedSpan.input span;
  ExportedSpan.output := ExportedSpan.output span;
  ExportedSpan.attributes := ExportedSpan.attributes span;
  ExportedSpan.errorInfo := ExportedSpan.errorInfo span;
  ExportedSpan.metadata := ExportedSpan.metadata span
|}.

Definition withEnd (endTime : Date) (span : ExportedSpan.t) : ExportedSpan.t := {|
  ExportedSpan.id := ExportedSpan.id span;
  ExportedSpan.traceId := ExportedSpan.traceId span;
  ExportedSpan.parentSpanId := ExportedSpan.parentSpanId span;
  ExportedSpan.type := ExportedSpan.type span;
  ExportedSpan.name := ExportedSpan.name span;
  ExportedSpan.startTime := ExportedSpan.startTime span;
  ExportedSpan.endTime := Some endTime;
  ExportedSpan.input := ExportedSpan.input span;
  ExportedSpan.output := ExportedSpan.output span;
  ExportedSpan.attributes := ExportedSpan.attributes span;
  ExportedSpan.errorInfo := ExportedSpan.errorInfo span;
  ExportedSpan.metadata := ExportedSpan.metadata span
|}.

Definition withAttributes (attributes : SpanAttributes) (span : ExportedSpan.t)
    : ExportedSpan.t := {|
  ExportedSpan.id := ExportedSpan.id span;
  ExportedSpan.traceId := ExportedSpan.traceId span;
  ExportedSpan.parentSpanId := ExportedSpan.parentSpanId span;
  ExportedSpan.type := ExportedSpan.type span;
  ExportedSpan.name := ExportedSpan.name span;
  ExportedSpan.startTime := ExportedSpan.startTime span;
  ExportedSpan.endTime := ExportedSpan.endTime span;
  ExportedSpan.input := ExportedSpan.input span;
  ExportedSpan.output := ExportedSpan.output span;
  ExportedSpan.attributes := Some attributes;
  ExportedSpan.errorInfo := ExportedSpan.errorInfo span;
  ExportedSpan.metadata := ExportedSpan.metadata span
|}.

Definition withError (errorInfo : ErrorInfo.t) (span : ExportedSpan.t)
    : ExportedSpan.t := {|
  ExportedSpan.id := ExportedSpan.id span;
  ExportedSpan.traceId := ExportedSpan.traceId span;
  ExportedSpan.parentSpanId := ExportedSpan.parentSpanId span;
  ExportedSpan.type := ExportedSpan.type span;
  ExportedSpan.name := ExportedSpan.name span;
  ExportedSpan.startTime := ExportedSpan.startTime span;
  ExportedSpan.endTime := ExportedSpan.endTime span;
  ExportedSpan.input := ExportedSpan.input span;
  ExportedSpan.output := ExportedSpan.output span;
  ExportedSpan.attributes := ExportedSpan.attributes span;
  ExportedSpan.errorInfo := Some errorInfo;
  ExportedSpan.metadata := ExportedSpan.metadata span
|}.

Definition withMetadata (metadata : list (jsstring * JsValue))
    (span : ExportedSpan.t) : ExportedSpan.t := {|
  ExportedSpan.id := ExportedSpan.id span;
  ExportedSpan.traceId := ExportedSpan.traceId span;
  ExportedSpan.parentSpanId := ExportedSpan.parentSpanId span;
  ExportedSpan.type := ExportedSpan.type span;
  ExportedSpan.name := ExportedSpan.name span;
  ExportedSpan.startTime := ExportedSpan.startTime span;
  ExportedSpan.endTime := ExportedSpan.endTime span;
  ExportedSpan.input := ExportedSpan.input span;
  ExportedSpan.output := ExportedSpan.output span;
  ExportedSpan.attributes := ExportedSpan.attributes span;
  ExportedSpan.errorInfo := ExportedSpan.errorInfo span;
  ExportedSpan.metadata := Some metadata
|}.

Definition sampleScope : InstrumentationScope :=
  {| scope_name := str "@mastra/otel-exporter"; scope_version := str "1.0.0" |}.

(** An error whose details carry the given [stack]. *)
Definition errorWithStack (stack : JsValue) : ErrorInfo.t := {|
  ErrorInfo.message := str "boom";
  ErrorInfo.id := None;
  ErrorInfo.domain := None;
  ErrorInfo.category := None;
  ErrorInfo.details := Some {[ str "stack" := stack ]}
|}.

Definition sampleParams : Params := {|
  packageName := str "@mastra/otel-exporter";
  serviceName := None;
  config := None
|}.

(** A call, the package version found, and the closure throwing [reason]
    once the second lookup has settled. *)
Definition failedTrace (reason : JsValue) : list Event :=
  [ConvertSpan (plainSpan AGENT_RUN);
   VersionResolved (Parsed (Some (str "1.2.3")));
   InitThrows reason].

(** Attributes of a model generation that name the model only. *)
Definition modelNamed (m : jsstring) : SpanAttributes := {|
  model := Some m; provider := None; usage := None; parameters := None;
  finishReason := None; responseModel := None; responseId := None;
  serverAddress := None; serverPort := None; toolId := None;
  toolDescription := None; mcpServer := None; agentId := None;
  agentName := None; conversationId := None; maxSteps := None;
  availableTools := None; instructions := None; workflowId := None
|}.

(** Attributes of an agent run that name the agent only. *)
Definition agentNamed (a : jsstring) : SpanAttributes := {|
  model := None; provider := None; usage := None; parameters := None;
  finishReason := None; responseModel := None; responseId := None;
  serverAddress := None; serverPort := None; toolId := None;
  toolDescription := None; mcpServer := None; agentId := None;
  agentName := Some a; conversationId := None; maxSteps := None;
  availableTools := None; instructions := None; workflowId := None
|}.

(** ** What the specification says, in its own words *)

(** A metadata value as the specification serializes it: objects through
    JSON, primitives as they are. *)
Definition serializedValue `{Host} (v : JsValue) : jsstring :=
  match v with
  | JArr _ | JObj _ => JSON_stringify v
  | JStr s => s
  | JNum n => numberToString n
  | JBool true => str "true"
  | JBool false => str "false"
  | JNull => str "null"
  | JUndefined => str "undefined"
  end.

(** A stack string is present in [errorInfo.details]. *)
Definition hasStackString (errorInfo : ErrorInfo.t) : Prop :=
  exists details s,
    ErrorInfo.details errorInfo = Some details
    /\ details !! str "stack" = Some (JStr s).

(** A lowercase ASCII letter, 'a' (97) to 'z' (122), or an ASCII digit,
    '0' (48) to '9' (57). *)
Definition lowercaseLetterOrDigit (c : N) : bool :=
  ((97 <=? c) && (c <=? 122)) || ((48 <=? c) && (c <=? 57)).

(** The lower case of an ASCII character: 'A' (65) to 'Z' (90) become 'a'
    to 'z', 32 further on. *)
Definition lowercaseOfAscii (c : N) : N :=
  if (65 <=? c) && (c <=? 90) then c + 32 else c.

(** A string of ASCII code points. *)
Definition isAscii (s : jsstring) : Prop := Forall (fun c => c < 128) s.

(** [canonical] is the first entry of the alias table with an alias equal
    to [normalized]. *)
Definition firstMatch (normalized canonical : jsstring) : Prop :=
  exists before aliases after,
    PROVIDER_ALIASES = before ++ (canonical, aliases) :: after
    /\ In normalized aliases
    /\ forall entry, In entry before -> ~ In normalized (snd entry).

(** No entry of the alias table has an alias equal to [normalized]. *)
Definition noMatch (normalized : jsstring) : Prop :=
  forall entry, In entry PROVIDER_ALIASES -> ~ In normalized (snd entry).

(** The kinds with a natural identifier. *)
Definition hasIdentifier (type : SpanType) : bool :=
  match type with
  | OTHER _ => false
  | _ => true
  end.

(** How many of the events are calls of [convertSpan]. *)
Definition callCount (events : list Event) : nat :=
  length (List.filter (fun e => match e with ConvertSpan _ => true | _ => false end)
            events).

(** The calls of a run, suspended or ended. *)
Definition calls (r : Run) : list Call :=
  List.map fst (finished r) ++ suspended r.

(** The call of [convertSpan(span)] that awaits the first promise. *)
Definition firstCall (span : ExportedSpan.t) : Call :=
  {| call_span := span; call_awaits := 0%nat |}.

(** The state of the promise that the converter holds. *)
Definition initState (r : Run) : option PromiseState :=
  promise_state <$> SpanConverter.initPromise (converter r).

(** What holds of a converter made with [params], whatever has happened:
    it has made one promise at most, each call awaits that promise, the
    lookups are those of one resolution, and [resource] and [scope] are set
    when and only when the promise is fulfilled. *)
Definition singleFlight `{Host} (params : Params) (r : Run) : Prop :=
  let c := converter r in
  SpanConverter.params c = params
  /\ (forall call, In call (calls r) -> call_awaits call = 0%nat)
  /\ match SpanConverter.initPromise c with
     | None =>
         started r = 0%nat /\ lookups r = [] /\ calls r = []
         /\ SpanConverter.resource c = None /\ SpanConverter.scope c = None
     | Some p =>
         started r = 1%nat /\ promise_id p = 0%nat
         /\ match promise_state p with
            | Pending AwaitPackageVersion =>
                lookups r = [packageName params] /\ finished r = []
                /\ SpanConverter.resource c = None /\ SpanConverter.scope c = None
            | Pending (AwaitServiceVersion _) =>
                lookups r = [packageName params; str "@mastra/core"]
                /\ finished r = []
                /\ SpanConverter.resource c = None /\ SpanConverter.scope c = None
            | Fulfilled =>
                lookups r = [packageName params; str "@mastra/core"]
                /\ suspended r = []
                /\ exists resource scope,
                     SpanConverter.resource c = Some resource
                     /\ SpanConverter.scope c = Some scope
                     /\ forall call outcome, In (call, outcome) (finished r) ->
                          outcome
                          = Returned (new_OtelSpan (call_span call) scope (Some resource))
            | Rejected reason =>
                lookups r = [packageName params; str "@mastra/core"]
                /\ suspended r = []
                /\ SpanConverter.resource c = None /\ SpanConverter.scope c = None
                /\ forall call outcome, In (call, outcome) (finished r) ->
                     outcome = Thrown reason
            end
     end.

(** ** Further notions, for the properties of the rest of the code *)

(** The nanoseconds that a pair [[seconds, nanoseconds]] stands for. *)
Definition hrTimeToNanoseconds (time : HrTime) : Z :=
  (fst time * 1000000000 + snd time)%Z.

(** The keys that each part of [getAttributes] can write. *)
Definition baseKeys : list jsstring :=
  [str "gen_ai.operation.name"; str "mastra.span.type"].
Definition inputKeys (spanType : jsstring) : list jsstring :=
  [str "gen_ai.input.messages"; str "gen_ai.tool.call.arguments";
   str "mastra." ++ spanType ++ str ".input"].
Definition outputKeys (spanType : jsstring) : list jsstring :=
  [str "gen_ai.output.messages"; str "gen_ai.tool.call.result";
   str "mastra." ++ spanType ++ str ".output"].
Definition usageKeys : list jsstring :=
  [str "gen_ai.usage.input_tokens"; str "gen_ai.usage.output_tokens";
   str "gen_ai.usage.reasoning_tokens"; str "gen_ai.usage.cached_input_tokens"].
Definition parameterKeys : list jsstring :=
  [str "gen_ai.request.temperature"; str "gen_ai.request.max_tokens";
   str "gen_ai.request.top_p"; str "gen_ai.request.top_k";
   str "gen_ai.request.presence_penalty"; str "gen_ai.request.frequency_penalty";
   str "gen_ai.request.stop_sequences"; str "gen_ai.request.seed"].
Definition modelKeys : list jsstring :=
  [str "gen_ai.request.model"; str "gen_ai.provider.name"]
  ++ usageKeys ++ parameterKeys
  ++ [str "gen_ai.response.finish_reasons"; str "gen_ai.response.model";
      str "gen_ai.response.id"; str "server.address"; str "server.port"].
Definition toolKeys : list jsstring :=
  [str "gen_ai.tool.name"; str "server.address"; str "gen_ai.tool.description"].
Definition agentKeys (spanType : jsstring) : list jsstring :=
  [str "gen_ai.agent.id"; str "gen_ai.agent.name"; str "gen_ai.conversation.id";
   str "mastra." ++ spanType ++ str ".max_steps"; str "gen_ai.tool.definitions";
   str "gen_ai.system_instructions"].
Definition errorKeys : list jsstring :=
  [str "error.type"; str "error.message"; str "error.domain"; str "error.category"].

(** The keys that the mapping before the metadata pass can write, for a
    span whose lower-cased type is [spanType]. *)
Definition kindKeys (spanType : jsstring) : list jsstring :=
  baseKeys ++ inputKeys spanType ++ outputKeys spanType ++ modelKeys ++ toolKeys
  ++ agentKeys spanType ++ errorKeys.

(** [s.startsWith(prefix)] *)
Fixpoint hasPrefix (prefix s : jsstring) : bool :=
  match prefix, s with
  | [], _ => true
  | p :: prefix, c :: s => (p =? c) && hasPrefix prefix s
  | _ :: _, [] => false
  end.

(** The four namespaces of the attribute keys. *)
Definition inNamespace (k : jsstring) : bool :=
  hasPrefix (str "gen_ai.") k || hasPrefix (str "mastra.") k
  || hasPrefix (str "server.") k || hasPrefix (str "error.") k.

(** The key that the input, and the output, of a span of a type goes to. *)
Definition inputKey (type : SpanType) (spanType : jsstring) : jsstring :=
  if isModel type then str "gen_ai.input.messages"
  else if isTool type then str "gen_ai.tool.call.arguments"
  else str "mastra." ++ spanType ++ str ".input".

Definition outputKey (type : SpanType) (spanType : jsstring) : jsstring :=
  if isModel type then str "gen_ai.output.messages"
  else if isTool type then str "gen_ai.tool.call.result"
  else str "mastra." ++ spanType ++ str ".output".

(** [v === undefined] *)
Definition isUndefined (v : JsValue) : bool :=
  match v with JUndefined => true | _ => false end.

(** [f] changes no attribute outside [keys]. *)
Definition writesOnly (keys : list jsstring) (f : Attributes -> Attributes) : Prop :=
  forall attributes k, ~ In k keys -> f attributes !! k = attributes !! k.

(** No metadata entry of [span] names [key]: of no entry, those with a
    [null] or [undefined] value apart, is the serialized value [key]. *)
Definition notNamedByMetadata `{Host} (span : ExportedSpan.t) (key : jsstring)
    : Prop :=
  forall metadata k v,
    ExportedSpan.metadata span = Some metadata -> In (k, v) metadata ->
    v <> JNull -> v <> JUndefined -> serializedValue v <> key.

(** The object literal that the initialisation closure passes to
    [resourceFromAttributes], as the list of its properties. *)
Definition resourceDefaults (params : Params) (packageVersion serviceVersion : jsstring)
    : list (jsstring * JsValue) :=
  [ (str "service.name",
      JStr (match serviceName params with
            | Some (c :: name) => c :: name
            | _ => str "mastra-service"
            end));
    (str "service.version", JStr serviceVersion);
    (str "telemetry.sdk.name", JStr (packageName params));
    (str "telemetry.sdk.version", JStr packageVersion);
    (str "telemetry.sdk.language", JStr (str "nodejs")) ].

(** The spans that [convertSpan] is called with, in the order of the
    calls. *)
Definition spansOf (events : list Event) : list ExportedSpan.t :=
  List.flat_map (fun e => match e with ConvertSpan span => [span] | _ => [] end) events.

(** The promise of the converter is settled. *)
Definition settled (r : Run) : Prop :=
  initState r = Some Fulfilled \/ exists reason, initState r = Some (Rejected reason).

(** The resource and the scope of a converter, once set, are those that
    the initialisation closure builds from [params] and two version
    strings. *)
Definition builtFrom (params : Params) (c : SpanConverter.t) : Prop :=
  SpanConverter.params c = params
  /\ forall resource scope,
       SpanConverter.resource c = Some resource ->
       SpanConverter.scope c = Some scope ->
       exists packageVersion serviceVersion,
         resource = initResource params packageVersion serviceVersion
         /\ scope = {| scope_name := packageName params;
                       scope_version := packageVersion |}.

(** More sample values. *)

Definition withInput (input : JsValue) (span : ExportedSpan.t) : ExportedSpan.t := {|
  ExportedSpan.id := ExportedSpan.id span;
  ExportedSpan.traceId := ExportedSpan.traceId span;
  ExportedSpan.parentSpanId := ExportedSpan.parentSpanId span;
  ExportedSpan.type := ExportedSpan.type span;
  ExportedSpan.name := ExportedSpan.name span;
  ExportedSpan.startTime := ExportedSpan.startTime span;
  ExportedSpan.endTime := ExportedSpan.endTime span;
  ExportedSpan.input := input;
  ExportedSpan.output := ExportedSpan.output span;
  ExportedSpan.attributes := ExportedSpan.attributes span;
  ExportedSpan.errorInfo := ExportedSpan.errorInfo span;
  ExportedSpan.metadata := ExportedSpan.metadata span
|}.

(** A span with the one metadata entry tenant: "acme". *)
Definition tagged (span : ExportedSpan.t) : ExportedSpan.t :=
  withMetadata [(str "tenant", JStr (str "acme"))] span.

(** The number 10, and the number +0. *)
Definition ten : number := S754_finite false 5 1.
Definition zero : number := S754_zero false.

(** A model generation by "Claude" that reports its prompt tokens under the
    legacy name, with a temperature and a seed of 0. *)
Definition sampleModelAttributes : SpanAttributes := {|
  model := Some (str "claude-3"); provider := Some (str "Claude");
  usage := Some {| inputTokens := None; promptTokens := Some ten;
                   outputTokens := None; completionTokens := None;
                   reasoningTokens := None; cachedInputTokens := None |};
  parameters := Some {| temperature := Some zero; maxOutputTokens := None;
                        topP := None; topK := None; presencePenalty := None;
                        frequencyPenalty := None; stopSequences := None;
                        seed := Some zero |};
  finishReason := None; responseModel := None; responseId := None;
  serverAddress := None; serverPort := None; toolId := None;
  toolDescription := None; mcpServer := None; agentId := None;
  agentName := None; conversationId := None; maxSteps := None;
  availableTools := None; instructions := None; workflowId := None
|}.

(** A tool with an id, a description and an MCP server. *)
Definition sampleToolAttributes : SpanAttributes := {|
  model := None; provider := None; usage := None; parameters := None;
  finishReason := None; responseModel := None; responseId := None;
  serverAddress := None; serverPort := None; toolId := Some (str "search");
  toolDescription := Some (str "Searches the web");
  mcpServer := Some (str "mcp.example.com"); agentId := None;
  agentName := None; conversationId := None; maxSteps := None;
  availableTools := None; instructions := None; workflowId := None
|}.

(** Parameters whose configuration overrides the service name. *)
Definition overridingParams : Params := {|
  packageName := str "@mastra/otel-exporter";
  serviceName := Some (str "api");
  config := Some {| resourceAttributes :=
                      Some {[ str "service.name" := JStr (str "edge") ]} |}
|}.

(** Two calls, and both lookups settled. *)
Definition initialisedTrace : list Event :=
  [ConvertSpan (plainSpan AGENT_RUN); ConvertSpan (plainSpan TOOL_CALL);
   VersionResolved (Parsed (Some (str "1.2.3"))); VersionResolved Unresolved].

(** * Properties *)

(** ** Provider names *)

Section ProviderFacts.
Context {host : Host}.

Lemma matchesAlias_In (normalized : jsstring) (aliases : list jsstring) :
  matchesAlias normalized aliases = true <-> In normalized aliases.
Proof.
  induction aliases as [|alias rest IH]; simpl.
  - split; [discriminate | tauto].
  - destruct (decide (normalized = alias)) as [->|Hne].
    + split; auto.
    + rewrite IH. split; [auto | intros [Heq|Hin]; [congruence | exact Hin]].
Qed.

Lemma findCanonical_first (normalized canonical : jsstring)
    (before after : list (jsstring * list jsstring)) (aliases : list jsstring) :
  In normalized aliases ->
  (forall entry, In entry before -> ~ In normalized (snd entry)) ->
  findCanonical normalized (before ++ (canonical, aliases) :: after)
  = Some canonical.
Proof.
  intros Hin. induction before as [|[c al] before IH]; intros Hbefore; simpl.
  - apply matchesAlias_In in Hin. now rewrite Hin.
  - destruct (matchesAlias normalized al) eqn:Hal.
    + apply matchesAlias_In in Hal.
      exfalso. apply (Hbefore (c, al)); [now left | exact Hal].
    + apply IH. intros entry Hentry. apply Hbefore. now right.
Qed.

Lemma findCanonical_none (normalized : jsstring)
    (entries : list (jsstring * list jsstring)) :
  (forall entry, In entry entries -> ~ In normalized (snd entry)) ->
  findCanonical normalized entries = None.
Proof.
  induction entries as [|[c al] entries IH]; intros Hno; simpl; [reflexivity|].
  destruct (matchesAlias normalized al) eqn:Hal.
  - apply matchesAlias_In in Hal. exfalso. now apply (Hno (c, al)); [left|].
  - apply IH. intros entry Hentry. apply Hno. now right.
Qed.

Lemma findCanonical_cases (normalized : jsstring)
    (entries : list (jsstring * list jsstring)) :
  (exists canonical before aliases after,
      entries = before ++ (canonical, aliases) :: after
      /\ In normalized aliases
      /\ forall entry, In entry before -> ~ In normalized (snd entry))
  \/ (forall entry, In entry entries -> ~ In normalized (snd entry)).
Proof.
  induction entries as [|[c al] entries IH].
  - right. intros entry [].
  - destruct (matchesAlias normalized al) eqn:Hal.
    + left. exists c, [], al, entries. apply matchesAlias_In in Hal.
      split; [reflexivity | split; [exact Hal | intros entry []]].
    + assert (Hnot : ~ In normalized al).
      { intros Hin. apply matchesAlias_In in Hin. congruence. }
      destruct IH as [(c' & before & al' & after & -> & Hin & Hbefore) | Hno].
      * left. exists c', ((c, al) :: before), al', after.
        split; [reflexivity | split; [exact Hin|]].
        intros entry [<- | Hentry]; [exact Hnot | now apply Hbefore].
      * right. intros entry [<- | Hentry]; [exact Hnot | now apply Hno].
Qed.

Lemma toLowerCaseFrom_ascii (s before : jsstring) :
  isAscii s -> toLowerCaseFrom before s = List.map asciiToLower s.
Proof.
  unfold isAscii. revert before.
  induction s as [|c s IH]; intros before Hs; simpl; [reflexivity|].
  apply Forall_cons in Hs as [Hc Hs].
  apply N.ltb_lt in Hc. rewrite Hc. simpl. f_equal. now apply IH.
Qed.

Lemma filter_class (s : jsstring) :
  List.filter isLowerAlnum s = List.filter lowercaseLetterOrDigit s.
Proof. reflexivity. Qed.

End ProviderFacts.

(** C7.  The provider normalizer is a total function that depends on its
    input through the lower-cased input only.  The token it matches is the
    lower-cased input without the characters that are no lowercase ASCII
    letter and no digit, the others in their order; on an ASCII input the
    lower-cased input is the input with 'A' to 'Z' turned into 'a' to 'z'.
    The first entry of the alias table with an alias equal to the token
    gives the result; with no such entry the result is the lower-cased
    input; one of the two cases always applies.  "Claude" gives
    "anthropic", "x-ai" gives "x_ai" and "my-custom-llm" is returned as it
    is. *)
Theorem normalizeProvider_total_case_insensitive `{Host} :
  (forall s, Forall (fun c => isLowerAlnum c = true) (normalizeProviderString s))
  /\ (forall s,
        normalizeProviderString s
        = List.filter lowercaseLetterOrDigit (toLowerCase s))
  /\ (forall s, isAscii s ->
        toLowerCase s = List.map lowercaseOfAscii s
        /\ normalizeProviderString s
           = List.filter lowercaseLetterOrDigit (List.map lowercaseOfAscii s))
  /\ (forall x y, toLowerCase x = toLowerCase y ->
        normalizeProvider x = normalizeProvider y)
  /\ (forall s canonical,
        firstMatch (normalizeProviderString s) canonical ->
        normalizeProvider s = canonical)
  /\ (forall s, noMatch (normalizeProviderString s) ->
        normalizeProvider s = toLowerCase s)
  /\ (forall s,
        (exists canonical, firstMatch (normalizeProviderString s) canonical)
        \/ noMatch (normalizeProviderString s))
  /\ normalizeProvider (str "Claude") = str "anthropic"
  /\ normalizeProvider (str "x-ai") = str "x_ai"
  /\ normalizeProvider (str "my-custom-llm") = str "my-custom-llm".
Proof.
  split; [|split; [|split]]; [| | |repeat split].
  - intros s. unfold normalizeProviderString.
    apply List.Forall_forall. intros c Hc.
    apply List.filter_In in Hc. tauto.
  - intros s. unfold normalizeProviderString. apply filter_class.
  - intros s Hs.
    assert (Hlower : toLowerCase s = List.map lowercaseOfAscii s).
    { unfold toLowerCase. now rewrite (toLowerCaseFrom_ascii s [] Hs). }
    split; [exact Hlower|].
    unfold normalizeProviderString. now rewrite filter_class, Hlower.
  - intros x y Hxy. unfold normalizeProvider, normalizeProviderString.
    now rewrite Hxy.
  - intros s canonical (before & aliases & after & Htable & Hin & Hbefore).
    unfold normalizeProvider. rewrite Htable.
    now rewrite (findCanonical_first _ canonical before after aliases Hin Hbefore).
  - intros s Hno. unfold normalizeProvider.
    now rewrite (findCanonical_none _ _ Hno).
  - intros s.
    destruct (findCanonical_cases (normalizeProviderString s) PROVIDER_ALIASES)
      as [(c & before & al & after & Htable & Hin & Hbefore) | Hno].
    + left. exists c, before, al, after. auto.
    + right. exact Hno.
Qed.

Lemma normalizeProvider_total_case_insensitive_witness :
  @normalizeProvider asciiHost (str "OpenAI")
  = @normalizeProvider asciiHost (str "openai").
Proof.
  apply (proj1 (proj2 (proj2 (proj2
           (@normalizeProvider_total_case_insensitive asciiHost))))).
  reflexivity.
Defined.

(** ** Identity and constants of the produced span *)

(** C1.  The span context of the produced span carries the [id] and the
    [traceId] of the input as they are.  A parent span context is present
    exactly when the input has a [parentSpanId] that is not the empty
    string; it then carries that [parentSpanId] and the [traceId] of the
    input. *)
Theorem OtelSpan_preserves_ids `{Host} (span : ExportedSpan.t)
    (scope : InstrumentationScope) (resource : option Resource) :
  let o := new_OtelSpan span scope resource in
  spanId (spanContext o) = ExportedSpan.id span
  /\ traceId (spanContext o) = ExportedSpan.traceId span
  /\ (is_Some (parentSpanContext o) <->
      exists p, ExportedSpan.parentSpanId span = Some p /\ p <> [])
  /\ (forall c, parentSpanContext o = Some c ->
        ExportedSpan.parentSpanId span = Some (spanId c)
        /\ traceId c = ExportedSpan.traceId span).
Proof.
  simpl. split; [reflexivity | split; [reflexivity | split]].
  - destruct (ExportedSpan.parentSpanId span) as [[|c p]|]; simpl.
    + split; [intros [x Hx]; discriminate | intros (p & Hp & Hne); congruence].
    + split; [intros _; eexists; split; [reflexivity | discriminate] | eauto].
    + split; [intros [x Hx]; discriminate | intros (p & Hp & _); discriminate].
  - intros c. destruct (ExportedSpan.parentSpanId span) as [[|c0 p]|]; simpl;
      try discriminate.
    intros [= <-]. simpl. split; reflexivity.
Qed.

Lemma OtelSpan_preserves_ids_witness :
  let span := withParent (str "span-0") (plainSpan AGENT_RUN) in
  exists c,
    parentSpanContext (@new_OtelSpan asciiHost span sampleScope None) = Some c
    /\ ExportedSpan.parentSpanId span = Some (spanId c)
    /\ traceId c = ExportedSpan.traceId span.
Proof.
  intros span. eexists. split; [reflexivity|].
  apply (proj2 (proj2 (proj2
    (@OtelSpan_preserves_ids asciiHost span sampleScope None)))).
  reflexivity.
Defined.

(** C1, as the specification has it, fails on the empty string: the input
    has a [parentSpanId], and the produced span has no parent context. *)
Lemma parentSpanContext_absent_for_empty_parentSpanId :
  let span := withParent [] (plainSpan AGENT_RUN) in
  ~ (is_Some (parentSpanContext (@new_OtelSpan asciiHost span sampleScope None))
     <-> is_Some (ExportedSpan.parentSpanId span)).
Proof.
  intros span [_ Hback].
  destruct Hback as [c Hc]; [eexists; reflexivity | discriminate Hc].
Qed.

(** C10.  The produced span has no links and no dropped attributes, events
    or links, and each span context it exposes, its own and its parent's,
    is sampled and not remote. *)
Theorem OtelSpan_constant_fields `{Host} (span : ExportedSpan.t)
    (scope : InstrumentationScope) (resource : option Resource) :
  let o := new_OtelSpan span scope resource in
  links o = []
  /\ droppedAttributesCount o = 0%Z
  /\ droppedEventsCount o = 0%Z
  /\ droppedLinksCount o = 0%Z
  /\ traceFlags (spanContext o) = TraceFlags_SAMPLED
  /\ isRemote (spanContext o) = false
  /\ (forall c, parentSpanContext o = Some c ->
        traceFlags c = TraceFlags_SAMPLED /\ isRemote c = false).
Proof.
  simpl. repeat (split; [reflexivity|]).
  intros c. destruct (ExportedSpan.parentSpanId span) as [[|c0 p]|]; simpl;
    try discriminate.
  intros [= <-]. split; reflexivity.
Qed.

Lemma OtelSpan_constant_fields_witness :
  let span := withParent (str "span-0") (plainSpan TOOL_CALL) in
  exists c,
    parentSpanContext (@new_OtelSpan asciiHost span sampleScope None) = Some c
    /\ traceFlags c = TraceFlags_SAMPLED /\ isRemote c = false.
Proof.
  intros span. eexists. split; [reflexivity|].
  apply (proj2 (proj2 (proj2 (proj2 (proj2 (proj2
    (@OtelSpan_constant_fields asciiHost span sampleScope None))))))).
  reflexivity.
Defined.

(** ** Time *)

Lemma dateToHrTime_nonneg (ms : Z) :
  (0 <= ms)%Z ->
  (snd (dateToHrTime ms) = (ms mod 1000) * 1000000
   /\ 0 <= snd (dateToHrTime ms) < 1000000000
   /\ fst (dateToHrTime ms) * 1000 + snd (dateToHrTime ms) / 1000000 = ms)%Z.
Proof.
  intros Hms. unfold dateToHrTime. simpl.
  rewrite Z.rem_mod_nonneg by lia.
  pose proof (Z.mod_pos_bound ms 1000 ltac:(lia)) as Hbound.
  pose proof (Z.div_mod ms 1000 ltac:(lia)) as Hdm.
  rewrite Z.div_mul by lia.
  split; [reflexivity | split; lia].
Qed.

Section Rounding.
Local Open Scope Z_scope.

Lemma roundToBinary64_exact (z : Z) :
  (Z.abs z <= 2 ^ 53) -> roundToBinary64 z = z.
Proof.
  intros Hz. unfold roundToBinary64.
  destruct (Z.eq_dec (Z.abs z) (2 ^ 53)) as [Heq | Hne].
  - rewrite Heq. change (Z.log2 (2 ^ 53) - 52) with 1. cbv zeta.
    change ((1 <=? 0)) with false. cbv iota.
    change ((2 ^ 53 / 2 ^ 1)) with (2 ^ 52).
    change ((2 ^ 53 mod 2 ^ 1)) with 0.
    change ((2 * 0 <? 2 ^ 1)) with true. cbv iota.
    change ((2 ^ 52 * 2 ^ 1)) with (2 ^ 53). rewrite <- Heq.
    rewrite Z.mul_comm. apply Z.abs_sgn.
  - assert (Hlog : (Z.log2 (Z.abs z) < 53)).
    { destruct (Z.eq_dec (Z.abs z) 0) as [-> | Hnz]; [reflexivity|].
      apply Z.log2_lt_pow2; lia. }
    cbv zeta.
    destruct (Z.leb_spec (Z.log2 (Z.abs z) - 52) 0); [reflexivity | lia].
Qed.

Lemma roundToBinary64_near (z : Z) :
  (2 ^ 53 < Z.abs z < 2 ^ 54) ->
  (Z.abs (roundToBinary64 z - z) <= 1
   /\ roundToBinary64 z mod 2 = 0
   /\ (z mod 2 = 1 -> roundToBinary64 z mod 4 = 0)).
Proof.
  intros Hz. unfold roundToBinary64.
  assert (Hlog : Z.log2 (Z.abs z) = 53).
  { apply Z.log2_unique; [lia|]. change (53 + 1) with 54. lia. }
  rewrite Hlog. change (53 - 52) with 1. cbv zeta.
  change ((1 <=? 0)) with false. cbv iota.
  change (2 ^ 1) with 2.
  set (m := Z.abs z) in *.
  assert (Hsgn : (z = m \/ z = - m)) by (subst m; lia).
  assert (Hs : Z.sgn z = 1 /\ z = m \/ Z.sgn z = -1 /\ z = - m) by (subst m; lia).
  clear Hsgn.
  assert (Hm : 0 < m) by (change (2 ^ 53) with 9007199254740992 in Hz; lia).
  clearbody m.
  pose proof (Z.div_mod m 2 ltac:(lia)) as Hdm.
  pose proof (Z.mod_pos_bound m 2 ltac:(lia)) as Hr.
  set (q := m / 2) in *. set (r := m mod 2) in *. clearbody q r.
  assert (Hzr : z mod 2 = r).
  { destruct Hs as [[_ ->] | [_ ->]]; subst m;
      Z.to_euclidean_division_equations; lia. }
  rewrite Hzr.
  destruct (Z.ltb_spec (2 * r) 2) as [Hlow | Hhigh].
  - assert (H0 : r = 0) by lia.
    destruct Hs as [[-> ->] | [-> ->]];
      (split; [lia | split; [|lia]]);
      Z.to_euclidean_division_equations; lia.
  - assert (H1 : r = 1) by lia.
    destruct (Z.ltb_spec 2 (2 * r)) as [Habove | _]; [lia|].
    destruct (Z.even q) eqn:Heven.
    + apply Z.even_spec in Heven. destruct Heven as [half Hhalf].
      destruct Hs as [[-> ->] | [-> ->]];
        (split; [lia | split; [|intros _]]);
        Z.to_euclidean_division_equations; lia.
    + assert (Hodd : Z.odd q = true) by (rewrite <- Z.negb_even, Heven; reflexivity).
      apply Z.odd_spec in Hodd. destruct Hodd as [half Hhalf].
      destruct Hs as [[-> ->] | [-> ->]];
        (split; [lia | split; [|intros _]]);
        Z.to_euclidean_division_equations; lia.
Qed.

Lemma Date_bounds (d : Date) : (- maxTimeValue <= d <= maxTimeValue).
Proof.
  pose proof (Date_valid d) as Hd. apply Z.leb_le in Hd. lia.
Qed.

(** At the ends of the range of dates the rounding is the one that the
    subtraction of binary64 numbers makes. *)
Lemma Number_subtract_binary64 :
  List.Forall
    (fun '(a, b) =>
       integerOfNumber (SFsub 53 1024 (numberOfInteger a) (numberOfInteger b))
       = Number_subtract a b)
    [ (4250, 1500); (1000, 1500); (maxTimeValue, - maxTimeValue);
      (maxTimeValue, - maxTimeValue + 1); (maxTimeValue, - maxTimeValue + 3);
      (maxTimeValue - 1, - maxTimeValue + 2);
      (- maxTimeValue + 1, maxTimeValue); (2 ^ 52 + 1, - 2 ^ 52);
      (2 ^ 52 + 1, - 2 ^ 52 - 2) ].
Proof. repeat constructor. Qed.

End Rounding.

(** C5.  A time value of [ms] milliseconds becomes the pair of the floored
    quotient of [ms] by 1000 and the remainder of [ms] by 1000 times
    1,000,000, which for [ms] not negative is a nanosecond count below one
    second that gives back [ms].  Without [endTime] the end time of the
    produced span is its start time, its duration is (0, 0) and [ended] is
    false; with [endTime], [ended] is true and the duration is the pair,
    by the same formula, of the difference in milliseconds as the
    subtraction of numbers gives it: the difference itself when that is at
    most 2^53 either way, and else the even number next to it, the one
    divisible by 4 when the difference is odd. *)
Theorem OtelSpan_times `{Host} (span : ExportedSpan.t)
    (scope : InstrumentationScope) (resource : option Resource) :
  let o := new_OtelSpan span scope resource in
  let start := ExportedSpan.startTime span in
  startTime o = ((start / 1000)%Z, (Z.rem start 1000 * 1000000)%Z)
  /\ (ExportedSpan.endTime span = None ->
        endTime o = startTime o /\ duration o = (0%Z, 0%Z) /\ ended o = false)
  /\ (forall e : Date, ExportedSpan.endTime span = Some e ->
        let d := Number_subtract e start in
        endTime o = ((e / 1000)%Z, (Z.rem e 1000 * 1000000)%Z)
        /\ ended o = true
        /\ duration o = dateToHrTime d
        /\ duration o = ((d / 1000)%Z, (Z.rem d 1000 * 1000000)%Z)
        /\ ((Z.abs (e - start) <= 2 ^ 53)%Z -> d = (e - start)%Z)
        /\ ((2 ^ 53 < Z.abs (e - start))%Z ->
            (Z.abs (d - (e - start)) <= 1 /\ d mod 2 = 0
             /\ ((e - start) mod 2 = 1 -> d mod 4 = 0))%Z))
  /\ (forall ms, (0 <= ms)%Z ->
        (snd (dateToHrTime ms) = (ms mod 1000) * 1000000
         /\ 0 <= snd (dateToHrTime ms) < 1000000000
         /\ fst (dateToHrTime ms) * 1000 + snd (dateToHrTime ms) / 1000000 = ms)%Z).
Proof.
  simpl. split; [reflexivity | split; [|split]].
  - intros ->. repeat split.
  - intros e ->. split; [reflexivity | split; [reflexivity|]].
    split; [reflexivity | split; [reflexivity|]].
    split.
    + apply roundToBinary64_exact.
    + intros Hbig. apply roundToBinary64_near.
      pose proof (Date_bounds e) as He.
      pose proof (Date_bounds (ExportedSpan.startTime span)) as Hs.
      unfold maxTimeValue in *. split; [exact Hbig|].
      change (2 ^ 54)%Z with 18014398509481984%Z. lia.
  - exact dateToHrTime_nonneg.
Qed.

Lemma OtelSpan_times_witness :
  let span := withEnd (date 4250) (plainSpan WORKFLOW_RUN) in
  let o := @new_OtelSpan asciiHost span sampleScope None in
  startTime o = (1%Z, 500000000%Z)
  /\ endTime o = (4%Z, 250000000%Z)
  /\ ended o = true
  /\ duration o = (2%Z, 750000000%Z).
Proof.
  intros span o.
  destruct (@OtelSpan_times asciiHost span sampleScope None)
    as (Hstart & _ & Hend & _).
  destruct (Hend (date 4250) eq_refl) as (He & Hended & _ & Hd & _).
  split; [exact Hstart | split; [exact He | split; [exact Hended | exact Hd]]].
Defined.

(** C5, as the specification has it, fails for a span that lasts more than
    2^53 milliseconds: from the first date but one to the last date the
    difference is 17,279,999,999,999,999 milliseconds, and the duration of
    the produced span is that of 17,280,000,000,000,000. *)
Lemma duration_beyond_2_53_is_rounded :
  let s := date (-8639999999999999) in
  let e := date 8640000000000000 in
  let span := withEnd e (withStart s (plainSpan WORKFLOW_RUN)) in
  let o := @new_OtelSpan asciiHost span sampleScope None in
  duration o = (17280000000000%Z, 0%Z)
  /\ dateToHrTime (e - s) = (17279999999999%Z, 999000000%Z)
  /\ duration o <> dateToHrTime (e - s).
Proof.
  intros s e span o. split; [reflexivity | split; [reflexivity|]].
  intros E. vm_compute in E. discriminate E.
Qed.

(** ** Status and events *)

Lemma exceptionEvent_attributes (errorInfo : ErrorInfo.t) (time : HrTime) :
  let a := event_attributes (exceptionEvent errorInfo time) in
  a !! str "exception.message" = Some (JStr (ErrorInfo.message errorInfo))
  /\ a !! str "exception.type" = Some (JStr (str "Error"))
  /\ a !! str "exception.stacktrace"
     = (if truthy (errorStack errorInfo) then Some (errorStack errorInfo) else None)
  /\ (forall k, is_Some (a !! k) ->
        k = str "exception.message" \/ k = str "exception.type"
        \/ k = str "exception.stacktrace").
Proof.
  unfold exceptionEvent; cbn [event_attributes].
  destruct (truthy (errorStack errorInfo)); repeat split.
  - intros k [v Hv].
    apply lookup_insert_Some in Hv as [[<- _] | [_ Hv]]; [tauto|].
    apply lookup_insert_Some in Hv as [[<- _] | [_ Hv]]; [tauto|].
    apply lookup_insert_Some in Hv as [[<- _] | [_ Hv]]; [tauto|].
    rewrite lookup_empty in Hv. discriminate.
  - intros k [v Hv].
    apply lookup_insert_Some in Hv as [[<- _] | [_ Hv]]; [tauto|].
    apply lookup_insert_Some in Hv as [[<- _] | [_ Hv]]; [tauto|].
    rewrite lookup_empty in Hv. discriminate.
Qed.

(** C2.  The status is derived in order, the first match winning.  With
    [errorInfo] the status is ERROR with the error message, and the events
    are exactly one event named "exception", at the start time of the span,
    whose attributes are [exception.message], the type tag "Error" and, in
    case [errorInfo.details.stack] is truthy (as a string: not empty), that
    value as [exception.stacktrace], and nothing else.  Otherwise, with
    [endTime] the status is OK and there is no event; otherwise the status
    is UNSET and there is no event. *)
Theorem OtelSpan_status_and_events `{Host} (span : ExportedSpan.t)
    (scope : InstrumentationScope) (resource : option Resource) :
  let o := new_OtelSpan span scope resource in
  (forall errorInfo, ExportedSpan.errorInfo span = Some errorInfo ->
     status o = {| code := ERROR; message := Some (ErrorInfo.message errorInfo) |}
     /\ exists event,
          events o = [event]
          /\ event_name event = str "exception"
          /\ event_time event = startTime o
          /\ event_attributes event !! str "exception.message"
             = Some (JStr (ErrorInfo.message errorInfo))
          /\ event_attributes event !! str "exception.type"
             = Some (JStr (str "Error"))
          /\ (is_Some (event_attributes event !! str "exception.stacktrace")
              <-> truthy (errorStack errorInfo) = true)
          /\ (forall stack,
                event_attributes event !! str "exception.stacktrace" = Some stack ->
                stack = errorStack errorInfo)
          /\ (forall k, is_Some (event_attributes event !! k) ->
                k = str "exception.message" \/ k = str "exception.type"
                \/ k = str "exception.stacktrace"))
  /\ (ExportedSpan.errorInfo span = None ->
      is_Some (ExportedSpan.endTime span) ->
      status o = {| code := OK; message := None |} /\ events o = [])
  /\ (ExportedSpan.errorInfo span = None ->
      ExportedSpan.endTime span = None ->
      status o = {| code := UNSET; message := None |} /\ events o = []).
Proof.
  simpl. split; [|split].
  - intros errorInfo ->. split; [reflexivity|].
    eexists. split; [reflexivity|].
    destruct (exceptionEvent_attributes errorInfo
                (dateToHrTime (ExportedSpan.startTime span)))
      as (Hmsg & Hty & Hstack & Hdom).
    split; [reflexivity | split; [reflexivity|]].
    split; [exact Hmsg | split; [exact Hty | split; [|split]]].
    + rewrite Hstack. destruct (truthy (errorStack errorInfo)).
      * split; [reflexivity | intros _; eexists; reflexivity].
      * split; [intros [x Hx]; discriminate | discriminate].
    + intros stack. rewrite Hstack.
      destruct (truthy (errorStack errorInfo)); congruence.
    + exact Hdom.
  - intros -> [e ->]. split; reflexivity.
  - intros -> ->. split; reflexivity.
Qed.

Lemma OtelSpan_status_and_events_witness :
  let span := withError (errorWithStack (JStr (str "at f (a.js:1)")))
                (plainSpan TOOL_CALL) in
  let o := @new_OtelSpan asciiHost span sampleScope None in
  status o = {| code := ERROR; message := Some (str "boom") |}
  /\ length (events o) = 1%nat.
Proof.
  intros span o.
  destruct (proj1 (@OtelSpan_status_and_events asciiHost span sampleScope None)
              _ eq_refl) as (Hstatus & event & Hevents & _).
  split; [exact Hstatus | exact (f_equal (@length TimedEvent) Hevents)].
Defined.

(** C2, as the specification has it, fails on an empty stack string: a
    stack string is present in [errorInfo.details], and the event has no
    [exception.stacktrace]. *)
Lemma stacktrace_absent_for_empty_stack_string :
  let errorInfo := errorWithStack (JStr []) in
  let span := withError errorInfo (plainSpan TOOL_CALL) in
  let o := @new_OtelSpan asciiHost span sampleScope None in
  hasStackString errorInfo
  /\ exists event,
       events o = [event]
       /\ ~ (is_Some (event_attributes event !! str "exception.stacktrace")
             <-> hasStackString errorInfo).
Proof.
  intros errorInfo span o.
  assert (Hhas : hasStackString errorInfo).
  { eexists _, []. split; [reflexivity|]. apply lookup_singleton_eq. }
  split; [exact Hhas|].
  eexists. split; [reflexivity|].
  intros [_ Hback]. destruct (Hback Hhas) as [v Hv].
  vm_compute in Hv. discriminate Hv.
Qed.

(** ** Names *)

(** C6.  For a kind with a natural identifier (the model for
    MODEL_GENERATION, the tool id for TOOL_CALL and MCP_TOOL_CALL, the agent
    name or else the agent id for AGENT_RUN, the workflow id for
    WORKFLOW_RUN, each "unknown" when absent) whose identifier is not the
    empty string, the name is the verb of the kind (chat, execute_tool,
    invoke_agent, invoke_workflow), a space, and the identifier.  For every
    other kind, and with an empty identifier, the name is the original name
    without the characters that are no Unicode letter, no Unicode number and
    none of '.', '_', ' ', '-'.  An AGENT_RUN span named "Router" by
    [agentName] is called "invoke_agent Router", and one with neither name
    nor id "invoke_agent unknown". *)
Theorem getSpanName_by_kind `{Host} (span : ExportedSpan.t) :
  let type := ExportedSpan.type span in
  let attrs := ExportedSpan.attributes span in
  let named (verb : jsstring) (identifier : jsstring) :=
    (identifier <> [] -> getSpanName span = verb ++ str " " ++ identifier)
    /\ (identifier = [] ->
        getSpanName span = sanitizeSpanName (ExportedSpan.name span)) in
  (type = MODEL_GENERATION ->
     named (str "chat") (default (str "unknown") (attrs ≫= model)))
  /\ (type = TOOL_CALL \/ type = MCP_TOOL_CALL ->
     named (str "execute_tool") (default (str "unknown") (attrs ≫= toolId)))
  /\ (type = AGENT_RUN ->
     named (str "invoke_agent")
       (default (str "unknown") (nullish (attrs ≫= agentName) (attrs ≫= agentId))))
  /\ (type = WORKFLOW_RUN ->
     named (str "invoke_workflow") (default (str "unknown") (attrs ≫= workflowId)))
  /\ (hasIdentifier type = false ->
     getSpanName span = sanitizeSpanName (ExportedSpan.name span))
  /\ (forall c, In c (sanitizeSpanName (ExportedSpan.name span)) <->
        In c (ExportedSpan.name span)
        /\ (isLetter c = true \/ isNumber c = true
            \/ In c (str "._ -")))
  /\ (exists kept,
        sanitizeSpanName (ExportedSpan.name span)
        = List.filter kept (ExportedSpan.name span))
  /\ getSpanName (withAttributes (agentNamed (str "Router")) (plainSpan AGENT_RUN))
     = str "invoke_agent Router"
  /\ getSpanName (plainSpan AGENT_RUN) = str "invoke_agent unknown"
  /\ getSpanName (withAttributes noAttributes (plainSpan AGENT_RUN))
     = str "invoke_agent unknown".
Proof.
  assert (Hnamed : forall verb identifier,
            getSpanIdentifier span = Some identifier ->
            getOperationName span = verb ->
            (identifier <> [] ->
             getSpanName span = verb ++ str " " ++ identifier)
            /\ (identifier = [] ->
                getSpanName span = sanitizeSpanName (ExportedSpan.name span))).
  { intros verb identifier Hid <-. unfold getSpanName. rewrite Hid.
    destruct identifier; simpl; split; congruence. }
  cbv zeta.
  split; [|split; [|split; [|split; [|split; [|split; [|split]]]]]].
  - intros Hty. apply Hnamed; unfold getSpanIdentifier, getOperationName;
      now rewrite Hty.
  - intros [Hty|Hty]; apply Hnamed; unfold getSpanIdentifier, getOperationName;
      now rewrite Hty.
  - intros Hty. apply Hnamed; unfold getSpanIdentifier, getOperationName;
      now rewrite Hty.
  - intros Hty. apply Hnamed; unfold getSpanIdentifier, getOperationName;
      now rewrite Hty.
  - unfold getSpanName, getSpanIdentifier.
    destruct (ExportedSpan.type span); simpl; try discriminate. reflexivity.
  - intros c. unfold sanitizeSpanName. rewrite List.filter_In.
    unfold isSpanNameChar.
    rewrite !orb_true_iff, !N.eqb_eq.
    change (In c (str "._ -")) with (46 = c \/ 95 = c \/ 32 = c \/ 45 = c \/ False).
    intuition congruence.
  - exists isSpanNameChar. reflexivity.
  - repeat split.
Qed.

Lemma getSpanName_by_kind_witness :
  @getSpanName asciiHost
    (withAttributes (modelNamed (str "gpt-4")) (plainSpan MODEL_GENERATION))
  = str "chat gpt-4".
Proof.
  apply (proj1 (@getSpanName_by_kind asciiHost
                  (withAttributes (modelNamed (str "gpt-4"))
                     (plainSpan MODEL_GENERATION))));
    [reflexivity | discriminate].
Defined.

(** C6, as the specification has it, fails on an empty identifier: a model
    generation whose model name is the empty string is not called "chat "
    but by its sanitized original name. *)
Lemma getSpanName_empty_identifier :
  let span := withAttributes (modelNamed []) (plainSpan MODEL_GENERATION) in
  @getSpanName asciiHost span = str "step 1"
  /\ ~ (@getSpanName asciiHost span
        = str "chat" ++ str " "
            ++ default (str "unknown") (ExportedSpan.attributes span ≫= model)).
Proof.
  intros span. split; [reflexivity|].
  intros E. vm_compute in E. discriminate E.
Qed.

(** ** The metadata pass *)

Section MetadataEntryFacts.
Context {host : Host}.

Lemma toPropertyKey_serialized (v : JsValue) :
  nullishValue v = false ->
  toPropertyKey (if typeofObject v then JStr (JSON_stringify v) else v)
  = serializedValue v.
Proof. destruct v as [| |[|]| | | |]; simpl; congruence. Qed.

Lemma inherited_In (k : jsstring) : inherited k = true <-> In k Object_prototype.
Proof.
  unfold inherited. rewrite bool_decide_eq_true. apply list_elem_of_In.
Qed.

Lemma inherited_not_In (k : jsstring) :
  inherited k = false <-> ~ In k Object_prototype.
Proof.
  rewrite <- inherited_In. destruct (inherited k); split; congruence.
Qed.

Lemma metadataEntry_cases (a : Attributes) (k : jsstring) (v : JsValue) :
  metadataEntry a (k, v)
  = if propertyTruthy a k || nullishValue v
       || bool_decide (serializedValue v = str "__proto__")
    then a
    else <[serializedValue v := JStr (str "mastra.metadata." ++ k)]> a.
Proof.
  unfold metadataEntry. destruct (propertyTruthy a k); [reflexivity|].
  cbn [negb orb].
  destruct (nullishValue v) eqn:Hv; [destruct v; try discriminate Hv; reflexivity|].
  cbn [orb]. unfold setProperty. rewrite (toPropertyKey_serialized v Hv).
  assert (Hbody : forall w : JsValue, nullishValue w = false ->
            forall x y : Attributes,
              match w with JUndefined | JNull => x | _ => y end = y).
  { intros w Hw x y. destruct w; try reflexivity; discriminate Hw. }
  rewrite (Hbody v Hv).
  destruct (decide (serializedValue v = str "__proto__")) as [E|E].
  - now rewrite (bool_decide_eq_true_2 _ E).
  - now rewrite (bool_decide_eq_false_2 _ E).
Qed.

Lemma metadataEntry_written (a : Attributes) (k : jsstring) (v : JsValue) :
  propertyTruthy a k = false -> v <> JNull -> v <> JUndefined ->
  serializedValue v <> str "__proto__" ->
  metadataEntry a (k, v)
  = <[serializedValue v := JStr (str "mastra.metadata." ++ k)]> a.
Proof.
  intros Hk Hnull Hundef Hproto. rewrite metadataEntry_cases, Hk.
  rewrite (bool_decide_eq_false_2 _ Hproto).
  destruct v; try reflexivity; congruence.
Qed.

Lemma propertyTruthy_false (a : Attributes) (k : jsstring) :
  propertyTruthy a k = false
  <-> (a !! k = None /\ ~ In k Object_prototype)
      \/ (exists x, a !! k = Some x /\ truthy x = false).
Proof.
  unfold propertyTruthy. destruct (a !! k) as [x|].
  - split; [intros Hx; right; now exists x|].
    intros [[Hnone _] | (y & [= <-] & Hy)]; [discriminate Hnone | exact Hy].
  - rewrite inherited_not_In. split; [intros Hk; now left|].
    intros [[_ Hk] | (y & Hy & _)]; [exact Hk | discriminate Hy].
Qed.

Lemma propertyTruthy_true (a : Attributes) (k : jsstring) :
  propertyTruthy a k = true
  <-> (a !! k = None /\ In k Object_prototype)
      \/ (exists x, a !! k = Some x /\ truthy x = true).
Proof.
  unfold propertyTruthy. destruct (a !! k) as [x|].
  - split; [intros Hx; right; now exists x|].
    intros [[Hnone _] | (y & [= <-] & Hy)]; [discriminate Hnone | exact Hy].
  - rewrite inherited_In. split; [intros Hk; now left|].
    intros [[_ Hk] | (y & Hy & _)]; [exact Hk | discriminate Hy].
Qed.

Lemma metadata_fold_frame (entries : list (jsstring * JsValue)) (a : Attributes)
    (key : jsstring) :
  List.fold_left metadataEntry entries a !! key = a !! key
  \/ exists k v,
       In (k, v) entries /\ nullishValue v = false /\ key = serializedValue v
       /\ key <> str "__proto__"
       /\ List.fold_left metadataEntry entries a !! key
          = Some (JStr (str "mastra.metadata." ++ k)).
Proof.
  revert a. induction entries as [|[k v] entries IH]; intros a; cbn [List.fold_left].
  - now left.
  - destruct (IH (metadataEntry a (k, v)))
      as [Hsame | (k' & v' & Hin & Hv & Hkey & Hproto & Hval)].
    + rewrite Hsame, metadataEntry_cases.
      destruct (propertyTruthy a k || nullishValue v
                || bool_decide (serializedValue v = str "__proto__")) eqn:Hskip;
        [now left|].
      apply orb_false_iff in Hskip as [Hskip Hproto].
      apply orb_false_iff in Hskip as [_ Hv].
      apply bool_decide_eq_false in Hproto.
      destruct (decide (serializedValue v = key)) as [<-|Hne].
      * right. exists k, v. rewrite lookup_insert_eq.
        split; [now left | split; [exact Hv | repeat split; exact Hproto]].
      * left. now apply lookup_insert_ne.
    + right. exists k', v'.
      split; [now right | split; [exact Hv | repeat split; assumption]].
Qed.

Lemma getAttributes_not_named (span : ExportedSpan.t) (key : jsstring) :
  notNamedByMetadata span key ->
  getAttributes span !! key = kindAttributes span !! key.
Proof.
  intros Hnot. unfold getAttributes, metadataAttributes.
  destruct (ExportedSpan.metadata span) as [metadata|] eqn:Hmeta; [|reflexivity].
  destruct (metadata_fold_frame metadata (kindAttributes span) key)
    as [Hsame | (k & v & Hin & Hv & Hkey & _)]; [exact Hsame|].
  exfalso. apply (Hnot metadata k v Hmeta Hin); [| |now symmetry];
    intros ->; discriminate Hv.
Qed.

Lemma no_metadata_not_named (span : ExportedSpan.t) (key : jsstring) :
  ExportedSpan.metadata span = None -> notNamedByMetadata span key.
Proof. intros Hnone metadata k v Hmeta. congruence. Qed.

End MetadataEntryFacts.




(** C8.  A metadata entry whose value is the name of an attribute that the
    kind-specific mapping has set overwrites that attribute: the operation
    name of an agent run, "invoke_agent", is replaced by the prefixed key of
    the entry. *)
Theorem metadata_overwrites_operation_name `{Host} :
  let span := withMetadata [(str "note", JStr (str "gen_ai.operation.name"))]
                (plainSpan AGENT_RUN) in
  kindAttributes span !! str "note" = None
  /\ kindAttributes span !! str "gen_ai.operation.name"
     = Some (JStr (str "invoke_agent"))
  /\ getAttributes span !! str "gen_ai.operation.name"
     = Some (JStr (str "mastra.metadata.note")).
Proof.
  repeat split.
Qed.

(** ** The converter *)

Section ConverterFacts.
Context {host : Host}.

Lemma singleFlight_start (params : Params) : singleFlight params (start params).
Proof.
  unfold singleFlight, start, calls; simpl.
  split; [reflexivity | split; [intros call [] | repeat split]].
Qed.

Lemma In_calls_finished (r : Run) (call : Call) (outcome : Outcome) :
  In (call, outcome) (finished r) -> In call (calls r).
Proof.
  intros Hin. unfold calls. apply List.in_or_app. left.
  apply List.in_map_iff. exists (call, outcome). auto.
Qed.

Lemma singleFlight_step (params : Params) (r : Run) (e : Event) :
  singleFlight params r -> singleFlight params (step r e).
Proof.
  destruct r as [[p res sc ip] lk st sus fin].
  unfold singleFlight, calls. simpl.
  intros (Hp & Hawait & Hstate). subst p.
  destruct e as [span | version | reason]; simpl.
  - unfold convertSpan, initIfNeeded; simpl.
    destruct ip as [[i [[|pv]| |reason]]|]; simpl in *.
    + destruct Hstate as (Hst & Hi & Hlk & Hfin & Hres & Hsc); subst.
      split; [reflexivity|]. split; [|repeat split].
      intros call Hin. rewrite !List.in_app_iff in Hin.
      destruct Hin as [Hin|[Hin|[<-|[]]]]; [| |reflexivity];
        apply Hawait; rewrite List.in_app_iff; auto.
    + destruct Hstate as (Hst & Hi & Hlk & Hfin & Hres & Hsc); subst.
      split; [reflexivity|]. split; [|repeat split].
      intros call Hin. rewrite !List.in_app_iff in Hin.
      destruct Hin as [Hin|[Hin|[<-|[]]]]; [| |reflexivity];
        apply Hawait; rewrite List.in_app_iff; auto.
    + destruct Hstate as (Hst & Hi & Hlk & Hsus & R & S & HR & HS & Hfin); subst.
      split; [reflexivity|]. split.
      * intros call Hin. rewrite List.app_nil_r in Hin.
        rewrite List.map_app in Hin.
        apply List.in_app_or in Hin as [Hin|[<-|[]]]; [|reflexivity].
        apply Hawait. rewrite List.app_nil_r. exact Hin.
      * repeat split. exists R, S. repeat split.
        intros call outcome Hin.
        apply List.in_app_or in Hin as [Hin|[[= <- <-]|[]]];
          [eapply Hfin; exact Hin | reflexivity].
    + destruct Hstate as (Hst & Hi & Hlk & Hsus & Hres & Hsc & Hfin); subst st i sus res sc.
      split; [reflexivity|]. split.
      * intros call Hin. rewrite List.app_nil_r in Hin.
        rewrite List.map_app in Hin.
        apply List.in_app_or in Hin as [Hin|[<-|[]]]; [|reflexivity].
        apply Hawait. rewrite List.app_nil_r. exact Hin.
      * repeat split; [exact Hlk|].
        intros call outcome Hin.
        apply List.in_app_or in Hin as [Hin|[[= <- <-]|[]]];
          [eapply Hfin; exact Hin | reflexivity].
    + destruct Hstate as (Hst & Hlk & Hcalls & Hres & Hsc); subst st lk res sc.
      apply List.app_eq_nil in Hcalls as [Hfin ->].
      apply List.map_eq_nil in Hfin. subst fin.
      split; [reflexivity|]. split; [|repeat split].
      intros call [<-|[]]. reflexivity.
  - unfold versionResolved; simpl.
    destruct ip as [[i [[|pv]| |reason]]|]; simpl in *.
    + destruct Hstate as (Hst & Hi & Hlk & Hfin & Hres & Hsc); subst.
      split; [reflexivity|]. split; [exact Hawait | repeat split].
    + destruct Hstate as (Hst & Hi & Hlk & Hfin & Hres & Hsc); subst.
      split; [reflexivity|]. split.
      * intros call Hin. rewrite List.app_nil_r in Hin. simpl in Hin.
        apply List.in_map_iff in Hin as ([call' o] & <- & Hin).
        apply List.in_map_iff in Hin as (call'' & [= <- <-] & Hin).
        apply Hawait. exact Hin.
      * repeat split. eexists _, _. repeat split.
        intros call outcome Hin. simpl in Hin.
        apply List.in_map_iff in Hin as (call'' & [= <- <-] & Hin).
        reflexivity.
    + split; [reflexivity|]. split; [exact Hawait | exact Hstate].
    + split; [reflexivity|]. split; [exact Hawait | exact Hstate].
    + split; [reflexivity|]. split; [exact Hawait | exact Hstate].
  - unfold initThrows; simpl.
    destruct ip as [[i [[|pv]| |reason']]|]; simpl in *.
    + split; [reflexivity|]. split; [exact Hawait | exact Hstate].
    + destruct Hstate as (Hst & Hi & Hlk & Hfin & Hres & Hsc); subst.
      split; [reflexivity|]. split.
      * intros call Hin. rewrite List.app_nil_r in Hin. simpl in Hin.
        apply List.in_map_iff in Hin as ([call' o] & <- & Hin).
        apply List.in_map_iff in Hin as (call'' & [= <- <-] & Hin).
        apply Hawait. exact Hin.
      * repeat split.
        intros call outcome Hin. simpl in Hin.
        apply List.in_map_iff in Hin as (call'' & [= <- <-] & Hin).
        reflexivity.
    + split; [reflexivity|]. split; [exact Hawait | exact Hstate].
    + split; [reflexivity|]. split; [exact Hawait | exact Hstate].
    + split; [reflexivity|]. split; [exact Hawait | exact Hstate].
Qed.


Lemma singleFlight_events (params : Params) (events : list Event) (r : Run) :
  singleFlight params r -> singleFlight params (List.fold_left step events r).
Proof.
  revert r. induction events as [|e events IH]; intros r Hr; simpl; [exact Hr|].
  apply IH. now apply singleFlight_step.
Qed.

Lemma singleFlight_run (params : Params) (events : list Event) :
  singleFlight params (run params events).
Proof. apply singleFlight_events, singleFlight_start. Qed.

Lemma calls_step (r : Run) (e : Event) :
  length (calls (step r e)) = (length (calls r) + callCount [e])%nat.
Proof.
  destruct r as [[p res sc ip] lk st sus fin].
  destruct e as [span | version | reason];
    destruct ip as [[i [[|pv]| |reason']]|];
    unfold calls, callCount; simpl;
    rewrite ?List.length_app, ?List.length_map, ?List.length_app,
      ?List.length_map; simpl; lia.
Qed.

Lemma calls_events (events : list Event) (r : Run) :
  length (calls (List.fold_left step events r))
  = (length (calls r) + callCount events)%nat.
Proof.
  revert r. induction events as [|e events IH]; intros r; simpl.
  - unfold callCount; simpl; lia.
  - rewrite IH, calls_step. unfold callCount; simpl.
    destruct e; simpl; lia.
Qed.

Lemma concurrent_calls (spans : list ExportedSpan.t) (r : Run) :
  SpanConverter.initPromise (converter r)
  = Some {| promise_id := 0; promise_state := Pending AwaitPackageVersion |} ->
  List.fold_left step (List.map ConvertSpan spans) r
  = {| converter := converter r; lookups := lookups r; started := started r;
       suspended := suspended r ++ List.map firstCall spans;
       finished := finished r |}.
Proof.
  revert r. induction spans as [|span spans IH]; intros r Hr; simpl.
  - rewrite List.app_nil_r. now destruct r.
  - destruct r as [[p res sc ip] lk st sus fin]. simpl in Hr. subst ip.
    rewrite IH; [|reflexivity]. simpl.
    rewrite <- List.app_assoc. reflexivity.
Qed.

Lemma concurrent_calls_complete (params : Params) (spans : list ExportedSpan.t)
    (found1 found2 : Manifest) :
  spans <> [] ->
  let r' := run params (List.map ConvertSpan spans
                         ++ [VersionResolved found1; VersionResolved found2]) in
  let packageVersion := default (str "unknown") (getPackageVersion found1) in
  let serviceVersion := default (str "unknown") (getPackageVersion found2) in
  let scope := {| scope_name := packageName params;
                  scope_version := packageVersion |} in
  let resource := initResource params packageVersion serviceVersion in
  started r' = 1%nat
  /\ lookups r' = [packageName params; str "@mastra/core"]
  /\ suspended r' = []
  /\ finished r'
     = List.map (fun span =>
                   (firstCall span,
                    Returned (new_OtelSpan span scope (Some resource))))
         spans.
Proof.
  intros Hspans. destruct spans as [|span spans]; [congruence|].
  cbv zeta. unfold run. rewrite List.fold_left_app.
  change (List.fold_left step (List.map ConvertSpan (span :: spans)) (start params))
    with (List.fold_left step (List.map ConvertSpan spans)
            (convertSpan (start params) span)).
  rewrite concurrent_calls by reflexivity.
  simpl. repeat split.
  rewrite List.map_map. reflexivity.
Qed.

End ConverterFacts.

(** C3.  A converter makes one promise at most, whatever calls of
    [convertSpan] and settlements follow each other, and makes it as soon
    as there is a call: the initialisation closure is entered once.  Each
    call, suspended or ended, awaits that first promise; the version lookups
    are those of one resolution, the package and then "@mastra/core"; the
    spans that have been produced all carry the same resource and the same
    instrumentation scope.  Calls made before the initialisation completes
    are all answered when it does, each with a span built on the one
    resource and scope. *)
Theorem convertSpan_single_flight `{Host} (params : Params) (events : list Event) :
  let r := run params events in
  (started r <= 1)%nat
  /\ (0 < callCount events -> started r = 1)%nat
  /\ length (calls r) = callCount events
  /\ (forall call, In call (calls r) -> call_awaits call = 0%nat)
  /\ (exists rest, lookups r ++ rest = [packageName params; str "@mastra/core"])
  /\ (forall call1 span1 call2 span2,
        In (call1, Returned span1) (finished r) ->
        In (call2, Returned span2) (finished r) ->
        resource span1 = resource span2
        /\ instrumentationScope span1 = instrumentationScope span2)
  /\ (forall spans found1 found2, spans <> [] ->
        let r' := run params (List.map ConvertSpan spans
                               ++ [VersionResolved found1; VersionResolved found2]) in
        let packageVersion := default (str "unknown") (getPackageVersion found1) in
        let serviceVersion := default (str "unknown") (getPackageVersion found2) in
        let scope := {| scope_name := packageName params;
                        scope_version := packageVersion |} in
        let resource := initResource params packageVersion serviceVersion in
        started r' = 1%nat
        /\ lookups r' = [packageName params; str "@mastra/core"]
        /\ suspended r' = []
        /\ finished r'
           = List.map (fun span =>
                         (firstCall span,
                          Returned (new_OtelSpan span scope (Some resource))))
               spans).
Proof.
  intros r.
  pose proof (singleFlight_run params events) as (Hp & Hawait & Hstate).
  pose proof (calls_events events (start params)) as Hcalls.
  fold (run params events) in Hcalls. fold r in Hp, Hawait, Hstate, Hcalls.
  change (length (calls (start params))) with 0%nat in Hcalls.
  simpl in Hcalls.
  destruct (SpanConverter.initPromise (converter r)) as [[i state]|] eqn:Hip;
    simpl in Hstate.
  - destruct Hstate as (Hst & Hi & Hstate).
    split; [lia | split; [intros _; exact Hst | split; [exact Hcalls|]]].
    split; [exact Hawait|]. split; [|split].
    + destruct state as [[|pv]| |reason].
      * destruct Hstate as (-> & _). now exists [str "@mastra/core"].
      * destruct Hstate as (-> & _). now exists [].
      * destruct Hstate as (-> & _). now exists [].
      * destruct Hstate as (-> & _). now exists [].
    + intros call1 span1 call2 span2 H1 H2.
      destruct state as [[|pv]| |reason].
      * destruct Hstate as (_ & Hfin & _). rewrite Hfin in H1. destruct H1.
      * destruct Hstate as (_ & Hfin & _). rewrite Hfin in H1. destruct H1.
      * destruct Hstate as (_ & _ & R & S & _ & _ & Hfin).
        apply Hfin in H1, H2. injection H1 as ->. injection H2 as ->.
        split; reflexivity.
      * destruct Hstate as (_ & _ & _ & _ & Hfin).
        apply Hfin in H1. discriminate H1.
    + exact (concurrent_calls_complete params).
  - destruct Hstate as (Hst & Hlk & Hnone & _).
    split; [lia | split; [rewrite Hnone in Hcalls; simpl in Hcalls; lia | split; [exact Hcalls|]]].
    split; [exact Hawait|]. split; [|split].
    + rewrite Hlk. now eexists.
    + intros call1 span1 call2 span2 H1 _.
      apply In_calls_finished in H1. rewrite Hnone in H1. destruct H1.
    + exact (concurrent_calls_complete params).
Qed.

Lemma convertSpan_single_flight_witness :
  let r := @run asciiHost sampleParams
             [ConvertSpan (plainSpan AGENT_RUN); ConvertSpan (plainSpan TOOL_CALL);
              VersionResolved (Parsed (Some (str "1.2.3")));
              VersionResolved Unresolved] in
  started r = 1%nat
  /\ lookups r = [str "@mastra/otel-exporter"; str "@mastra/core"]
  /\ suspended r = []
  /\ length (finished r) = 2%nat.
Proof.
  intros r.
  destruct (@convertSpan_single_flight asciiHost sampleParams [])
    as (_ & _ & _ & _ & _ & _ & Hcomplete).
  destruct (Hcomplete [plainSpan AGENT_RUN; plainSpan TOOL_CALL]
              (Parsed (Some (str "1.2.3"))) Unresolved ltac:(discriminate))
    as (Hstarted & Hlookups & Hsuspended & Hfinished).
  split; [exact Hstarted | split; [exact Hlookups | split; [exact Hsuspended|]]].
  exact (f_equal (@length (Call * Outcome)) Hfinished).
Defined.

(** C4.  When the initialisation has thrown, which it does after both
    lookups, the calls that awaited it have all thrown its reason and
    neither resource nor scope is set.  The rejected promise stays in
    place: each later call of [convertSpan] throws the same reason again,
    and starts no resolution and no lookup. *)
Theorem convertSpan_failure_is_cached `{Host} (params : Params)
    (events : list Event) (reason : JsValue) :
  let r := run params events in
  initState r = Some (Rejected reason) ->
  SpanConverter.resource (converter r) = None
  /\ SpanConverter.scope (converter r) = None
  /\ suspended r = []
  /\ (forall call outcome, In (call, outcome) (finished r) ->
        outcome = Thrown reason)
  /\ (forall span,
        let r' := step r (ConvertSpan span) in
        converter r' = converter r
        /\ started r' = started r
        /\ lookups r' = lookups r
        /\ suspended r' = []
        /\ finished r' = finished r ++ [(firstCall span, Thrown reason)])
  /\ started r = 1%nat
  /\ lookups r = [packageName params; str "@mastra/core"].
Proof.
  intros r Hrejected.
  pose proof (singleFlight_run params events) as (Hp & Hawait & Hstate).
  fold r in Hp, Hawait, Hstate.
  unfold initState in Hrejected.
  destruct r as [[p res sc ip] lk st sus fin]. simpl in *.
  destruct ip as [[i state]|]; [|discriminate].
  simpl in Hrejected. injection Hrejected as ->. simpl in Hstate.
  destruct Hstate as (-> & -> & -> & -> & -> & -> & Hfin).
  repeat split; try reflexivity.
  exact Hfin.
Qed.

Lemma convertSpan_failure_is_cached_witness :
  let r := @run asciiHost sampleParams (failedTrace (Error (str "bad resource"))) in
  finished (@step asciiHost r (ConvertSpan (plainSpan TOOL_CALL)))
  = finished r
      ++ [(firstCall (plainSpan TOOL_CALL), Thrown (Error (str "bad resource")))].
Proof.
  intros r.
  apply (proj1 (proj2 (proj2 (proj2 (proj2
           (@convertSpan_failure_is_cached asciiHost sampleParams
              (failedTrace (Error (str "bad resource")))
              (Error (str "bad resource")) eq_refl)))))).
Defined.

(** C4, as the specification has it, fails: the initialisation makes both
    lookups and then throws, the call that awaited it throws, and the next
    call starts no fresh resolution and no lookup, and throws as well. *)
Lemma convertSpan_does_not_retry_after_failure :
  let reason := Error (str "bad resource") in
  let r := @run asciiHost sampleParams (failedTrace reason) in
  let r' := @step asciiHost r (ConvertSpan (plainSpan TOOL_CALL)) in
  initState r = Some (Rejected reason)
  /\ lookups r = [str "@mastra/otel-exporter"; str "@mastra/core"]
  /\ finished r = [(firstCall (plainSpan AGENT_RUN), Thrown reason)]
  /\ ~ (started r' = S (started r))
  /\ ~ (exists stage, initState r' = Some (Pending stage))
  /\ lookups r' = lookups r
  /\ finished r'
     = finished r ++ [(firstCall (plainSpan TOOL_CALL), Thrown reason)].
Proof.
  intros reason r r'.
  split; [reflexivity | split; [reflexivity | split; [reflexivity|]]].
  split; [discriminate | split; [|split; reflexivity]].
  intros [stage Hstage]. discriminate Hstage.
Qed.

(** * Properties of the rest of the code *)

(** ** Span kind and names *)

Section NameFacts.
Context {host : Host}.

Lemma filter_all {A : Type} (f : A -> bool) (l : list A) :
  List.Forall (fun x => f x = true) l -> List.filter f l = l.
Proof.
  induction 1 as [|x l Hx _ IH]; simpl; [reflexivity|]. now rewrite Hx, IH.
Qed.

Lemma filter_Forall {A : Type} (f : A -> bool) (l : list A) :
  List.Forall (fun x => f x = true) (List.filter f l).
Proof.
  apply List.Forall_forall. intros x Hx. apply List.filter_In in Hx. tauto.
Qed.

(** X5.  Sanitizing a name twice is the same as sanitizing it once.  The
    result consists of kept characters only, a name is left as it is
    exactly when all its characters are kept, and the result is never
    longer than the name. *)
Theorem sanitizeSpanName_idempotent (name : jsstring) :
  sanitizeSpanName (sanitizeSpanName name) = sanitizeSpanName name
  /\ List.Forall (fun c => isSpanNameChar c = true) (sanitizeSpanName name)
  /\ (List.Forall (fun c => isSpanNameChar c = true) name ->
      sanitizeSpanName name = name)
  /\ (sanitizeSpanName name = name ->
      List.Forall (fun c => isSpanNameChar c = true) name)
  /\ (length (sanitizeSpanName name) <= length name)%nat.
Proof.
  unfold sanitizeSpanName. repeat split.
  - apply filter_all, filter_Forall.
  - apply filter_Forall.
  - apply filter_all.
  - intros <-. apply filter_Forall.
  - apply List.filter_length_le.
Qed.

(** X1.  The produced span is of kind CLIENT exactly for model generations
    and MCP tool calls and INTERNAL for every other type; a CLIENT span has
    the operation name "chat" or "execute_tool". *)
Theorem OtelSpan_kind_by_type (span : ExportedSpan.t)
    (scope : InstrumentationScope) (resource : option Resource) :
  let o := new_OtelSpan span scope resource in
  (kind o = CLIENT <->
     ExportedSpan.type span = MODEL_GENERATION
     \/ ExportedSpan.type span = MCP_TOOL_CALL)
  /\ (kind o = INTERNAL <->
     ExportedSpan.type span <> MODEL_GENERATION
     /\ ExportedSpan.type span <> MCP_TOOL_CALL)
  /\ (kind o = CLIENT ->
      getOperationName span = str "chat"
      \/ getOperationName span = str "execute_tool").
Proof.
  simpl. unfold getOperationName.
  destruct (ExportedSpan.type span); simpl; repeat split;
    try discriminate; try tauto; auto;
    try (intros [H|H]; discriminate H); try (intros [H1 H2]; congruence).
Qed.

End NameFacts.

Lemma sanitizeSpanName_idempotent_witness :
  @sanitizeSpanName asciiHost (str "tool.call_1 - ok") = str "tool.call_1 - ok".
Proof.
  apply (proj1 (proj2 (proj2 (@sanitizeSpanName_idempotent asciiHost
                                (str "tool.call_1 - ok"))))).
  vm_compute. repeat constructor.
Defined.

Lemma OtelSpan_kind_by_type_witness :
  kind (@new_OtelSpan asciiHost (plainSpan MCP_TOOL_CALL) sampleScope None) = CLIENT.
Proof.
  apply (proj1 (@OtelSpan_kind_by_type asciiHost (plainSpan MCP_TOOL_CALL)
                  sampleScope None)).
  now right.
Defined.

(** ** Time *)

Lemma dateToHrTime_nanoseconds (ms : Z) :
  ((0 <= ms \/ ms mod 1000 = 0 ->
    hrTimeToNanoseconds (dateToHrTime ms) = ms * 1000000)
   /\ (ms < 0 -> ms mod 1000 <> 0 ->
       hrTimeToNanoseconds (dateToHrTime ms) = (ms - 1000) * 1000000
       /\ snd (dateToHrTime ms) < 0))%Z.
Proof.
  unfold hrTimeToNanoseconds, dateToHrTime. cbn [fst snd].
  split; [intros Hcase | intros Hneg Hnz];
    Z.to_euclidean_division_equations; lia.
Qed.

(** X3.  The pair of a time value stands for that time value when it is
    not negative or a whole number of seconds.  For a negative time value
    that is no whole number of seconds the nanoseconds are negative and the
    pair stands for a time one second earlier; so does the duration of a
    span whose end precedes its start.  For the duration this is said of
    spans whose end and start are at most 2^53 milliseconds apart, where
    the subtraction is exact. *)
Theorem dateToHrTime_exact_iff_not_before_epoch `{Host} (span : ExportedSpan.t)
    (scope : InstrumentationScope) (resource : option Resource) :
  (forall ms : Z,
     ((0 <= ms \/ ms mod 1000 = 0 ->
       hrTimeToNanoseconds (dateToHrTime ms) = ms * 1000000)
      /\ (ms < 0 -> ms mod 1000 <> 0 ->
          hrTimeToNanoseconds (dateToHrTime ms) = (ms - 1000) * 1000000
          /\ snd (dateToHrTime ms) < 0))%Z)
  /\ (forall e : Date, ExportedSpan.endTime span = Some e ->
        let d := (e - ExportedSpan.startTime span)%Z in
        (Z.abs d <= 2 ^ 53)%Z ->
        ((0 <= d ->
          hrTimeToNanoseconds (duration (new_OtelSpan span scope resource))
          = d * 1000000)
         /\ (d < 0 -> d mod 1000 <> 0 ->
             hrTimeToNanoseconds (duration (new_OtelSpan span scope resource))
             = (d - 1000) * 1000000))%Z).
Proof.
  split; [exact dateToHrTime_nanoseconds|].
  intros e He d Hbound. simpl. rewrite He.
  unfold Number_subtract. fold d. rewrite (roundToBinary64_exact d Hbound).
  change (((d / 1000)%Z, (Z.rem d 1000 * 1000000)%Z)) with (dateToHrTime d).
  destruct (dateToHrTime_nanoseconds d) as [Hexact Hoff].
  split; [intros Hd; apply Hexact; now left | intros Hd Hnz; now apply Hoff].
Qed.

(** X2.  For a span that starts at or after the epoch and does not end
    before it starts, the end time of the produced span is its start time
    plus its duration, and the duration has a nanosecond part below one
    second and seconds that are not negative. *)
Theorem OtelSpan_end_is_start_plus_duration `{Host} (span : ExportedSpan.t)
    (scope : InstrumentationScope) (resource : option Resource) :
  let o := new_OtelSpan span scope resource in
  (0 <= ExportedSpan.startTime span)%Z ->
  (forall e, ExportedSpan.endTime span = Some e ->
     (ExportedSpan.startTime span <= e)%Z) ->
  hrTimeToNanoseconds (endTime o)
  = (hrTimeToNanoseconds (startTime o) + hrTimeToNanoseconds (duration o))%Z
  /\ (0 <= snd (duration o) < 1000000000)%Z
  /\ (0 <= fst (duration o))%Z.
Proof.
  intros o Hstart Hend. subst o. simpl.
  destruct (ExportedSpan.endTime span) as [e|].
  - specialize (Hend e eq_refl).
    unfold Number_subtract. rewrite roundToBinary64_exact.
    2: { pose proof (Date_bounds e) as He. unfold maxTimeValue in He.
         change (2 ^ 53)%Z with 9007199254740992%Z. lia. }
    change (((e - ExportedSpan.startTime span) / 1000)%Z,
            (Z.rem (e - ExportedSpan.startTime span) 1000 * 1000000)%Z)
      with (dateToHrTime (e - ExportedSpan.startTime span)).
    destruct (dateToHrTime_nanoseconds e) as [He _].
    destruct (dateToHrTime_nanoseconds (ExportedSpan.startTime span)) as [Hs _].
    destruct (dateToHrTime_nanoseconds (e - ExportedSpan.startTime span)) as [Hd _].
    rewrite He, Hs, Hd by lia.
    split; [lia|].
    destruct (dateToHrTime_nonneg (e - ExportedSpan.startTime span) ltac:(lia))
      as (_ & Hbound & _).
    split; [exact Hbound|].
    unfold dateToHrTime. cbn [fst]. apply Z.div_pos; lia.
  - unfold hrTimeToNanoseconds. cbn [fst snd]. lia.
Qed.

Lemma OtelSpan_end_is_start_plus_duration_witness :
  let o := @new_OtelSpan asciiHost (withEnd (date 4250) (plainSpan WORKFLOW_RUN))
             sampleScope None in
  hrTimeToNanoseconds (endTime o)
  = (hrTimeToNanoseconds (startTime o) + hrTimeToNanoseconds (duration o))%Z.
Proof.
  intros o.
  apply (@OtelSpan_end_is_start_plus_duration asciiHost
           (withEnd (date 4250) (plainSpan WORKFLOW_RUN)) sampleScope None).
  - simpl. lia.
  - intros e [= <-]. simpl. lia.
Defined.

Lemma dateToHrTime_exact_iff_not_before_epoch_witness :
  hrTimeToNanoseconds
    (duration (@new_OtelSpan asciiHost (withEnd (date 1000) (plainSpan WORKFLOW_RUN))
                 sampleScope None))
  = (-1500000000)%Z.
Proof.
  apply (proj2 (proj2 (@dateToHrTime_exact_iff_not_before_epoch asciiHost
           (withEnd (date 1000) (plainSpan WORKFLOW_RUN)) sampleScope None)
                  (date 1000) eq_refl ltac:(simpl; lia))).
  - simpl. lia.
  - simpl. discriminate.
Defined.

(** X4.  Different time values give different pairs. *)
Theorem dateToHrTime_injective (a b : Z) :
  a <> b -> dateToHrTime a <> dateToHrTime b.
Proof.
  unfold dateToHrTime. intros Hab [= Hs Hn]. apply Hab.
  Z.to_euclidean_division_equations; lia.
Qed.

Lemma dateToHrTime_injective_witness :
  dateToHrTime (-1500) <> dateToHrTime (-500).
Proof. apply dateToHrTime_injective. discriminate. Defined.

(** ** Provider names *)

Section ProviderMore.
Context {host : Host}.

Lemma aliases_resolve :
  List.Forall (fun entry =>
            List.Forall (fun alias => findCanonical alias PROVIDER_ALIASES = Some (fst entry))
              (snd entry))
    PROVIDER_ALIASES.
Proof. repeat constructor. Qed.

Lemma canonical_fixed :
  List.Forall (fun entry => normalizeProvider (fst entry) = fst entry) PROVIDER_ALIASES.
Proof. repeat constructor. Qed.

Lemma canonical_token :
  List.Forall (fun entry => In (List.filter isLowerAlnum (fst entry)) (snd entry))
    PROVIDER_ALIASES.
Proof. repeat constructor; cbn; tauto. Qed.

Lemma canonical_unique (c : jsstring) (aliases aliases' : list jsstring) :
  In (c, aliases) PROVIDER_ALIASES -> In (c, aliases') PROVIDER_ALIASES ->
  aliases = aliases'.
Proof.
  intros H1 H2. unfold PROVIDER_ALIASES in H1, H2. cbn [In] in H1.
  repeat (destruct H1 as [H1|H1];
          [injection H1 as <- <-; cbn [In] in H2;
           repeat (destruct H2 as [H2|H2];
                   [first [ solve [congruence]
                          | exfalso; cbv in H2; discriminate H2 ]|]);
           destruct H2|]).
  destruct H1.
Qed.

Lemma findCanonical_Some_In (normalized canonical : jsstring)
    (entries : list (jsstring * list jsstring)) :
  findCanonical normalized entries = Some canonical ->
  exists aliases, In (canonical, aliases) entries /\ In normalized aliases.
Proof.
  induction entries as [|[c al] entries IH]; simpl; [discriminate|].
  destruct (matchesAlias normalized al) eqn:Hal.
  - intros [= <-]. exists al. split; [now left | now apply matchesAlias_In].
  - intros Hfind. destruct (IH Hfind) as (aliases & Hin & Hn).
    exists aliases. split; [now right | exact Hn].
Qed.

Lemma asciiToLower_ascii (c : N) : c < 128 -> asciiToLower c < 128.
Proof.
  unfold asciiToLower, isAsciiUpper, inRange. intros Hc.
  destruct (65 <=? c) eqn:H1, (c <=? 90) eqn:H2; simpl; try exact Hc.
  apply N.leb_le in H2. lia.
Qed.

Lemma asciiToLower_idempotent (c : N) : asciiToLower (asciiToLower c) = asciiToLower c.
Proof.
  unfold asciiToLower, isAsciiUpper, inRange.
  destruct (65 <=? c) eqn:H1, (c <=? 90) eqn:H2; simpl; rewrite ?H1, ?H2; simpl;
    try reflexivity.
  apply N.leb_le in H1, H2.
  destruct (65 <=? c + 32) eqn:H3, (c + 32 <=? 90) eqn:H4; simpl; try reflexivity.
  apply N.leb_le in H4. lia.
Qed.

Lemma toLowerCase_idempotent_ascii (s : jsstring) :
  isAscii s -> toLowerCase (toLowerCase s) = toLowerCase s /\ isAscii (toLowerCase s).
Proof.
  intros Hs. unfold toLowerCase.
  rewrite (toLowerCaseFrom_ascii s [] Hs).
  assert (Hlow : isAscii (List.map asciiToLower s)).
  { unfold isAscii in *. apply Forall_fmap. eapply Forall_impl; [exact Hs|].
    intros c Hc. now apply asciiToLower_ascii. }
  split; [|exact Hlow].
  rewrite (toLowerCaseFrom_ascii _ [] Hlow), List.map_map.
  apply List.map_ext. intros c. apply asciiToLower_idempotent.
Qed.

Lemma normalizeProvider_iff_alias (s canonical : jsstring) (aliases : list jsstring) :
  In (canonical, aliases) PROVIDER_ALIASES ->
  (normalizeProvider s = canonical <-> In (normalizeProviderString s) aliases).
Proof.
  intros Hentry.
  pose proof aliases_resolve as Hres.
  rewrite List.Forall_forall in Hres. specialize (Hres _ Hentry).
  rewrite List.Forall_forall in Hres. cbn [fst snd] in Hres.
  split.
  - unfold normalizeProvider.
    destruct (findCanonical (normalizeProviderString s) PROVIDER_ALIASES) as [c|] eqn:Hfind.
    + intros ->.
      destruct (findCanonical_Some_In _ _ _ Hfind) as (aliases' & Hin & Hn).
      now rewrite (canonical_unique canonical aliases aliases' Hentry Hin).
    + intros Hlower.
      pose proof canonical_token as Htok.
      rewrite List.Forall_forall in Htok. specialize (Htok _ Hentry).
      cbn [fst snd] in Htok.
      unfold normalizeProviderString. now rewrite Hlower.
  - intros Hin. unfold normalizeProvider. now rewrite (Hres _ Hin).
Qed.

(** X6.  For each entry of the alias table, a provider name is normalized
    to the canonical name of the entry exactly when its token, the
    lower-cased name without the characters outside [a-z0-9], is one of the
    aliases of the entry: no alias belongs to two canonical names, and the
    order of the table does not matter. *)
Theorem normalizeProvider_by_alias (s canonical : jsstring) (aliases : list jsstring) :
  In (canonical, aliases) PROVIDER_ALIASES ->
  (normalizeProvider s = canonical <-> In (normalizeProviderString s) aliases).
Proof. apply normalizeProvider_iff_alias. Qed.

(** X7.  An alias with a character outside [a-z0-9] is never matched: of
    the four aliases of "x_ai" only "xai" can be, and a provider name is
    normalized to "x_ai" exactly when its token is "xai". *)
Theorem normalizeProvider_dead_aliases (s : jsstring) :
  (forall alias, ~ Forall (fun c => isLowerAlnum c = true) alias ->
     normalizeProviderString s <> alias)
  /\ (normalizeProvider s = str "x_ai" <-> normalizeProviderString s = str "xai").
Proof.
  assert (Hclean : Forall (fun c => isLowerAlnum c = true) (normalizeProviderString s)).
  { unfold normalizeProviderString. apply List.Forall_forall. intros c Hc.
    apply List.filter_In in Hc. tauto. }
  split.
  - intros alias Hbad <-. exact (Hbad Hclean).
  - rewrite (normalizeProvider_iff_alias s (str "x_ai")
               [str "xai"; str "x-ai"; str "x_ai"; str "x.com ai"])
      by (unfold PROVIDER_ALIASES; cbn [In]; tauto).
    cbn [In]. split; [|intros ->; now left].
    intros [E | [E | [E | [E | []]]]]; [now rewrite <- E | | |];
      exfalso; rewrite <- E in Hclean; vm_compute in Hclean;
      repeat (apply Forall_cons in Hclean as [Hc Hclean];
              first [discriminate Hc | clear Hc]).
Qed.

(** X8.  Every canonical name of the table is normalized to itself, and
    on ASCII names normalizing twice is the same as normalizing once. *)
Theorem normalizeProvider_idempotent (s : jsstring) :
  (forall canonical aliases, In (canonical, aliases) PROVIDER_ALIASES ->
     normalizeProvider canonical = canonical)
  /\ (isAscii s -> normalizeProvider (normalizeProvider s) = normalizeProvider s).
Proof.
  pose proof canonical_fixed as Hfixed. rewrite List.Forall_forall in Hfixed.
  split; [intros c al Hin; exact (Hfixed _ Hin)|].
  intros Hs. unfold normalizeProvider at 2 3.
  destruct (findCanonical (normalizeProviderString s) PROVIDER_ALIASES) as [c|] eqn:Hfind.
  - destruct (findCanonical_Some_In _ _ _ Hfind) as (al & Hin & _).
    exact (Hfixed _ Hin).
  - destruct (toLowerCase_idempotent_ascii s Hs) as [Hidem _].
    unfold normalizeProvider, normalizeProviderString in *.
    rewrite Hidem, Hfind. reflexivity.
Qed.

End ProviderMore.

Lemma normalizeProvider_by_alias_witness :
  @normalizeProvider asciiHost (str "Amazon Bedrock") = str "aws.bedrock".
Proof.
  apply (@normalizeProvider_by_alias asciiHost (str "Amazon Bedrock")
           (str "aws.bedrock") [str "awsbedrock"; str "bedrock"; str "amazonbedrock"]).
  - unfold PROVIDER_ALIASES. cbn [In]. tauto.
  - vm_compute. tauto.
Defined.

Lemma normalizeProvider_dead_aliases_witness :
  @normalizeProviderString asciiHost (str "x.com ai") <> str "x.com ai".
Proof.
  apply (proj1 (@normalizeProvider_dead_aliases asciiHost (str "x.com ai"))).
  intros Hall. vm_compute in Hall.
  apply Forall_cons in Hall as [_ Hall]. apply Forall_cons in Hall as [Hc _].
  discriminate Hc.
Defined.

Lemma normalizeProvider_idempotent_witness :
  @normalizeProvider asciiHost (@normalizeProvider asciiHost (str "My-Custom-LLM"))
  = @normalizeProvider asciiHost (str "My-Custom-LLM").
Proof.
  apply (proj2 (@normalizeProvider_idempotent asciiHost (str "My-Custom-LLM"))).
  unfold isAscii. vm_compute. repeat constructor.
Defined.

(** ** Attributes before the metadata pass *)

Ltac not_key Hk :=
  let E := fresh "E" in
  intro E; apply Hk; rewrite <- E; cbn [In app];
  solve [repeat (first [left; reflexivity | right])].

Lemma setIfTruthy_ne (o : option jsstring) (key : jsstring) (a : Attributes) (k : jsstring) :
  key <> k -> setIfTruthy o key a !! k = a !! k.
Proof.
  intros Hne. unfold setIfTruthy. destruct o as [s|]; [|reflexivity].
  destruct (stringTruthy s); [now apply lookup_insert_ne | reflexivity].
Qed.
Lemma setIfDefined_ne (o : option number) (key : jsstring) (a : Attributes) (k : jsstring) :
  key <> k -> setIfDefined o key a !! k = a !! k.
Proof.
  intros Hne. unfold setIfDefined. destruct o; [now apply lookup_insert_ne | reflexivity].
Qed.
Lemma setIfTruthyNumber_ne (o : option number) (key : jsstring) (a : Attributes) (k : jsstring) :
  key <> k -> setIfTruthyNumber o key a !! k = a !! k.
Proof.
  intros Hne. unfold setIfTruthyNumber. destruct o as [n|]; [|reflexivity].
  destruct (numberTruthy n); [now apply lookup_insert_ne | reflexivity].
Qed.

Ltac frame Hk :=
  cbv zeta; repeat case_match; try reflexivity;
  repeat first
    [ rewrite setIfTruthy_ne by not_key Hk
    | rewrite setIfDefined_ne by not_key Hk
    | rewrite setIfTruthyNumber_ne by not_key Hk
    | rewrite lookup_insert_ne by not_key Hk ];
  try reflexivity.

Section AttributeFacts.
Context {host : Host}.

Lemma usageAttributes_writes u : writesOnly usageKeys (usageAttributes u).
Proof. intros a k Hk. unfold usageAttributes, usageKeys in *. frame Hk. Qed.

Lemma parameterAttributes_writes p : writesOnly parameterKeys (parameterAttributes p).
Proof. intros a k Hk. unfold parameterAttributes, parameterKeys in *. frame Hk. Qed.

Lemma inputAttributes_writes span t : writesOnly (inputKeys t) (inputAttributes span t).
Proof. intros a k Hk. unfold inputAttributes, inputKeys in *. frame Hk. Qed.

Lemma outputAttributes_writes span t : writesOnly (outputKeys t) (outputAttributes span t).
Proof. intros a k Hk. unfold outputAttributes, outputKeys in *. frame Hk. Qed.

Lemma toolAttributes_writes span : writesOnly toolKeys (toolAttributes span).
Proof. intros a k Hk. unfold toolAttributes, toolKeys in *. frame Hk. Qed.

Lemma agentAttributes_writes span t : writesOnly (agentKeys t) (agentAttributes span t).
Proof. intros a k Hk. unfold agentAttributes, agentKeys in *. frame Hk. Qed.

Lemma errorAttributes_writes span : writesOnly errorKeys (errorAttributes span).
Proof. intros a k Hk. unfold errorAttributes, errorKeys in *. frame Hk. Qed.

Lemma modelAttributes_writes span : writesOnly modelKeys (modelAttributes span).
Proof.
  intros a k Hk. unfold modelAttributes.
  destruct (ExportedSpan.type span); try reflexivity.
  destruct (ExportedSpan.attributes span) as [m|]; [|reflexivity].
  cbv zeta.
  assert (Hu : ~ In k usageKeys).
  { intros Hin. apply Hk. unfold modelKeys. rewrite !in_app_iff. tauto. }
  assert (Hp : ~ In k parameterKeys).
  { intros Hin. apply Hk. unfold modelKeys. rewrite !in_app_iff. tauto. }
  unfold modelKeys, usageKeys, parameterKeys in Hk.
  rewrite !setIfDefined_ne, !setIfTruthy_ne by not_key Hk.
  destruct (finishReason m) as [r|]; [destruct (stringTruthy r)|];
    rewrite ?lookup_insert_ne by not_key Hk;
    (destruct (parameters m); [rewrite parameterAttributes_writes by exact Hp|]);
    (destruct (usage m); [rewrite usageAttributes_writes by exact Hu|]);
    (destruct (provider m) as [pr|]; [destruct (stringTruthy pr)|]);
    rewrite ?lookup_insert_ne, ?setIfTruthy_ne by not_key Hk; reflexivity.
Qed.


Lemma mastra_key_ne (t suffix : jsstring) (x : N) :
  x <> 101 -> str "mastra." ++ t ++ suffix ++ [x] <> str "mastra.span.type".
Proof.
  intros Hx E. apply (f_equal (fun l => List.last l 0)) in E.
  rewrite !List.app_assoc in E. rewrite List.last_last in E.
  vm_compute in E. congruence.
Qed.

Ltac key_discr H :=
  first
    [ solve [cbv in H; discriminate H]
    | solve [do 2 apply List.app_inv_head in H; cbv in H; discriminate H]
    | solve [exfalso; eapply (mastra_key_ne _ (str ".inpu") 116);
             [discriminate | exact H]]
    | solve [exfalso; eapply (mastra_key_ne _ (str ".outpu") 116);
             [discriminate | exact H]]
    | solve [exfalso; eapply (mastra_key_ne _ (str ".max_step") 115);
             [discriminate | exact H]] ].

Ltac notin :=
  let H := fresh "H" in
  intros H;
  unfold baseKeys, inputKeys, outputKeys, modelKeys, usageKeys, parameterKeys,
    toolKeys, agentKeys, errorKeys, inputKey, outputKey in H;
  cbn [In app isModel isTool] in H;
  repeat (destruct H as [H|H]; [first [key_discr H | symmetry in H; key_discr H]|]);
  exact H.

Lemma kindAttributes_stages (span : ExportedSpan.t) :
  let t := toLowerCase (typeValue (ExportedSpan.type span)) in
  kindAttributes span
  = errorAttributes span
      (agentAttributes span t
         (toolAttributes span
            (modelAttributes span
               (outputAttributes span t
                  (inputAttributes span t (baseAttributes span)))))).
Proof. reflexivity. Qed.

Lemma kindAttributes_outside (span : ExportedSpan.t) (k : jsstring) :
  ~ In k (kindKeys (toLowerCase (typeValue (ExportedSpan.type span)))) ->
  kindAttributes span !! k = None.
Proof.
  rewrite kindAttributes_stages. cbv zeta.
  generalize (toLowerCase (typeValue (ExportedSpan.type span))). intros t Hk.
  unfold kindKeys in Hk. rewrite !List.in_app_iff in Hk.
  rewrite errorAttributes_writes, agentAttributes_writes, toolAttributes_writes,
    modelAttributes_writes, outputAttributes_writes, inputAttributes_writes
    by tauto.
  unfold baseAttributes.
  rewrite !lookup_insert_ne; [apply lookup_empty| |];
    intros <-; apply Hk; left; unfold baseKeys; cbn [In]; tauto.
Qed.

Lemma kindKeys_namespace (t k : jsstring) :
  In k (kindKeys t) -> inNamespace k = true.
Proof.
  unfold kindKeys, baseKeys, inputKeys, outputKeys, modelKeys, usageKeys,
    parameterKeys, toolKeys, agentKeys, errorKeys.
  cbn [In app]. intros H.
  repeat (destruct H as [<-|H]; [reflexivity|]). destruct H.
Qed.

(** X10.  Before the metadata pass every attribute key is one of a fixed
    list of keys or one of the three keys made of the lower-cased span type
    (mastra.<type>.input, .output, .max_steps), and so lies in one of the
    namespaces gen_ai., mastra., server. and error. *)
Theorem kindAttributes_vocabulary (span : ExportedSpan.t) (k : jsstring) :
  is_Some (kindAttributes span !! k) ->
  In k (kindKeys (toLowerCase (typeValue (ExportedSpan.type span))))
  /\ inNamespace k = true.
Proof.
  intros [v Hv].
  destruct (List.in_dec (List.list_eq_dec N.eq_dec) k
              (kindKeys (toLowerCase (typeValue (ExportedSpan.type span)))))
    as [Hin|Hout].
  - split; [exact Hin | exact (kindKeys_namespace _ _ Hin)].
  - rewrite (kindAttributes_outside span k Hout) in Hv. discriminate Hv.
Qed.

(** X9.  Whatever else a span carries, before the metadata pass its
    attributes hold the operation name under gen_ai.operation.name and the
    span type under mastra.span.type: no later part of the mapping
    overwrites them. *)
Theorem kindAttributes_baseline (span : ExportedSpan.t) :
  kindAttributes span !! str "gen_ai.operation.name"
  = Some (JStr (getOperationName span))
  /\ kindAttributes span !! str "mastra.span.type"
     = Some (JStr (typeValue (ExportedSpan.type span))).
Proof.
  rewrite kindAttributes_stages. cbv zeta.
  generalize (toLowerCase (typeValue (ExportedSpan.type span))). intros t.
  split.
  - rewrite errorAttributes_writes, agentAttributes_writes, toolAttributes_writes,
      modelAttributes_writes, outputAttributes_writes, inputAttributes_writes
      by notin.
    unfold baseAttributes. rewrite lookup_insert_ne by (intro E; cbv in E; discriminate E).
    apply lookup_insert_eq.
  - rewrite errorAttributes_writes, agentAttributes_writes, toolAttributes_writes,
      modelAttributes_writes, outputAttributes_writes, inputAttributes_writes
      by notin.
    unfold baseAttributes. apply lookup_insert_eq.
Qed.


Lemma baseAttributes_outside (span : ExportedSpan.t) (k : jsstring) :
  ~ In k baseKeys -> baseAttributes span !! k = None.
Proof.
  intros Hk. unfold baseAttributes, baseKeys in *.
  rewrite !lookup_insert_ne by not_key Hk. apply lookup_empty.
Qed.

Lemma inputAttributes_eq (span : ExportedSpan.t) (t : jsstring) (a : Attributes) :
  inputAttributes span t a
  = if isUndefined (ExportedSpan.input span) then a
    else <[inputKey (ExportedSpan.type span) t :=
             if isModel (ExportedSpan.type span)
             then convertMastraMessagesToGenAIMessages
                    (stringOrJson (ExportedSpan.input span))
             else JStr (stringOrJson (ExportedSpan.input span))]> a.
Proof.
  unfold inputAttributes, inputKey.
  destruct (ExportedSpan.input span), (ExportedSpan.type span); reflexivity.
Qed.

Lemma outputAttributes_eq (span : ExportedSpan.t) (t : jsstring) (a : Attributes) :
  outputAttributes span t a
  = if isUndefined (ExportedSpan.output span) then a
    else <[outputKey (ExportedSpan.type span) t :=
             if isModel (ExportedSpan.type span)
             then convertMastraMessagesToGenAIMessages
                    (stringOrJson (ExportedSpan.output span))
             else JStr (stringOrJson (ExportedSpan.output span))]> a.
Proof.
  unfold outputAttributes, outputKey.
  destruct (ExportedSpan.output span), (ExportedSpan.type span); reflexivity.
Qed.

Lemma inputKey_In (type : SpanType) (t : jsstring) : In (inputKey type t) (inputKeys t).
Proof. unfold inputKey, inputKeys. destruct type; cbn; tauto. Qed.

Lemma outputKey_In (type : SpanType) (t : jsstring) : In (outputKey type t) (outputKeys t).
Proof. unfold outputKey, outputKeys. destruct type; cbn; tauto. Qed.

Lemma inputKeys_apart (t k : jsstring) :
  In k (inputKeys t) ->
  ~ In k baseKeys /\ ~ In k (outputKeys t) /\ ~ In k modelKeys /\ ~ In k toolKeys
  /\ ~ In k (agentKeys t) /\ ~ In k errorKeys.
Proof.
  unfold inputKeys. cbn [In]. intros [<-|[<-|[<-|[]]]]; repeat split; notin.
Qed.

Lemma outputKeys_apart (t k : jsstring) :
  In k (outputKeys t) ->
  ~ In k baseKeys /\ ~ In k (inputKeys t) /\ ~ In k modelKeys /\ ~ In k toolKeys
  /\ ~ In k (agentKeys t) /\ ~ In k errorKeys.
Proof.
  unfold outputKeys. cbn [In]. intros [<-|[<-|[<-|[]]]]; repeat split; notin.
Qed.

Lemma isUndefined_false (v : JsValue) : v <> JUndefined -> isUndefined v = false.
Proof. destruct v; simpl; congruence. Qed.

(** Before the metadata pass, an input that is not undefined is stored
    under one key, chosen by the span type, and the other input keys are
    not set; so for the output. *)
Lemma input_output_before_metadata (span : ExportedSpan.t) :
  let type := ExportedSpan.type span in
  let t := toLowerCase (typeValue type) in
  let routed (v : JsValue) :=
    if isModel type then convertMastraMessagesToGenAIMessages (stringOrJson v)
    else JStr (stringOrJson v) in
  (ExportedSpan.input span <> JUndefined ->
     kindAttributes span !! inputKey type t = Some (routed (ExportedSpan.input span)))
  /\ (forall k, In k (inputKeys t) ->
        ExportedSpan.input span = JUndefined \/ k <> inputKey type t ->
        kindAttributes span !! k = None)
  /\ (ExportedSpan.output span <> JUndefined ->
     kindAttributes span !! outputKey type t = Some (routed (ExportedSpan.output span)))
  /\ (forall k, In k (outputKeys t) ->
        ExportedSpan.output span = JUndefined \/ k <> outputKey type t ->
        kindAttributes span !! k = None).
Proof.
  cbv zeta. rewrite kindAttributes_stages. cbv zeta.
  generalize (toLowerCase (typeValue (ExportedSpan.type span))). intros t.
  assert (Hafter_in : forall k a, In k (inputKeys t) ->
            errorAttributes span
              (agentAttributes span t
                 (toolAttributes span
                    (modelAttributes span (outputAttributes span t a)))) !! k
            = a !! k).
  { intros k a Hk. destruct (inputKeys_apart t k Hk) as (_ & Ho & Hm & Ht & Ha & He).
    now rewrite errorAttributes_writes, agentAttributes_writes, toolAttributes_writes,
      modelAttributes_writes, outputAttributes_writes. }
  assert (Hafter_out : forall k a, In k (outputKeys t) ->
            errorAttributes span
              (agentAttributes span t
                 (toolAttributes span (modelAttributes span a))) !! k
            = a !! k).
  { intros k a Hk. destruct (outputKeys_apart t k Hk) as (_ & _ & Hm & Ht & Ha & He).
    now rewrite errorAttributes_writes, agentAttributes_writes, toolAttributes_writes,
      modelAttributes_writes. }
  split; [|split; [|split]].
  - intros Hin. rewrite Hafter_in by apply inputKey_In.
    rewrite inputAttributes_eq, (isUndefined_false _ Hin). apply lookup_insert_eq.
  - intros k Hk Hcase. rewrite (Hafter_in k _ Hk), inputAttributes_eq.
    destruct (inputKeys_apart t k Hk) as (Hb & _).
    destruct Hcase as [-> | Hne]; cbn [isUndefined].
    + now apply baseAttributes_outside.
    + destruct (isUndefined (ExportedSpan.input span));
        [|rewrite lookup_insert_ne by congruence]; now apply baseAttributes_outside.
  - intros Hout. rewrite Hafter_out by apply outputKey_In.
    rewrite outputAttributes_eq, (isUndefined_false _ Hout). apply lookup_insert_eq.
  - intros k Hk Hcase. rewrite (Hafter_out k _ Hk), outputAttributes_eq.
    destruct (outputKeys_apart t k Hk) as (Hb & Hi & _).
    assert (Hbase : inputAttributes span t (baseAttributes span) !! k = None).
    { rewrite inputAttributes_writes by exact Hi. now apply baseAttributes_outside. }
    destruct Hcase as [-> | Hne]; cbn [isUndefined]; [exact Hbase|].
    destruct (isUndefined (ExportedSpan.output span));
      [|rewrite lookup_insert_ne by congruence]; exact Hbase.
Qed.


Ltac peel Hk :=
  repeat first
    [ rewrite setIfTruthy_ne by not_key Hk
    | rewrite setIfDefined_ne by not_key Hk
    | rewrite setIfTruthyNumber_ne by not_key Hk
    | rewrite lookup_insert_ne by not_key Hk
    | rewrite usageAttributes_writes by notin
    | rewrite parameterAttributes_writes by notin ].

Lemma modelAttributes_provider (span : ExportedSpan.t) (a : Attributes) :
  modelAttributes span a !! str "gen_ai.provider.name"
  = match ExportedSpan.type span, ExportedSpan.attributes span with
    | MODEL_GENERATION, Some m =>
        match provider m with
        | Some p =>
            if stringTruthy p then Some (JStr (normalizeProvider p))
            else a !! str "gen_ai.provider.name"
        | None => a !! str "gen_ai.provider.name"
        end
    | _, _ => a !! str "gen_ai.provider.name"
    end.
Proof.
  assert (Hk : ~ In (str "gen_ai.provider.name")
                 [str "gen_ai.request.model"; str "gen_ai.response.finish_reasons";
                  str "gen_ai.response.model"; str "gen_ai.response.id";
                  str "server.address"; str "server.port"]) by notin.
  unfold modelAttributes.
  destruct (ExportedSpan.type span); try reflexivity.
  destruct (ExportedSpan.attributes span) as [m|]; [|reflexivity].
  cbv zeta. repeat case_match; peel Hk; try apply lookup_insert_eq; reflexivity.
Qed.

Lemma usageAttributes_tokens (u : Usage) (a : Attributes) :
  usageAttributes u a !! str "gen_ai.usage.input_tokens"
  = match nullish (inputTokens u) (promptTokens u) with
    | Some n => Some (JNum n)
    | None => a !! str "gen_ai.usage.input_tokens"
    end
  /\ usageAttributes u a !! str "gen_ai.usage.output_tokens"
     = match nullish (outputTokens u) (completionTokens u) with
       | Some n => Some (JNum n)
       | None => a !! str "gen_ai.usage.output_tokens"
       end.
Proof.
  assert (Hi : ~ In (str "gen_ai.usage.input_tokens")
                 [str "gen_ai.usage.output_tokens"; str "gen_ai.usage.reasoning_tokens";
                  str "gen_ai.usage.cached_input_tokens"]) by notin.
  assert (Ho : ~ In (str "gen_ai.usage.output_tokens")
                 [str "gen_ai.usage.input_tokens"; str "gen_ai.usage.reasoning_tokens";
                  str "gen_ai.usage.cached_input_tokens"]) by notin.
  unfold usageAttributes. cbv zeta. split.
  - rewrite !setIfDefined_ne by not_key Hi.
    unfold setIfDefined. destruct (nullish (inputTokens u) (promptTokens u));
      [apply lookup_insert_eq | reflexivity].
  - do 2 rewrite setIfDefined_ne by not_key Ho.
    unfold setIfDefined at 1.
    destruct (nullish (outputTokens u) (completionTokens u));
      [apply lookup_insert_eq|].
    rewrite setIfDefined_ne by not_key Ho. reflexivity.
Qed.

Lemma modelAttributes_tokens (span : ExportedSpan.t) (a : Attributes)
    (m : SpanAttributes) (u : Usage) (k : jsstring) :
  ExportedSpan.type span = MODEL_GENERATION ->
  ExportedSpan.attributes span = Some m ->
  usage m = Some u ->
  In k [str "gen_ai.usage.input_tokens"; str "gen_ai.usage.output_tokens"] ->
  modelAttributes span a !! k
  = usageAttributes u
      (match provider m with
       | Some p =>
           if stringTruthy p then
             <[str "gen_ai.provider.name" := JStr (normalizeProvider p)]>
               (setIfTruthy (model m) (str "gen_ai.request.model") a)
           else setIfTruthy (model m) (str "gen_ai.request.model") a
       | None => setIfTruthy (model m) (str "gen_ai.request.model") a
       end) !! k.
Proof.
  intros Hty Hattrs Hu Hk.
  assert (Hother : ~ In k [str "gen_ai.response.finish_reasons";
                    str "gen_ai.response.model"; str "gen_ai.response.id";
                    str "server.address"; str "server.port"]).
  { cbn [In] in Hk. destruct Hk as [<-|[<-|[]]]; notin. }
  assert (Hp : ~ In k parameterKeys).
  { cbn [In] in Hk. destruct Hk as [<-|[<-|[]]]; notin. }
  unfold modelAttributes. rewrite Hty, Hattrs, Hu. cbv zeta.
  rewrite !setIfDefined_ne, !setIfTruthy_ne by not_key Hother.
  destruct (finishReason m) as [r|]; [destruct (stringTruthy r)|];
    rewrite ?lookup_insert_ne by not_key Hother;
    (destruct (parameters m); [rewrite parameterAttributes_writes by exact Hp|]);
    reflexivity.
Qed.


Lemma before_model_outside (span : ExportedSpan.t) (t k : jsstring) :
  ~ In k baseKeys -> ~ In k (inputKeys t) -> ~ In k (outputKeys t) ->
  outputAttributes span t (inputAttributes span t (baseAttributes span)) !! k = None.
Proof.
  intros Hb Hi Ho.
  rewrite outputAttributes_writes, inputAttributes_writes by assumption.
  now apply baseAttributes_outside.
Qed.

(** Before the metadata pass, gen_ai.provider.name is set for a model
    generation with a provider that is not empty, and for no other span. *)
Lemma provider_before_metadata (span : ExportedSpan.t) :
  (forall m p,
     ExportedSpan.type span = MODEL_GENERATION ->
     ExportedSpan.attributes span = Some m ->
     provider m = Some p -> p <> [] ->
     kindAttributes span !! str "gen_ai.provider.name"
     = Some (JStr (normalizeProvider p)))
  /\ (ExportedSpan.type span <> MODEL_GENERATION
      \/ optTruthy (ExportedSpan.attributes span ≫= provider) = false ->
      kindAttributes span !! str "gen_ai.provider.name" = None).
Proof.
  assert (Heq : kindAttributes span !! str "gen_ai.provider.name"
                = match ExportedSpan.type span, ExportedSpan.attributes span with
                  | MODEL_GENERATION, Some m =>
                      match provider m with
                      | Some p =>
                          if stringTruthy p then Some (JStr (normalizeProvider p))
                          else None
                      | None => None
                      end
                  | _, _ => None
                  end).
  { rewrite kindAttributes_stages. cbv zeta.
    generalize (toLowerCase (typeValue (ExportedSpan.type span))). intros t.
    rewrite errorAttributes_writes, agentAttributes_writes, toolAttributes_writes
      by notin.
    rewrite modelAttributes_provider.
    rewrite (before_model_outside span t) by notin. reflexivity. }
  rewrite Heq. clear Heq.
  split.
  - intros m p -> -> -> Hp. destruct p; [congruence | reflexivity].
  - intros [Hty | Hp].
    + destruct (ExportedSpan.type span); try reflexivity. congruence.
    + destruct (ExportedSpan.type span); try reflexivity.
      destruct (ExportedSpan.attributes span) as [m|]; [|reflexivity].
      simpl in Hp. destruct (provider m) as [p|]; [|reflexivity].
      simpl in Hp. now rewrite Hp.
Qed.

(** Before the metadata pass, the token counts are those of [inputTokens]
    and [outputTokens], or else of the legacy properties. *)
Lemma token_usage_before_metadata (span : ExportedSpan.t) (m : SpanAttributes)
    (u : Usage) :
  ExportedSpan.type span = MODEL_GENERATION ->
  ExportedSpan.attributes span = Some m ->
  usage m = Some u ->
  kindAttributes span !! str "gen_ai.usage.input_tokens"
  = JNum <$> nullish (inputTokens u) (promptTokens u)
  /\ kindAttributes span !! str "gen_ai.usage.output_tokens"
     = JNum <$> nullish (outputTokens u) (completionTokens u).
Proof.
  intros Hty Hattrs Hu.
  rewrite kindAttributes_stages. cbv zeta.
  generalize (toLowerCase (typeValue (ExportedSpan.type span))). intros t.
  assert (Hinner : forall k,
            In k [str "gen_ai.usage.input_tokens"; str "gen_ai.usage.output_tokens"] ->
            (match provider m with
             | Some p =>
                 if stringTruthy p then
                   <[str "gen_ai.provider.name" := JStr (normalizeProvider p)]>
                     (setIfTruthy (model m) (str "gen_ai.request.model")
                        (outputAttributes span t
                           (inputAttributes span t (baseAttributes span))))
                 else setIfTruthy (model m) (str "gen_ai.request.model")
                        (outputAttributes span t
                           (inputAttributes span t (baseAttributes span)))
             | None => setIfTruthy (model m) (str "gen_ai.request.model")
                         (outputAttributes span t
                            (inputAttributes span t (baseAttributes span)))
             end) !! k = None).
  { intros k Hk.
    assert (Hne : ~ In k [str "gen_ai.provider.name"; str "gen_ai.request.model"]).
    { cbn [In] in Hk. destruct Hk as [<-|[<-|[]]]; notin. }
    assert (Hbefore : outputAttributes span t
                        (inputAttributes span t (baseAttributes span)) !! k = None).
    { cbn [In] in Hk. destruct Hk as [<-|[<-|[]]];
        apply before_model_outside; notin. }
    destruct (provider m) as [p|]; [destruct (stringTruthy p)|];
      rewrite ?lookup_insert_ne by not_key Hne;
      rewrite setIfTruthy_ne by not_key Hne; exact Hbefore. }
  destruct (usageAttributes_tokens u
              (match provider m with
               | Some p =>
                   if stringTruthy p then
                     <[str "gen_ai.provider.name" := JStr (normalizeProvider p)]>
                       (setIfTruthy (model m) (str "gen_ai.request.model")
                          (outputAttributes span t
                             (inputAttributes span t (baseAttributes span))))
                   else setIfTruthy (model m) (str "gen_ai.request.model")
                          (outputAttributes span t
                             (inputAttributes span t (baseAttributes span)))
               | None => setIfTruthy (model m) (str "gen_ai.request.model")
                           (outputAttributes span t
                              (inputAttributes span t (baseAttributes span)))
               end)) as [Hin Hout].
  split.
  - rewrite errorAttributes_writes, agentAttributes_writes, toolAttributes_writes
      by notin.
    rewrite (modelAttributes_tokens span _ m u _ Hty Hattrs Hu) by (cbn; tauto).
    rewrite Hin, Hinner by (cbn; tauto).
    now destruct (nullish (inputTokens u) (promptTokens u)).
  - rewrite errorAttributes_writes, agentAttributes_writes, toolAttributes_writes
      by notin.
    rewrite (modelAttributes_tokens span _ m u _ Hty Hattrs Hu) by (cbn; tauto).
    rewrite Hout, Hinner by (cbn; tauto).
    now destruct (nullish (outputTokens u) (completionTokens u)).
Qed.

Lemma errorAttributes_eq (span : ExportedSpan.t) (a : Attributes) :
  (forall e, ExportedSpan.errorInfo span = Some e ->
     errorAttributes span a !! str "error.type"
     = Some (JStr (if optTruthy (ErrorInfo.id e) then default [] (ErrorInfo.id e)
                   else str "unknown"))
     /\ errorAttributes span a !! str "error.message"
        = Some (JStr (ErrorInfo.message e)))
  /\ (ExportedSpan.errorInfo span = None -> errorAttributes span a = a).
Proof.
  assert (Ht : ~ In (str "error.type")
                 [str "error.message"; str "error.domain"; str "error.category"])
    by notin.
  assert (Hm : ~ In (str "error.message")
                 [str "error.type"; str "error.domain"; str "error.category"])
    by notin.
  unfold errorAttributes. split.
  - intros e ->. cbv zeta. split.
    + rewrite !setIfTruthy_ne by not_key Ht.
      rewrite lookup_insert_ne by not_key Ht. apply lookup_insert_eq.
    + rewrite !setIfTruthy_ne by not_key Hm. apply lookup_insert_eq.
  - now intros ->.
Qed.

(** Before the metadata pass, error.type and error.message are set with
    [errorInfo], and no error attribute without. *)
Lemma error_before_metadata (span : ExportedSpan.t)
    (scope : InstrumentationScope) (resource : option Resource) :
  (forall e, ExportedSpan.errorInfo span = Some e ->
     kindAttributes span !! str "error.type"
     = Some (JStr (if optTruthy (ErrorInfo.id e) then default [] (ErrorInfo.id e)
                   else str "unknown"))
     /\ kindAttributes span !! str "error.message"
        = Some (JStr (ErrorInfo.message e))
     /\ message (status (new_OtelSpan span scope resource))
        = Some (ErrorInfo.message e))
  /\ (ExportedSpan.errorInfo span = None ->
      forall k, In k errorKeys -> kindAttributes span !! k = None)
  /\ (code (status (new_OtelSpan span scope resource)) = ERROR
      <-> is_Some (kindAttributes span !! str "error.type")).
Proof.
  unfold kindAttributes. cbv zeta.
  generalize (toLowerCase (typeValue (ExportedSpan.type span))). intros t.
  destruct (errorAttributes_eq span
              (agentAttributes span t
                 (toolAttributes span
                    (modelAttributes span
                       (outputAttributes span t
                          (inputAttributes span t (baseAttributes span)))))))
    as [Hsome Hnone].
  assert (Hbefore : forall k, In k errorKeys ->
            agentAttributes span t
              (toolAttributes span
                 (modelAttributes span
                    (outputAttributes span t
                       (inputAttributes span t (baseAttributes span))))) !! k
            = None).
  { intros k Hk.
    assert (Hout : ~ In k baseKeys /\ ~ In k (inputKeys t) /\ ~ In k (outputKeys t)
                   /\ ~ In k modelKeys /\ ~ In k toolKeys /\ ~ In k (agentKeys t)).
    { unfold errorKeys in Hk. cbn [In] in Hk.
      destruct Hk as [<-|[<-|[<-|[<-|[]]]]]; repeat split; notin. }
    destruct Hout as (Hb & Hi & Ho & Hm & Htl & Ha).
    rewrite agentAttributes_writes, toolAttributes_writes, modelAttributes_writes
      by assumption.
    now apply before_model_outside. }
  split; [|split].
  - intros e He. destruct (Hsome e He) as [Hty Hmsg].
    split; [exact Hty | split; [exact Hmsg|]].
    simpl. now rewrite He.
  - intros He k Hk. rewrite (Hnone He). now apply Hbefore.
  - simpl. destruct (ExportedSpan.errorInfo span) as [e|] eqn:He.
    + destruct (Hsome e eq_refl) as [Hty _]. rewrite Hty.
      split; [intros _; eexists; reflexivity | reflexivity].
    + rewrite (Hnone eq_refl), Hbefore by (unfold errorKeys; cbn; tauto).
      split; [|intros [x Hx]; discriminate].
      destruct (ExportedSpan.endTime span); discriminate.
Qed.


Lemma modelAttributes_other_kind (span : ExportedSpan.t) (a : Attributes) :
  ExportedSpan.type span <> MODEL_GENERATION -> modelAttributes span a = a.
Proof.
  unfold modelAttributes. destruct (ExportedSpan.type span); congruence.
Qed.

Lemma before_tool_outside (span : ExportedSpan.t) (t k : jsstring) :
  ExportedSpan.type span <> MODEL_GENERATION ->
  ~ In k baseKeys -> ~ In k (inputKeys t) -> ~ In k (outputKeys t) ->
  modelAttributes span
    (outputAttributes span t (inputAttributes span t (baseAttributes span))) !! k
  = None.
Proof.
  intros Hty Hb Hi Ho. rewrite modelAttributes_other_kind by exact Hty.
  now apply before_model_outside.
Qed.

(** Before the metadata pass, a TOOL_CALL has no server address and an
    MCP_TOOL_CALL no description. *)
Lemma tool_before_metadata (span : ExportedSpan.t) (toolAttrs : SpanAttributes) :
  ExportedSpan.attributes span = Some toolAttrs ->
  let truthyString (o : option jsstring) :=
    match o with
    | Some (c :: s) => Some (JStr (c :: s))
    | _ => None
    end in
  (ExportedSpan.type span = TOOL_CALL ->
     kindAttributes span !! str "gen_ai.tool.name" = truthyString (toolId toolAttrs)
     /\ kindAttributes span !! str "gen_ai.tool.description"
        = truthyString (toolDescription toolAttrs)
     /\ kindAttributes span !! str "server.address" = None)
  /\ (ExportedSpan.type span = MCP_TOOL_CALL ->
     kindAttributes span !! str "gen_ai.tool.name" = truthyString (toolId toolAttrs)
     /\ kindAttributes span !! str "server.address"
        = truthyString (mcpServer toolAttrs)
     /\ kindAttributes span !! str "gen_ai.tool.description" = None).
Proof.
  intros Hattrs. cbv zeta. unfold kindAttributes. cbv zeta.
  generalize (toLowerCase (typeValue (ExportedSpan.type span))). intros t.
  assert (Hn : ~ In (str "gen_ai.tool.name")
                 [str "server.address"; str "gen_ai.tool.description"]) by notin.
  assert (Hd : ~ In (str "gen_ai.tool.description")
                 [str "gen_ai.tool.name"; str "server.address"]) by notin.
  assert (Hs : ~ In (str "server.address")
                 [str "gen_ai.tool.name"; str "gen_ai.tool.description"]) by notin.
  assert (Hset : forall o key (a : Attributes),
            a !! key = None ->
            setIfTruthy o key a !! key
            = match o with Some (c :: s) => Some (JStr (c :: s)) | _ => None end).
  { intros o key a Ha. unfold setIfTruthy.
    destruct o as [[|c s]|]; simpl; [exact Ha | apply lookup_insert_eq | exact Ha]. }
  split; intros Hty.
  - assert (Hnm : ExportedSpan.type span <> MODEL_GENERATION) by congruence.
    repeat split;
      rewrite errorAttributes_writes, agentAttributes_writes by notin;
      unfold toolAttributes; rewrite Hattrs, Hty; cbn [isTool].
    + rewrite setIfTruthy_ne by not_key Hn. apply Hset.
      apply before_tool_outside; [exact Hnm | notin..].
    + apply Hset. rewrite setIfTruthy_ne by not_key Hd.
      apply before_tool_outside; [exact Hnm | notin..].
    + rewrite !setIfTruthy_ne by not_key Hs.
      apply before_tool_outside; [exact Hnm | notin..].
  - assert (Hnm : ExportedSpan.type span <> MODEL_GENERATION) by congruence.
    repeat split;
      rewrite errorAttributes_writes, agentAttributes_writes by notin;
      unfold toolAttributes; rewrite Hattrs, Hty; cbn [isTool].
    + rewrite setIfTruthy_ne by not_key Hn. apply Hset.
      apply before_tool_outside; [exact Hnm | notin..].
    + apply Hset. rewrite setIfTruthy_ne by not_key Hs.
      apply before_tool_outside; [exact Hnm | notin..].
    + rewrite !setIfTruthy_ne by not_key Hd.
      apply before_tool_outside; [exact Hnm | notin..].
Qed.

(** Before the metadata pass, an agent run with attributes has the key
    gen_ai.system_instructions, and no other span has it. *)
Lemma agent_instructions_before_metadata (span : ExportedSpan.t)
    (agentAttrs : SpanAttributes) :
  (ExportedSpan.type span = AGENT_RUN ->
   ExportedSpan.attributes span = Some agentAttrs ->
   kindAttributes span !! str "gen_ai.system_instructions"
   = Some (match instructions agentAttrs with
           | Some s => JStr s
           | None => JUndefined
           end)
   /\ (instructions agentAttrs = None ->
       getAttr (kindAttributes span) (str "gen_ai.system_instructions") = JUndefined
       /\ is_Some (kindAttributes span !! str "gen_ai.system_instructions")))
  /\ (ExportedSpan.type span <> AGENT_RUN \/ ExportedSpan.attributes span = None ->
      kindAttributes span !! str "gen_ai.system_instructions" = None).
Proof.
  unfold kindAttributes. cbv zeta.
  generalize (toLowerCase (typeValue (ExportedSpan.type span))). intros t.
  rewrite errorAttributes_writes by notin.
  split.
  - intros Hty Hattrs.
    assert (Hval : agentAttributes span t
                     (toolAttributes span
                        (modelAttributes span
                           (outputAttributes span t
                              (inputAttributes span t (baseAttributes span)))))
                   !! str "gen_ai.system_instructions"
                   = Some (match instructions agentAttrs with
                           | Some s => JStr s
                           | None => JUndefined
                           end)).
    { unfold agentAttributes. rewrite Hty, Hattrs. cbv zeta.
      apply lookup_insert_eq. }
    split; [exact Hval|].
    intros Hnone. unfold getAttr. rewrite ?errorAttributes_writes by notin.
    rewrite Hval, Hnone. split; [reflexivity | now eexists].
  - intros Hcase.
    assert (Hid : forall a, agentAttributes span t a = a).
    { intros a. unfold agentAttributes.
      destruct Hcase as [Hty | Hattrs].
      - destruct (ExportedSpan.type span); try reflexivity. congruence.
      - rewrite Hattrs. now destruct (ExportedSpan.type span). }
    rewrite Hid, toolAttributes_writes, modelAttributes_writes by notin.
    apply before_model_outside; notin.
Qed.

Lemma parameterAttributes_seed_temperature (p : Parameters) (a : Attributes) :
  a !! str "gen_ai.request.seed" = None ->
  a !! str "gen_ai.request.temperature" = None ->
  parameterAttributes p a !! str "gen_ai.request.seed"
  = match seed p with
    | Some n => if numberTruthy n then Some (JNum n) else None
    | None => None
    end
  /\ parameterAttributes p a !! str "gen_ai.request.temperature"
     = JNum <$> temperature p.
Proof.
  intros Hs Ht.
  assert (Hsk : ~ In (str "gen_ai.request.seed")
                  [str "gen_ai.request.temperature"; str "gen_ai.request.max_tokens";
                   str "gen_ai.request.top_p"; str "gen_ai.request.top_k";
                   str "gen_ai.request.presence_penalty";
                   str "gen_ai.request.frequency_penalty";
                   str "gen_ai.request.stop_sequences"]) by notin.
  assert (Htk : ~ In (str "gen_ai.request.temperature")
                  [str "gen_ai.request.seed"; str "gen_ai.request.max_tokens";
                   str "gen_ai.request.top_p"; str "gen_ai.request.top_k";
                   str "gen_ai.request.presence_penalty";
                   str "gen_ai.request.frequency_penalty";
                   str "gen_ai.request.stop_sequences"]) by notin.
  unfold parameterAttributes. cbv zeta. split.
  - unfold setIfTruthyNumber at 1.
    destruct (seed p) as [n|]; [destruct (numberTruthy n)|];
      try apply lookup_insert_eq;
      (destruct (stopSequences p); [rewrite lookup_insert_ne by not_key Hsk|]);
      rewrite !setIfDefined_ne by not_key Hsk; exact Hs.
  - rewrite setIfTruthyNumber_ne by not_key Htk.
    destruct (stopSequences p); [rewrite lookup_insert_ne by not_key Htk|];
      do 5 rewrite setIfDefined_ne by not_key Htk;
      unfold setIfDefined; (destruct (temperature p); [apply lookup_insert_eq|]);
      exact Ht.
Qed.

(** Before the metadata pass, the temperature is set whenever it is given
    and the seed only when it is truthy. *)
Lemma seed_and_temperature_before_metadata (span : ExportedSpan.t)
    (m : SpanAttributes) (p : Parameters) :
  ExportedSpan.type span = MODEL_GENERATION ->
  ExportedSpan.attributes span = Some m ->
  parameters m = Some p ->
  kindAttributes span !! str "gen_ai.request.seed"
  = match seed p with
    | Some n => if numberTruthy n then Some (JNum n) else None
    | None => None
    end
  /\ kindAttributes span !! str "gen_ai.request.temperature"
     = JNum <$> temperature p.
Proof.
  intros Hty Hattrs Hp.
  unfold kindAttributes. cbv zeta.
  generalize (toLowerCase (typeValue (ExportedSpan.type span))). intros t.
  assert (Hmodel : forall k,
            In k [str "gen_ai.request.seed"; str "gen_ai.request.temperature"] ->
            exists inner,
              inner !! str "gen_ai.request.seed" = None
              /\ inner !! str "gen_ai.request.temperature" = None
              /\ errorAttributes span
                   (agentAttributes span t
                      (toolAttributes span
                         (modelAttributes span
                            (outputAttributes span t
                               (inputAttributes span t (baseAttributes span)))))) !! k
                 = parameterAttributes p inner !! k).
  { intros k Hk.
    assert (Hother : ~ In k [str "gen_ai.request.model"; str "gen_ai.provider.name";
                      str "gen_ai.response.finish_reasons";
                      str "gen_ai.response.model"; str "gen_ai.response.id";
                      str "server.address"; str "server.port"]).
    { cbn [In] in Hk. destruct Hk as [<-|[<-|[]]]; notin. }
    assert (Hlater : ~ In k errorKeys /\ ~ In k (agentKeys t) /\ ~ In k toolKeys).
    { cbn [In] in Hk. destruct Hk as [<-|[<-|[]]]; repeat split; notin. }
    destruct Hlater as (He & Ha & Htl).
    rewrite errorAttributes_writes, agentAttributes_writes, toolAttributes_writes
      by assumption.
    unfold modelAttributes. rewrite Hty, Hattrs, Hp. cbv zeta.
    rewrite !setIfDefined_ne, !setIfTruthy_ne by not_key Hother.
    eexists. split; [|split].
    3: { destruct (finishReason m) as [r|]; [destruct (stringTruthy r)|];
           rewrite ?lookup_insert_ne by not_key Hother; reflexivity. }
    - destruct (usage m); [rewrite usageAttributes_writes by notin|];
        (destruct (provider m) as [pr|]; [destruct (stringTruthy pr)|]);
        rewrite ?lookup_insert_ne by (intro E; cbv in E; discriminate E);
        rewrite setIfTruthy_ne by (intro E; cbv in E; discriminate E);
        apply before_model_outside; notin.
    - destruct (usage m); [rewrite usageAttributes_writes by notin|];
        (destruct (provider m) as [pr|]; [destruct (stringTruthy pr)|]);
        rewrite ?lookup_insert_ne by (intro E; cbv in E; discriminate E);
        rewrite setIfTruthy_ne by (intro E; cbv in E; discriminate E);
        apply before_model_outside; notin. }
  split.
  - destruct (Hmodel (str "gen_ai.request.seed") ltac:(cbn; tauto))
      as (inner & Hs & Ht & ->).
    exact (proj1 (parameterAttributes_seed_temperature p inner Hs Ht)).
  - destruct (Hmodel (str "gen_ai.request.temperature") ltac:(cbn; tauto))
      as (inner & Hs & Ht & ->).
    exact (proj2 (parameterAttributes_seed_temperature p inner Hs Ht)).
Qed.

End AttributeFacts.

(** ** The exported attributes

    The metadata pass writes under the serialized values of the metadata
    entries.  Under every other key the exported attributes are those of
    the mapping by kind. *)

Section ExportedAttributes.
Context {host : Host}.

(** X11.  Where no metadata value names an input or output key: an input
    that is not undefined is stored under one key, chosen by the span type:
    as messages for a model generation, as call arguments for a tool or MCP
    tool call, under mastra.<type>.input otherwise; a string is stored as
    it is and any other value through JSON.  The other input keys, and all
    of them without input, are not set.  The same holds of the output. *)
Theorem getAttributes_input_output (span : ExportedSpan.t) :
  let type := ExportedSpan.type span in
  let t := toLowerCase (typeValue type) in
  let routed (v : JsValue) :=
    if isModel type then convertMastraMessagesToGenAIMessages (stringOrJson v)
    else JStr (stringOrJson v) in
  (forall k, In k (inputKeys t) \/ In k (outputKeys t) ->
     notNamedByMetadata span k) ->
  (ExportedSpan.input span <> JUndefined ->
     getAttributes span !! inputKey type t = Some (routed (ExportedSpan.input span)))
  /\ (forall k, In k (inputKeys t) ->
        ExportedSpan.input span = JUndefined \/ k <> inputKey type t ->
        getAttributes span !! k = None)
  /\ (ExportedSpan.output span <> JUndefined ->
     getAttributes span !! outputKey type t = Some (routed (ExportedSpan.output span)))
  /\ (forall k, In k (outputKeys t) ->
        ExportedSpan.output span = JUndefined \/ k <> outputKey type t ->
        getAttributes span !! k = None).
Proof.
  cbv zeta. intros Hnot.
  pose proof (input_output_before_metadata span) as Hkind. cbv zeta in Hkind.
  destruct Hkind as (Hin & Hin' & Hout & Hout').
  split; [|split; [|split]].
  - intros Hdef.
    rewrite getAttributes_not_named by (apply Hnot; left; apply inputKey_In).
    now apply Hin.
  - intros k Hk Hcase.
    rewrite getAttributes_not_named by (apply Hnot; now left).
    now apply Hin'.
  - intros Hdef.
    rewrite getAttributes_not_named by (apply Hnot; right; apply outputKey_In).
    now apply Hout.
  - intros k Hk Hcase.
    rewrite getAttributes_not_named by (apply Hnot; now right).
    now apply Hout'.
Qed.

(** X12.  Where no metadata value names gen_ai.provider.name: a model
    generation with a provider that is not the empty string has the
    normalized provider under that key, and every other span has no such
    attribute. *)
Theorem getAttributes_provider (span : ExportedSpan.t) :
  notNamedByMetadata span (str "gen_ai.provider.name") ->
  (forall m p,
     ExportedSpan.type span = MODEL_GENERATION ->
     ExportedSpan.attributes span = Some m ->
     provider m = Some p -> p <> [] ->
     getAttributes span !! str "gen_ai.provider.name"
     = Some (JStr (normalizeProvider p)))
  /\ (ExportedSpan.type span <> MODEL_GENERATION
      \/ optTruthy (ExportedSpan.attributes span ≫= provider) = false ->
      getAttributes span !! str "gen_ai.provider.name" = None).
Proof.
  intros Hnot. rewrite (getAttributes_not_named _ _ Hnot).
  apply provider_before_metadata.
Qed.

(** X13.  Where no metadata value names the two keys: the token counts of
    a model generation are taken from [inputTokens] and [outputTokens], and
    from the legacy [promptTokens] and [completionTokens] only when those
    are missing; with neither, the attribute is not set. *)
Theorem getAttributes_token_usage (span : ExportedSpan.t) (m : SpanAttributes)
    (u : Usage) :
  notNamedByMetadata span (str "gen_ai.usage.input_tokens") ->
  notNamedByMetadata span (str "gen_ai.usage.output_tokens") ->
  ExportedSpan.type span = MODEL_GENERATION ->
  ExportedSpan.attributes span = Some m ->
  usage m = Some u ->
  getAttributes span !! str "gen_ai.usage.input_tokens"
  = JNum <$> nullish (inputTokens u) (promptTokens u)
  /\ getAttributes span !! str "gen_ai.usage.output_tokens"
     = JNum <$> nullish (outputTokens u) (completionTokens u).
Proof.
  intros Hin Hout Hty Hattrs Hu.
  rewrite (getAttributes_not_named _ _ Hin), (getAttributes_not_named _ _ Hout).
  now apply token_usage_before_metadata with (m := m).
Qed.

(** X14.  Where no metadata value names an error key: with [errorInfo] the
    attributes hold error.type, the id of the error or "unknown" when the
    id is missing or empty, and error.message, the message that is also the
    message of the status; without, no error attribute is set.  The status
    of the produced span is ERROR exactly when error.type is set. *)
Theorem getAttributes_error (span : ExportedSpan.t)
    (scope : InstrumentationScope) (resource : option Resource) :
  (forall k, In k errorKeys -> notNamedByMetadata span k) ->
  (forall e, ExportedSpan.errorInfo span = Some e ->
     getAttributes span !! str "error.type"
     = Some (JStr (if optTruthy (ErrorInfo.id e) then default [] (ErrorInfo.id e)
                   else str "unknown"))
     /\ getAttributes span !! str "error.message"
        = Some (JStr (ErrorInfo.message e))
     /\ message (status (new_OtelSpan span scope resource))
        = Some (ErrorInfo.message e))
  /\ (ExportedSpan.errorInfo span = None ->
      forall k, In k errorKeys -> getAttributes span !! k = None)
  /\ (code (status (new_OtelSpan span scope resource)) = ERROR
      <-> is_Some (getAttributes span !! str "error.type")).
Proof.
  intros Hnot.
  destruct (error_before_metadata span scope resource) as (Hsome & Hnone & Hcode).
  assert (Hty : notNamedByMetadata span (str "error.type")).
  { apply Hnot. unfold errorKeys. cbn [In]. tauto. }
  assert (Hmsg : notNamedByMetadata span (str "error.message")).
  { apply Hnot. unfold errorKeys. cbn [In]. tauto. }
  rewrite (getAttributes_not_named _ _ Hty), (getAttributes_not_named _ _ Hmsg).
  split; [exact Hsome | split; [|exact Hcode]].
  intros He k Hk. rewrite getAttributes_not_named by now apply Hnot.
  now apply Hnone.
Qed.

(** X23.  Where no metadata value names the three keys: a tool call has
    its tool id under gen_ai.tool.name when that is not empty.  A TOOL_CALL
    has its description and no server address; an MCP_TOOL_CALL has its MCP
    server as server address and no description. *)
Theorem getAttributes_tool (span : ExportedSpan.t) (toolAttrs : SpanAttributes) :
  notNamedByMetadata span (str "gen_ai.tool.name") ->
  notNamedByMetadata span (str "gen_ai.tool.description") ->
  notNamedByMetadata span (str "server.address") ->
  ExportedSpan.attributes span = Some toolAttrs ->
  let truthyString (o : option jsstring) :=
    match o with
    | Some (c :: s) => Some (JStr (c :: s))
    | _ => None
    end in
  (ExportedSpan.type span = TOOL_CALL ->
     getAttributes span !! str "gen_ai.tool.name" = truthyString (toolId toolAttrs)
     /\ getAttributes span !! str "gen_ai.tool.description"
        = truthyString (toolDescription toolAttrs)
     /\ getAttributes span !! str "server.address" = None)
  /\ (ExportedSpan.type span = MCP_TOOL_CALL ->
     getAttributes span !! str "gen_ai.tool.name" = truthyString (toolId toolAttrs)
     /\ getAttributes span !! str "server.address"
        = truthyString (mcpServer toolAttrs)
     /\ getAttributes span !! str "gen_ai.tool.description" = None).
Proof.
  intros Hname Hdescription Haddress Hattrs.
  rewrite (getAttributes_not_named _ _ Hname),
    (getAttributes_not_named _ _ Hdescription),
    (getAttributes_not_named _ _ Haddress).
  now apply tool_before_metadata.
Qed.

(** X24.  Where no metadata value names gen_ai.system_instructions: an
    agent run with attributes always has the key, with the value undefined
    when it has no instructions; no other span has the key. *)
Theorem getAttributes_agent_instructions (span : ExportedSpan.t)
    (agentAttrs : SpanAttributes) :
  notNamedByMetadata span (str "gen_ai.system_instructions") ->
  (ExportedSpan.type span = AGENT_RUN ->
   ExportedSpan.attributes span = Some agentAttrs ->
   getAttributes span !! str "gen_ai.system_instructions"
   = Some (match instructions agentAttrs with
           | Some s => JStr s
           | None => JUndefined
           end)
   /\ (instructions agentAttrs = None ->
       getAttr (getAttributes span) (str "gen_ai.system_instructions") = JUndefined
       /\ is_Some (getAttributes span !! str "gen_ai.system_instructions")))
  /\ (ExportedSpan.type span <> AGENT_RUN \/ ExportedSpan.attributes span = None ->
      getAttributes span !! str "gen_ai.system_instructions" = None).
Proof.
  intros Hnot. unfold getAttr. rewrite (getAttributes_not_named _ _ Hnot).
  apply agent_instructions_before_metadata.
Qed.

(** X25.  Where no metadata value names the two keys: the temperature of a
    model generation is exported whenever it is given, also when it is 0;
    the seed is exported only when it is truthy, so a seed of 0 is not. *)
Theorem getAttributes_seed_and_temperature (span : ExportedSpan.t)
    (m : SpanAttributes) (p : Parameters) :
  notNamedByMetadata span (str "gen_ai.request.seed") ->
  notNamedByMetadata span (str "gen_ai.request.temperature") ->
  ExportedSpan.type span = MODEL_GENERATION ->
  ExportedSpan.attributes span = Some m ->
  parameters m = Some p ->
  getAttributes span !! str "gen_ai.request.seed"
  = match seed p with
    | Some n => if numberTruthy n then Some (JNum n) else None
    | None => None
    end
  /\ getAttributes span !! str "gen_ai.request.temperature"
     = JNum <$> temperature p.
Proof.
  intros Hseed Htemperature Hty Hattrs Hp.
  rewrite (getAttributes_not_named _ _ Hseed),
    (getAttributes_not_named _ _ Htemperature).
  now apply seed_and_temperature_before_metadata with (m := m).
Qed.

End ExportedAttributes.

(** The one metadata entry of [tagged] names none of the keys of the
    mapping by kind. *)
Ltac tenant_only :=
  let metadata := fresh "metadata" in
  let k := fresh "k" in
  let v := fresh "v" in
  let Hmeta := fresh "Hmeta" in
  let Hin := fresh "Hin" in
  let E := fresh "E" in
  intros metadata k v Hmeta Hin _ _ E;
  vm_compute in Hmeta; injection Hmeta as <-;
  destruct Hin as [Hin | []]; injection Hin as <- <-;
  vm_compute in E; discriminate E.

Lemma kindAttributes_vocabulary_witness :
  inNamespace (str "mastra.span.type") = true.
Proof.
  apply (proj2 (@kindAttributes_vocabulary asciiHost (plainSpan AGENT_RUN)
                  (str "mastra.span.type") ltac:(eexists; reflexivity))).
Defined.

Lemma getAttributes_input_output_witness :
  @getAttributes asciiHost
    (tagged (withInput (JStr (str "query")) (plainSpan TOOL_CALL)))
    !! str "gen_ai.tool.call.arguments"
  = Some (JStr (str "query")).
Proof.
  apply (proj1 (@getAttributes_input_output asciiHost
                  (tagged (withInput (JStr (str "query")) (plainSpan TOOL_CALL)))
                  ltac:(intros k Hk; vm_compute in Hk;
                        destruct Hk as [Hk|Hk];
                        repeat (destruct Hk as [<-|Hk]; [tenant_only|]);
                        destruct Hk))).
  discriminate.
Defined.

Lemma getAttributes_provider_witness :
  @getAttributes asciiHost
    (tagged (withAttributes sampleModelAttributes (plainSpan MODEL_GENERATION)))
    !! str "gen_ai.provider.name"
  = Some (JStr (str "anthropic")).
Proof.
  apply (proj1 (@getAttributes_provider asciiHost
                  (tagged (withAttributes sampleModelAttributes
                             (plainSpan MODEL_GENERATION)))
                  ltac:(tenant_only))
           sampleModelAttributes (str "Claude"));
    [reflexivity | reflexivity | reflexivity | discriminate].
Defined.

Lemma getAttributes_token_usage_witness :
  @getAttributes asciiHost
    (tagged (withAttributes sampleModelAttributes (plainSpan MODEL_GENERATION)))
    !! str "gen_ai.usage.input_tokens"
  = Some (JNum ten).
Proof.
  apply (proj1 (@getAttributes_token_usage asciiHost
                  (tagged (withAttributes sampleModelAttributes
                             (plainSpan MODEL_GENERATION)))
                  sampleModelAttributes _
                  ltac:(tenant_only) ltac:(tenant_only) eq_refl eq_refl eq_refl)).
Defined.

Lemma getAttributes_error_witness :
  @getAttributes asciiHost
    (tagged (withError (errorWithStack JUndefined) (plainSpan TOOL_CALL)))
    !! str "error.type"
  = Some (JStr (str "unknown")).
Proof.
  apply (proj1 (@getAttributes_error asciiHost
                  (tagged (withError (errorWithStack JUndefined) (plainSpan TOOL_CALL)))
                  sampleScope None
                  ltac:(intros k Hk; vm_compute in Hk;
                        repeat (destruct Hk as [<-|Hk]; [tenant_only|]);
                        destruct Hk)) _ eq_refl).
Defined.

Lemma getAttributes_tool_witness :
  @getAttributes asciiHost
    (tagged (withAttributes sampleToolAttributes (plainSpan TOOL_CALL)))
    !! str "server.address"
  = None.
Proof.
  apply (proj1 (@getAttributes_tool asciiHost
                  (tagged (withAttributes sampleToolAttributes (plainSpan TOOL_CALL)))
                  sampleToolAttributes
                  ltac:(tenant_only) ltac:(tenant_only) ltac:(tenant_only)
                  eq_refl) eq_refl).
Defined.

Lemma getAttributes_agent_instructions_witness :
  @getAttributes asciiHost
    (tagged (withAttributes (agentNamed (str "Router")) (plainSpan AGENT_RUN)))
    !! str "gen_ai.system_instructions"
  = Some JUndefined.
Proof.
  apply (proj1 (@getAttributes_agent_instructions asciiHost
                  (tagged (withAttributes (agentNamed (str "Router"))
                             (plainSpan AGENT_RUN)))
                  (agentNamed (str "Router")) ltac:(tenant_only))
           eq_refl eq_refl).
Defined.

Lemma getAttributes_seed_and_temperature_witness :
  @getAttributes asciiHost
    (tagged (withAttributes sampleModelAttributes (plainSpan MODEL_GENERATION)))
    !! str "gen_ai.request.seed" = None
  /\ @getAttributes asciiHost
       (tagged (withAttributes sampleModelAttributes (plainSpan MODEL_GENERATION)))
       !! str "gen_ai.request.temperature" = Some (JNum zero).
Proof.
  apply (@getAttributes_seed_and_temperature asciiHost
           (tagged (withAttributes sampleModelAttributes (plainSpan MODEL_GENERATION)))
           sampleModelAttributes _
           ltac:(tenant_only) ltac:(tenant_only) eq_refl eq_refl eq_refl).
Defined.

(** ** The metadata pass, as a whole *)

Section MetadataFacts.
Context {host : Host}.

(** X15.  The metadata pass changes an attribute only under a key that is
    the serialized value of a metadata entry, and then to the prefixed key
    of such an entry; the key is never "__proto__".  It removes no
    attribute, and without metadata entries it changes nothing. *)
Theorem metadata_pass_frame (span : ExportedSpan.t) (key : jsstring) :
  (getAttributes span !! key = kindAttributes span !! key
   \/ exists metadata k v,
        ExportedSpan.metadata span = Some metadata
        /\ In (k, v) metadata /\ v <> JNull /\ v <> JUndefined
        /\ key = serializedValue v /\ key <> str "__proto__"
        /\ getAttributes span !! key = Some (JStr (str "mastra.metadata." ++ k)))
  /\ (is_Some (kindAttributes span !! key) -> is_Some (getAttributes span !! key))
  /\ (ExportedSpan.metadata span = None \/ ExportedSpan.metadata span = Some [] ->
      getAttributes span = kindAttributes span).
Proof.
  assert (Hframe :
    getAttributes span !! key = kindAttributes span !! key
    \/ exists metadata k v,
         ExportedSpan.metadata span = Some metadata
         /\ In (k, v) metadata /\ v <> JNull /\ v <> JUndefined
         /\ key = serializedValue v /\ key <> str "__proto__"
         /\ getAttributes span !! key = Some (JStr (str "mastra.metadata." ++ k))).
  { unfold getAttributes, metadataAttributes.
    destruct (ExportedSpan.metadata span) as [metadata|]; [|now left].
    destruct (metadata_fold_frame metadata (kindAttributes span) key)
      as [Hsame | (k & v & Hin & Hv & Hkey & Hproto & Hval)]; [now left|].
    right. exists metadata, k, v.
    repeat split; try assumption; intros ->; discriminate Hv. }
  split; [exact Hframe | split].
  - intros Hsome.
    destruct Hframe as [-> | (_ & k & v & _ & _ & _ & _ & _ & _ & ->)];
      [exact Hsome | eexists; reflexivity].
  - unfold getAttributes, metadataAttributes. intros [-> | ->]; reflexivity.
Qed.

Lemma metadata_fold_skipped (entries : list (jsstring * JsValue)) (a : Attributes) :
  (forall k v, In (k, v) entries ->
     propertyTruthy a k = true \/ v = JNull \/ v = JUndefined) ->
  List.fold_left metadataEntry entries a = a.
Proof.
  induction entries as [|[k v] entries IH]; intros Hall; cbn [List.fold_left];
    [reflexivity|].
  assert (Hstep : metadataEntry a (k, v) = a).
  { rewrite metadataEntry_cases.
    destruct (Hall k v (or_introl eq_refl)) as [-> | [-> | ->]];
      [reflexivity | now rewrite orb_true_r | now rewrite orb_true_r]. }
  rewrite Hstep. apply IH. intros k' v' Hin. apply Hall. now right.
Qed.

(** X16.  The guard of the metadata pass is a test of the truthiness of
    what [attributes[k]] reads.  Metadata whose every entry has a null or
    undefined value, or a key under which the attributes hold a truthy
    value, or hold nothing while [Object.prototype] has a property of that
    name, changes nothing.  An entry whose key holds a falsy attribute (an
    empty string, 0, undefined) is written like one whose key is not
    there. *)
Theorem metadata_guard_is_truthiness (span : ExportedSpan.t) :
  (forall metadata,
     ExportedSpan.metadata span = Some metadata ->
     (forall k v, In (k, v) metadata ->
        (exists x, kindAttributes span !! k = Some x /\ truthy x = true)
        \/ (kindAttributes span !! k = None /\ In k Object_prototype)
        \/ v = JNull \/ v = JUndefined) ->
     getAttributes span = kindAttributes span)
  /\ (forall k v x,
        ExportedSpan.metadata span = Some [(k, v)] ->
        kindAttributes span !! k = Some x -> truthy x = false ->
        v <> JNull -> v <> JUndefined -> serializedValue v <> str "__proto__" ->
        getAttributes span
        = <[serializedValue v := JStr (str "mastra.metadata." ++ k)]>
            (kindAttributes span)).
Proof.
  split.
  - intros metadata Hmeta Hall. unfold getAttributes, metadataAttributes.
    rewrite Hmeta. apply metadata_fold_skipped.
    intros k v Hin.
    destruct (Hall k v Hin) as [Hown | [Hinherited | Hnullish]];
      [left; apply propertyTruthy_true; tauto
      | left; apply propertyTruthy_true; tauto
      | right; exact Hnullish].
  - intros k v x Hmeta Hown Hfalsy Hnull Hundef Hproto.
    unfold getAttributes, metadataAttributes.
    rewrite Hmeta. cbn [List.fold_left].
    apply metadataEntry_written; try assumption.
    apply propertyTruthy_false. right. now exists x.
Qed.

End MetadataFacts.

Lemma metadata_guard_is_truthiness_witness :
  let span := withMetadata [(str "gen_ai.tool.call.arguments", JStr (str "x"))]
                (withInput (JStr []) (plainSpan TOOL_CALL)) in
  @kindAttributes asciiHost span !! str "gen_ai.tool.call.arguments" = Some (JStr [])
  /\ @getAttributes asciiHost span !! str "x"
     = Some (JStr (str "mastra.metadata.gen_ai.tool.call.arguments")).
Proof.
  intros span. split; [reflexivity|].
  rewrite (proj2 (@metadata_guard_is_truthiness asciiHost span)
             (str "gen_ai.tool.call.arguments") (JStr (str "x")) (JStr [])
             eq_refl eq_refl eq_refl)
    by discriminate.
  apply lookup_insert_eq.
Defined.

Lemma metadata_pass_frame_witness :
  let span := withMetadata [(str "tenant", JStr (str "acme"))]
                (plainSpan (OTHER (str "generic"))) in
  is_Some (@getAttributes asciiHost span !! str "mastra.span.type").
Proof.
  intros span.
  apply (proj1 (proj2 (@metadata_pass_frame asciiHost span (str "mastra.span.type")))).
  eexists. reflexivity.
Defined.

(** ** The converter, further *)

Section ConverterMore.
Context {host : Host}.

Lemma resourceFromAttributes_lookup (attributes : Attributes) (k : jsstring) :
  resourceFromAttributes attributes !! k
  = match attributes !! k with
    | Some v => if nullishValue v || inherited k then None else Some v
    | None => None
    end.
Proof.
  unfold resourceFromAttributes.
  destruct (attributes !! k) as [v|] eqn:Hk.
  - destruct (nullishValue v) eqn:Hv; cbn [orb].
    + apply map_lookup_filter_None. right. intros x Hx [Hnull _].
      cbn [fst snd] in Hnull. congruence.
    + destruct (inherited k) eqn:Hi.
      * apply map_lookup_filter_None. right. intros x Hx [_ Hinh].
        cbn [fst snd] in Hinh. congruence.
      * apply map_lookup_filter_Some_2; [exact Hk | split; assumption].
  - apply map_lookup_filter_None. now left.
Qed.

Ltac default_present :=
  let v := fresh "v" in
  let Hv := fresh "Hv" in
  let Hno := fresh "Hno" in
  let E := fresh "E" in
  rewrite lookup_insert_eq; cbn [nullishValue orb];
  match goal with
  | |- context [inherited ?k] => change (inherited k) with false
  end;
  split; [|intros Hno; exfalso; eapply Hno; cbn [In]; eauto 6];
  intros v Hv; cbn [In] in Hv;
  repeat (destruct Hv as [Hv|Hv];
          [first [ congruence
                 | exfalso; injection Hv as E _; cbv in E; discriminate E ]|]);
  destruct Hv.

Lemma resourceDefaults_lookup (params : Params) (packageVersion serviceVersion : jsstring)
    (k : jsstring) :
  let defaults : Attributes :=
    <[str "telemetry.sdk.language" := JStr (str "nodejs")]>
      (<[str "telemetry.sdk.version" := JStr packageVersion]>
         (<[str "telemetry.sdk.name" := JStr (packageName params)]>
            (<[str "service.version" := JStr serviceVersion]>
               (<[str "service.name" :=
                    JStr (if optTruthy (serviceName params)
                          then default [] (serviceName params)
                          else str "mastra-service")]> ∅)))) in
  (forall v, In (k, v) (resourceDefaults params packageVersion serviceVersion) ->
     resourceFromAttributes defaults !! k = Some v)
  /\ ((forall v, ~ In (k, v) (resourceDefaults params packageVersion serviceVersion)) ->
      resourceFromAttributes defaults !! k = None).
Proof.
  cbv zeta. rewrite resourceFromAttributes_lookup.
  assert (Hname : (if optTruthy (serviceName params)
                   then default [] (serviceName params) else str "mastra-service")
                  = match serviceName params with
                    | Some (c :: name) => c :: name
                    | _ => str "mastra-service"
                    end).
  { destruct (serviceName params) as [[|c name]|]; reflexivity. }
  rewrite Hname. unfold resourceDefaults.
  destruct (decide (k = str "telemetry.sdk.language")) as [->|H1];
    [default_present|].
  rewrite lookup_insert_ne by congruence.
  destruct (decide (k = str "telemetry.sdk.version")) as [->|H2];
    [default_present|].
  rewrite lookup_insert_ne by congruence.
  destruct (decide (k = str "telemetry.sdk.name")) as [->|H3];
    [default_present|].
  rewrite lookup_insert_ne by congruence.
  destruct (decide (k = str "service.version")) as [->|H4];
    [default_present|].
  rewrite lookup_insert_ne by congruence.
  destruct (decide (k = str "service.name")) as [->|H5];
    [default_present|].
  rewrite lookup_insert_ne by congruence. rewrite lookup_empty.
  split; [|reflexivity].
  intros v Hv. exfalso. cbn [In] in Hv.
  repeat (destruct Hv as [Hv|Hv]; [injection Hv as E _; congruence|]).
  destruct Hv.
Qed.

Lemma initResource_lookup (params : Params) (packageVersion serviceVersion : jsstring)
    (k : jsstring) :
  let resource := initResource params packageVersion serviceVersion in
  let overrides := default ∅ (config params ≫= resourceAttributes) in
  (forall v, overrides !! k = Some v -> nullishValue v = false ->
     ~ In k Object_prototype -> resource !! k = Some v)
  /\ (forall v,
        overrides !! k = None
        \/ (exists x, overrides !! k = Some x /\ nullishValue x = true) ->
        In (k, v) (resourceDefaults params packageVersion serviceVersion) ->
        resource !! k = Some v)
  /\ (overrides !! k = None
      \/ (exists x, overrides !! k = Some x /\ nullishValue x = true) ->
      (forall v, ~ In (k, v) (resourceDefaults params packageVersion serviceVersion)) ->
      resource !! k = None)
  /\ (forall v, resource !! k = Some v -> nullishValue v = false).
Proof.
  cbv zeta.
  destruct (resourceDefaults_lookup params packageVersion serviceVersion k)
    as [Hdefault Hnone].
  assert (Hclean : forall (a : Attributes) v,
            resourceFromAttributes a !! k = Some v -> nullishValue v = false).
  { intros a v. rewrite resourceFromAttributes_lookup.
    destruct (a !! k) as [x|]; [|discriminate].
    destruct (nullishValue x) eqn:Hx; cbn [orb]; [discriminate|].
    destruct (inherited k); [discriminate|]. now intros [= <-]. }
  unfold initResource, Resource_merge.
  destruct (config params ≫= resourceAttributes) as [ra|] eqn:Hcfg; cbn [default].
  - assert (Hdropped :
              ra !! k = None \/ (exists x, ra !! k = Some x /\ nullishValue x = true) ->
              resourceFromAttributes ra !! k = None).
    { rewrite resourceFromAttributes_lookup.
      intros [-> | (x & -> & ->)]; reflexivity. }
    split; [|split; [|split]].
    + intros v Hv Hnull Hproto. change (ra !! k = Some v) in Hv.
      apply lookup_union_Some_l.
      rewrite resourceFromAttributes_lookup, Hv, Hnull.
      apply inherited_not_In in Hproto. now rewrite Hproto.
    + intros v Hcase Hv. rewrite lookup_union_r by (apply Hdropped; exact Hcase).
      now apply Hdefault.
    + intros Hcase Hnot. rewrite lookup_union_r by (apply Hdropped; exact Hcase).
      now apply Hnone.
    + intros v Hv. apply lookup_union_Some_raw in Hv as [Hv | [_ Hv]];
        eapply Hclean; exact Hv.
  - split; [|split; [|split]].
    + intros v Hv. rewrite lookup_empty in Hv. discriminate.
    + intros v _ Hv. now apply Hdefault.
    + intros _ Hnot. now apply Hnone.
    + intros v Hv. eapply Hclean; exact Hv.
Qed.


(** X17.  In the resource that the initialisation builds, an attribute of
    the configuration overrides the default under the same key, unless its
    value is null or undefined; each of the five defaults (service name,
    falling back to "mastra-service" when the name is missing or empty,
    service version, SDK name, SDK version, SDK language) holds where the
    configuration has no such key or has null or undefined under it;
    nothing else is there, and no attribute of the resource is null or
    undefined.  Of a configured key that [Object.prototype] has nothing is
    said. *)
Theorem initResource_overrides (params : Params) (packageVersion serviceVersion : jsstring)
    (k : jsstring) :
  let resource := initResource params packageVersion serviceVersion in
  let overrides := default ∅ (config params ≫= resourceAttributes) in
  (forall v, overrides !! k = Some v -> nullishValue v = false ->
     ~ In k Object_prototype -> resource !! k = Some v)
  /\ (forall v,
        overrides !! k = None
        \/ (exists x, overrides !! k = Some x /\ nullishValue x = true) ->
        In (k, v) (resourceDefaults params packageVersion serviceVersion) ->
        resource !! k = Some v)
  /\ (overrides !! k = None
      \/ (exists x, overrides !! k = Some x /\ nullishValue x = true) ->
      (forall v, ~ In (k, v) (resourceDefaults params packageVersion serviceVersion)) ->
      resource !! k = None)
  /\ (forall v, resource !! k = Some v -> nullishValue v = false).
Proof. apply initResource_lookup. Qed.

Lemma run_snoc (params : Params) (events : list Event) (e : Event) :
  run params (events ++ [e]) = step (run params events) e.
Proof. unfold run. now rewrite List.fold_left_app. Qed.

Lemma run_app (params : Params) (events events' : list Event) :
  run params (events ++ events') = List.fold_left step events' (run params events).
Proof. unfold run. now rewrite List.fold_left_app. Qed.

Lemma spansOf_snoc (events : list Event) (e : Event) :
  spansOf (events ++ [e])
  = spansOf events ++ match e with ConvertSpan span => [span] | _ => [] end.
Proof.
  unfold spansOf. rewrite List.flat_map_app. simpl. now rewrite List.app_nil_r.
Qed.

Lemma calls_in_order (params : Params) (events : list Event) :
  List.map call_span (calls (run params events)) = spansOf events.
Proof.
  induction events as [|e events IH] using List.rev_ind; [reflexivity|].
  rewrite run_snoc, spansOf_snoc, <- IH. clear IH.
  pose proof (singleFlight_run params events) as (_ & _ & Hstate).
  destruct (run params events) as [[p res sc ip] lk st sus fin].
  unfold calls in *. simpl in *.
  destruct e as [span | found | reason]; simpl.
  - unfold convertSpan, initIfNeeded; simpl.
    destruct ip as [[i [[|pv]| |reason]]|]; simpl in *.
    + now rewrite !List.map_app, <- List.app_assoc.
    + now rewrite !List.map_app, <- List.app_assoc.
    + destruct Hstate as (_ & _ & _ & -> & _).
      now rewrite !List.app_nil_r, !List.map_app.
    + destruct Hstate as (_ & _ & _ & -> & _).
      now rewrite !List.app_nil_r, !List.map_app.
    + now rewrite !List.map_app, <- List.app_assoc.
  - unfold versionResolved; simpl.
    destruct ip as [[i [[|pv]| |reason]]|]; simpl in *;
      rewrite ?List.app_nil_r; try reflexivity.
    rewrite !List.map_app, !List.map_map. reflexivity.
  - unfold initThrows; simpl.
    destruct ip as [[i [[|pv]| |reason']]|]; simpl in *;
      rewrite ?List.app_nil_r; try reflexivity;
      (rewrite !List.map_app, !List.map_map; reflexivity).
Qed.

(** X19.  The calls of a converter, ended or suspended, are the calls made,
    in their order: none is lost, doubled or reordered.  The span that a
    call returns is the conversion of the span it was called with: same
    ids, its name and its attributes. *)
Theorem convertSpan_answers_each_call (params : Params) (events : list Event) :
  let r := run params events in
  List.map call_span (calls r) = spansOf events
  /\ (forall call span, In (call, Returned span) (finished r) ->
        spanId (spanContext span) = ExportedSpan.id (call_span call)
        /\ traceId (spanContext span) = ExportedSpan.traceId (call_span call)
        /\ name span = getSpanName (call_span call)
        /\ attributes span = getAttributes (call_span call)).
Proof.
  cbv zeta. split; [apply calls_in_order|].
  intros call span Hin.
  pose proof (singleFlight_run params events) as (_ & _ & Hstate).
  destruct (SpanConverter.initPromise (converter (run params events)))
    as [[i [[|pv]| |reason]]|]; simpl in Hstate.
  - destruct Hstate as (_ & _ & _ & Hfin & _). rewrite Hfin in Hin. destruct Hin.
  - destruct Hstate as (_ & _ & _ & Hfin & _). rewrite Hfin in Hin. destruct Hin.
  - destruct Hstate as (_ & _ & _ & _ & R & S & _ & _ & Hfin).
    apply Hfin in Hin. injection Hin as ->. repeat split.
  - destruct Hstate as (_ & _ & _ & _ & _ & _ & Hfin).
    apply Hfin in Hin. discriminate Hin.
  - destruct Hstate as (_ & _ & Hcalls & _).
    apply In_calls_finished in Hin. rewrite Hcalls in Hin. destruct Hin.
Qed.

Lemma step_settled (r : Run) (e : Event) :
  settled r ->
  settled (step r e)
  /\ converter (step r e) = converter r
  /\ lookups (step r e) = lookups r
  /\ started (step r e) = started r
  /\ exists more, finished (step r e) = finished r ++ more.
Proof.
  destruct r as [[p res sc ip] lk st sus fin].
  unfold settled, initState. simpl.
  intros Hsettled.
  destruct ip as [[i [stage| |reason]]|]; simpl in Hsettled.
  - destruct Hsettled as [H | [reason H]]; discriminate H.
  - destruct e; simpl; repeat split; auto;
      first [now exists [] ; rewrite List.app_nil_r | eexists; reflexivity].
  - destruct e; simpl; repeat split; auto;
      first [now exists [] ; rewrite List.app_nil_r | eexists; reflexivity].
  - destruct Hsettled as [H | [reason H]]; discriminate H.
Qed.

(** X20.  Once the promise of a converter is settled, nothing that happens
    later changes the converter, its resource and scope included, or starts
    a lookup or an initialisation; the calls that have ended stay as they
    are. *)
Theorem settled_converter_is_frozen (params : Params) (events events' : list Event) :
  let r := run params events in
  let r' := run params (events ++ events') in
  settled r ->
  converter r' = converter r
  /\ lookups r' = lookups r
  /\ started r' = started r
  /\ exists more, finished r' = finished r ++ more.
Proof.
  cbv zeta. rewrite run_app. generalize (run params events). intros r.
  revert r. induction events' as [|e events' IH]; intros r Hr; simpl.
  - repeat split. exists []. now rewrite List.app_nil_r.
  - destruct (step_settled r e Hr) as (Hs & Hc & Hl & Hst & more & Hf).
    destruct (IH (step r e) Hs) as (Hc' & Hl' & Hst' & more' & Hf').
    rewrite Hc', Hl', Hst', Hf', Hc, Hl, Hst, Hf.
    repeat split. exists (more ++ more'). now rewrite List.app_assoc.
Qed.

(** X21.  After a successful initialisation a call of [convertSpan] is
    answered at once with the span built on the stored resource and scope,
    and changes nothing else. *)
Theorem convertSpan_after_init (params : Params) (events : list Event) :
  let r := run params events in
  initState r = Some Fulfilled ->
  exists resource scope,
    SpanConverter.resource (converter r) = Some resource
    /\ SpanConverter.scope (converter r) = Some scope
    /\ forall span,
         let r' := step r (ConvertSpan span) in
         converter r' = converter r
         /\ lookups r' = lookups r
         /\ started r' = started r
         /\ suspended r' = []
         /\ finished r'
            = finished r
                ++ [(firstCall span, Returned (new_OtelSpan span scope (Some resource)))].
Proof.
  cbv zeta. intros Hf.
  pose proof (singleFlight_run params events) as (_ & _ & Hstate).
  unfold initState in Hf.
  destruct (run params events) as [[p res sc ip] lk st sus fin]. simpl in *.
  destruct ip as [[i state]|]; [|discriminate].
  simpl in Hf. injection Hf as ->. simpl in Hstate.
  destruct Hstate as (_ & -> & _ & -> & R & S & -> & -> & _).
  exists R, S. repeat split.
Qed.

Lemma builtFrom_step (params : Params) (r : Run) (e : Event) :
  builtFrom params (converter r) -> builtFrom params (converter (step r e)).
Proof.
  destruct r as [[p res sc ip] lk st sus fin]. unfold builtFrom. simpl.
  intros [-> Hbuilt].
  destruct e as [span | found | reason]; simpl.
  - unfold convertSpan, initIfNeeded; simpl.
    destruct ip as [[i [[|pv]| |reason]]|]; simpl; split; auto.
  - unfold versionResolved; simpl.
    destruct ip as [[i [[|pv]| |reason]]|]; simpl; split; auto.
    intros R S [= <-] [= <-]. eexists _, _. split; reflexivity.
  - unfold initThrows; simpl.
    destruct ip as [[i [[|pv]| |reason']]|]; simpl; split; auto.
Qed.

Lemma builtFrom_run (params : Params) (events : list Event) :
  builtFrom params (converter (run params events)).
Proof.
  induction events as [|e events IH] using List.rev_ind.
  - split; [reflexivity | discriminate].
  - rewrite run_snoc. now apply builtFrom_step.
Qed.

(** X22.  Every span that a converter returns names the package of the
    converter as its instrumentation scope, and its resource is the one
    built with the version of that scope: unless the configuration
    overrides them, telemetry.sdk.version is the scope version and
    telemetry.sdk.name the scope name. *)
Theorem produced_spans_scope_and_resource (params : Params) (events : list Event)
    (call : Call) (span : OtelSpan) :
  In (call, Returned span) (finished (run params events)) ->
  scope_name (instrumentationScope span) = packageName params
  /\ (exists serviceVersion,
        resource span
        = initResource params (scope_version (instrumentationScope span))
            serviceVersion)
  /\ ((config params ≫= resourceAttributes) ≫= (.!! str "telemetry.sdk.version")
        = None ->
      resource span !! str "telemetry.sdk.version"
      = Some (JStr (scope_version (instrumentationScope span))))
  /\ ((config params ≫= resourceAttributes) ≫= (.!! str "telemetry.sdk.name")
        = None ->
      resource span !! str "telemetry.sdk.name"
      = Some (JStr (scope_name (instrumentationScope span)))).
Proof.
  intros Hin.
  pose proof (singleFlight_run params events) as (_ & _ & Hstate).
  pose proof (builtFrom_run params events) as [_ Hbuilt].
  assert (Hspan : exists pv sv,
            instrumentationScope span
            = {| scope_name := packageName params; scope_version := pv |}
            /\ resource span = initResource params pv sv).
  { destruct (SpanConverter.initPromise (converter (run params events)))
      as [[i [[|pv]| |reason]]|]; simpl in Hstate.
    - destruct Hstate as (_ & _ & _ & Hfin & _). rewrite Hfin in Hin. destruct Hin.
    - destruct Hstate as (_ & _ & _ & Hfin & _). rewrite Hfin in Hin. destruct Hin.
    - destruct Hstate as (_ & _ & _ & _ & R & S & HR & HS & Hfin).
      apply Hfin in Hin. injection Hin as ->.
      destruct (Hbuilt R S HR HS) as (pv & sv & -> & ->).
      exists pv, sv. split; reflexivity.
    - destruct Hstate as (_ & _ & _ & _ & _ & _ & Hfin).
      apply Hfin in Hin. discriminate Hin.
    - destruct Hstate as (_ & _ & Hcalls & _).
      apply In_calls_finished in Hin. rewrite Hcalls in Hin. destruct Hin. }
  destruct Hspan as (pv & sv & -> & ->). simpl.
  split; [reflexivity | split; [now exists sv | split]].
  - intros Hno.
    destruct (initResource_lookup params pv sv (str "telemetry.sdk.version"))
      as (_ & Hdefault & _).
    apply Hdefault.
    + left. destruct (config params ≫= resourceAttributes);
        [exact Hno | apply lookup_empty].
    + unfold resourceDefaults. cbn [In]. tauto.
  - intros Hno.
    destruct (initResource_lookup params pv sv (str "telemetry.sdk.name"))
      as (_ & Hdefault & _).
    apply Hdefault.
    + left. destruct (config params ≫= resourceAttributes);
        [exact Hno | apply lookup_empty].
    + unfold resourceDefaults. cbn [In]. tauto.
Qed.

End ConverterMore.

Lemma initResource_overrides_witness :
  @initResource overridingParams (str "1.2.3") (str "0.9.0") !! str "service.name"
  = Some (JStr (str "edge")).
Proof.
  apply (proj1 (initResource_overrides overridingParams (str "1.2.3") (str "0.9.0")
                  (str "service.name"))); [reflexivity | reflexivity |].
  intros Hin. cbn [In Object_prototype] in Hin.
  repeat (destruct Hin as [Hin|Hin]; [discriminate Hin|]). exact Hin.
Defined.

Lemma convertSpan_answers_each_call_witness :
  List.map call_span (calls (@run asciiHost sampleParams initialisedTrace))
  = [plainSpan AGENT_RUN; plainSpan TOOL_CALL]
  /\ exists call span,
       In (call, Returned span) (finished (@run asciiHost sampleParams initialisedTrace))
       /\ spanId (spanContext span) = ExportedSpan.id (call_span call).
Proof.
  destruct (@convertSpan_answers_each_call asciiHost sampleParams initialisedTrace)
    as [Horder Hown].
  split; [exact Horder|].
  eexists (firstCall (plainSpan AGENT_RUN)), _.
  split; [left; reflexivity|].
  apply (Hown (firstCall (plainSpan AGENT_RUN))). left. reflexivity.
Defined.

Lemma settled_converter_is_frozen_witness :
  converter (@run asciiHost sampleParams
               (initialisedTrace
                  ++ [ConvertSpan (plainSpan WORKFLOW_RUN);
                      InitThrows (Error (str "late")); VersionResolved Unparsable]))
  = converter (@run asciiHost sampleParams initialisedTrace).
Proof.
  apply (@settled_converter_is_frozen asciiHost sampleParams initialisedTrace).
  left. reflexivity.
Defined.

Lemma convertSpan_after_init_witness :
  exists resource scope,
    finished (@step asciiHost (@run asciiHost sampleParams initialisedTrace)
                (ConvertSpan (plainSpan WORKFLOW_RUN)))
    = finished (@run asciiHost sampleParams initialisedTrace)
        ++ [(firstCall (plainSpan WORKFLOW_RUN),
             Returned (@new_OtelSpan asciiHost (plainSpan WORKFLOW_RUN) scope
                         (Some resource)))].
Proof.
  destruct (@convertSpan_after_init asciiHost sampleParams initialisedTrace eq_refl)
    as (resource & scope & _ & _ & Hcall).
  exists resource, scope. apply Hcall.
Defined.

Lemma produced_spans_scope_and_resource_witness :
  exists call span,
    In (call, Returned span) (finished (@run asciiHost sampleParams initialisedTrace))
    /\ scope_name (instrumentationScope span) = str "@mastra/otel-exporter".
Proof.
  eexists _, _. split; [left; reflexivity|].
  apply (@produced_spans_scope_and_resource asciiHost sampleParams initialisedTrace
           (firstCall (plainSpan AGENT_RUN))).
  left. reflexivity.
Defined.
